(** * The in-memory virtual file system of kube-compose (internal/pkg/fs/fs.go)

    A shallow embedding of [VirtualFileSystem], its path resolver
    ([findHelper]), the tree builder ([Set], [createChildren]) and the file
    descriptors ([Read], [Readdir]), followed by properties of the code
    (resolution by name components and through symlinks, the stores that
    [Set] builds and what it leaves in place, descriptors) and by the
    properties of the design document that concern them.

    Go pointers to nodes are addresses into an explicit store, so that
    in-place updates made through one pointer are seen through every other
    one (a descriptor keeps pointing at the node that [Set] later mutates).
    Go panics are an outcome of their own, distinct from returned [error]
    values. *)

From Stdlib Require Import ZArith Lia Bool Ascii String List.
From stdpp Require Import base list.
Import ListNotations.

Local Open Scope string_scope.
Local Open Scope Z_scope.

(** ** Go values: errors, panics, outcomes *)

(** The error values that flow through fs.go.  The three package variables,
    the two anonymous [fmt.Errorf] values that are only ever panicked with,
    the three sentinels of the Go libraries, and any other value a caller
    places in [VirtualFile.Error]. *)
Inductive error : Type :=
| errBadMode
| errIsDirDisagreement
| errTooManyLinks
| errNameComp        (* the fmt.Errorf of validateNameComp *)
| errNotSupported    (* the fmt.Errorf of Readdir *)
| ENOTDIR            (* syscall.ENOTDIR *)
| ErrNotExist        (* os.ErrNotExist *)
| EOF                (* io.EOF *)
| Custom (msg : string).

Definition error_eqb (a b : error) : bool :=
  match a, b with
  | errBadMode, errBadMode => true
  | errIsDirDisagreement, errIsDirDisagreement => true
  | errTooManyLinks, errTooManyLinks => true
  | errNameComp, errNameComp => true
  | errNotSupported, errNotSupported => true
  | ENOTDIR, ENOTDIR => true
  | ErrNotExist, ErrNotExist => true
  | EOF, EOF => true
  | Custom x, Custom y => String.eqb x y
  | _, _ => false
  end.

(** Run-time panics of the Go runtime itself. *)
Inductive runtime_panic : Type :=
| NilDereference
| TypeAssertion
| SliceBounds.

Inductive panic_value : Type :=
| PanicError (e : error)
| PanicRuntime (r : runtime_panic).

(** The outcome of running a piece of Go code: a value, a panic, or (for the
    loops modelled with fuel) exhaustion of the fuel. *)
Inductive go (A : Type) : Type :=
| Ret (a : A)
| Panicked (v : panic_value)
| OutOfFuel.
Arguments Ret {A} a.
Arguments Panicked {A} v.
Arguments OutOfFuel {A}.

Definition go_bind {A B : Type} (m : go A) (k : A -> go B) : go B :=
  match m with
  | Ret a => k a
  | Panicked v => Panicked v
  | OutOfFuel => OutOfFuel
  end.

Declare Scope go_scope.
Delimit Scope go_scope with go.
Notation "x <- m ;; k" := (go_bind m (fun x => k))
  (at level 100, m at next level, right associativity) : go_scope.

(** ** Go strings and byte slices *)

Definition byte := Byte.byte.

(** [strings.IndexByte(s, c)]: index of the first [c] in [s], or -1. *)
Fixpoint IndexByte (s : string) (c : ascii) : Z :=
  match s with
  | EmptyString => -1
  | String a s' =>
      if Ascii.eqb a c then 0
      else let i := IndexByte s' c in if i <? 0 then -1 else i + 1
  end.

(** [s[i:]] and [s[:i]] for an index within bounds. *)
Fixpoint str_drop (k : nat) (s : string) : string :=
  match k, s with
  | O, _ => s
  | S k', String _ s' => str_drop k' s'
  | S _, EmptyString => EmptyString
  end.

Fixpoint str_take (k : nat) (s : string) : string :=
  match k, s with
  | O, _ => EmptyString
  | S k', String a s' => String a (str_take k' s')
  | S _, EmptyString => EmptyString
  end.

Definition slice_from (s : string) (i : Z) : string := str_drop (Z.to_nat i) s.
Definition slice_to (s : string) (i : Z) : string := str_take (Z.to_nat i) s.

Definition str_is_empty (s : string) : bool :=
  match s with EmptyString => true | _ => false end.

(** [s[i:]] with the bounds check of the Go runtime. *)
Definition slice_from_checked (s : string) (i : Z) : go string :=
  if (0 <=? i) && (i <=? Z.of_nat (String.length s))
  then Ret (slice_from s i)
  else Panicked (PanicRuntime SliceBounds).

(** ** os.FileMode *)

Definition FileMode := Z.

Definition ModeDir : FileMode := 2 ^ 31.
Definition ModeSymlink : FileMode := 2 ^ 27.
Definition ModeDevice : FileMode := 2 ^ 26.
Definition ModeNamedPipe : FileMode := 2 ^ 25.
Definition ModeSocket : FileMode := 2 ^ 24.
Definition ModeCharDevice : FileMode := 2 ^ 21.
Definition ModeIrregular : FileMode := 2 ^ 19.
Definition ModeType : FileMode :=
  Eval cbv in
    Z.lor ModeDir (Z.lor ModeSymlink (Z.lor ModeNamedPipe (Z.lor ModeSocket
      (Z.lor ModeDevice (Z.lor ModeCharDevice ModeIrregular))))).

Definition FileMode_IsDir (m : FileMode) : bool := negb (Z.land m ModeDir =? 0).
Definition FileMode_IsRegular (m : FileMode) : bool := Z.land m ModeType =? 0.

(** ** Nodes and the store *)

Abbreviation ptr := nat.

(** The dynamic content of the [extra interface{}] field. *)
Inductive Extra : Type :=
| ExtraBytes (b : list byte)      (* []byte *)
| ExtraDir (children : list ptr). (* []*node *)

(** Modelled from the spec: the [node] struct is declared outside fs.go.
    Its fields are the ones fs.go reads and writes ([err], [extra], [mode],
    [name]); the spec's Node has a name, a type/mode, an optional injected
    error and a payload that is a byte sequence (file content or symlink
    target) or an ordered sequence of children. *)
Record node : Type := mkNode {
  node_err : option error;
  node_extra : Extra;
  node_mode : FileMode;
  node_name : string
}.

(** The store: the nodes allocated so far, a pointer being an index. *)
Abbreviation store := (list node).

Definition deref (h : store) (p : ptr) : go node :=
  match h !! p with
  | Some x => Ret x
  | None => Panicked (PanicRuntime NilDereference)
  end.

(** [x.([]*node)] and [x.([]byte)] *)
Definition assert_dir (x : Extra) : go (list ptr) :=
  match x with
  | ExtraDir d => Ret d
  | ExtraBytes _ => Panicked (PanicRuntime TypeAssertion)
  end.

Definition assert_bytes (x : Extra) : go (list byte) :=
  match x with
  | ExtraBytes b => Ret b
  | ExtraDir _ => Panicked (PanicRuntime TypeAssertion)
  end.

(** Modelled from the spec: [newDirNode] is declared outside fs.go.  It makes
    a Directory node with the given name, no injected error and an empty
    child list; the root, made by [newDirNode(0, "/")], is a Directory, so
    the directory bit is added to the mode passed in. *)
Definition newDirNode (mode : FileMode) (name : string) : node :=
  {| node_err := None;
     node_extra := ExtraDir [];
     node_mode := Z.lor mode ModeDir;
     node_name := name |}.

(** Modelled from the spec: [dirLookup] is declared outside fs.go.  Children
    are kept in insertion order and looked up by exact, case-sensitive name;
    the result is nil when no child has the name. *)
Fixpoint dirLookup_children (h : store) (dir : list ptr) (nameComp : string)
  : go (option ptr) :=
  match dir with
  | [] => Ret None
  | c :: dir' =>
      (childN <- deref h c ;;
       if String.eqb (node_name childN) nameComp then Ret (Some c)
       else dirLookup_children h dir' nameComp)%go
  end.

Definition dirLookup (h : store) (n : node) (nameComp : string) : go (option ptr) :=
  (dir <- assert_dir (node_extra n) ;;
   dirLookup_children h dir nameComp)%go.

(** ** The resolver *)

Record VirtualFileSystem : Type := mkVFS {
  cwd : string;
  root : ptr
}.

Definition VirtualFileSystem_abs (fs : VirtualFileSystem) (name : string) : string :=
  match name with
  | EmptyString => (cwd fs ++ name)%string
  | String c _ => if Ascii.eqb c "/" then name else (cwd fs ++ name)%string
  end.

Record findHelper : Type := mkFindHelper {
  f_fs : VirtualFileSystem;
  f_ignoreInjectedFaults : bool;
  f_links : Z;
  f_nameRem : string;
  f_n : ptr;
  f_resolveSymlinks : bool
}.

Definition set_nameRem (f : findHelper) (s : string) : findHelper :=
  {| f_fs := f_fs f; f_ignoreInjectedFaults := f_ignoreInjectedFaults f;
     f_links := f_links f; f_nameRem := s; f_n := f_n f;
     f_resolveSymlinks := f_resolveSymlinks f |}.

Definition set_n (f : findHelper) (p : ptr) : findHelper :=
  {| f_fs := f_fs f; f_ignoreInjectedFaults := f_ignoreInjectedFaults f;
     f_links := f_links f; f_nameRem := f_nameRem f; f_n := p;
     f_resolveSymlinks := f_resolveSymlinks f |}.

Definition set_links (f : findHelper) (l : Z) : findHelper :=
  {| f_fs := f_fs f; f_ignoreInjectedFaults := f_ignoreInjectedFaults f;
     f_links := l; f_nameRem := f_nameRem f; f_n := f_n f;
     f_resolveSymlinks := f_resolveSymlinks f |}.

Definition is_dot_comp (nameComp : string) : bool :=
  String.eqb nameComp "." || String.eqb nameComp "..".

Definition validateNameComp (nameComp : string) : go unit :=
  if is_dot_comp nameComp then Panicked (PanicError errNameComp) else Ret tt.

(** [getChildN] returns the Go pair (child, err). *)
Definition findHelper_getChildN (h : store) (f : findHelper) (nameComp : string)
  : go (option ptr * option error) :=
  if str_is_empty nameComp then Ret (None, None)
  else
    (_ <- validateNameComp nameComp ;;
     cur <- deref h (f_n f) ;;
     if Z.land (node_mode cur) ModeDir =? 0 then Ret (None, Some ENOTDIR)
     else
       childN <- dirLookup h cur nameComp ;;
       match childN with
       | None => Ret (None, Some ErrNotExist)
       | Some c => Ret (Some c, None)
       end)%go.

Definition findHelper_getNameComp (f : findHelper) (slashPos : Z) : string :=
  if slashPos <? 0 then f_nameRem f else slice_to (f_nameRem f) slashPos.

Definition findHelper_updateNameRemFromSlashPos (f : findHelper) (slashPos : Z)
  : findHelper :=
  if slashPos <? 0 then set_nameRem f ""
  else set_nameRem f (slice_from (f_nameRem f) (slashPos + 1)).

(** [updateFromChildN] returns the updated helper and the Go error. *)
Definition findHelper_updateFromChildN (h : store) (f : findHelper) (childN : ptr)
  : go (findHelper * option error) :=
  (c <- deref h childN ;;
   if negb (Z.land (node_mode c) ModeSymlink =? 0) then
     if f_resolveSymlinks f then
       let f := set_links f (f_links f + 1) in
       if f_links f >? 255 then Ret (f, Some errTooManyLinks)
       else
         target <- assert_bytes (node_extra c) ;;
         let '(j, f) :=
           match target with
           | b :: _ =>
               (* absolute path *)
               if Byte.eqb b Byte.x2f then (1, set_n f (root (f_fs f))) else (0, f)
           | [] => (0, f)
           end in
         Ret (set_nameRem f
                (slice_from (string_of_list_byte target) j ++ "/" ++ f_nameRem f)%string,
              None)
     else Ret (f, None)
   else Ret (set_n f childN, None))%go.

(** [!f.ignoreInjectedFaults && f.n.err != nil], giving the error when the
    condition holds. *)
Definition findHelper_injectedFault (h : store) (f : findHelper)
  : go (option error) :=
  if f_ignoreInjectedFaults f then Ret None
  else (cur <- deref h (f_n f) ;; Ret (node_err cur))%go.

(** One iteration of the loop of [run], entered with a non-empty [nameRem].
    [Some e] in the result is [return e]; [None] goes round the loop. *)
Definition findHelper_run_body (h : store) (f : findHelper)
  : go (findHelper * option error) :=
  (fault <- findHelper_injectedFault h f ;;
   match fault with
   | Some e => Ret (f, Some e)
   | None =>
       let slashPos := IndexByte (f_nameRem f) "/" in
       let nameComp := findHelper_getNameComp f slashPos in
       r <- findHelper_getChildN h f nameComp ;;
       let '(childN, err) := r in
       match err with
       | Some e => Ret (f, Some e)
       | None =>
           let f := findHelper_updateNameRemFromSlashPos f slashPos in
           match childN with
           | Some c =>
               (* nameComp != "" *)
               findHelper_updateFromChildN h f c
           | None => Ret (f, None)
           end
       end
   end)%go.

(** The check after the loop. *)
Definition findHelper_run_exit (h : store) (f : findHelper)
  : go (findHelper * option error) :=
  (fault <- findHelper_injectedFault h f ;; Ret (f, fault))%go.

Fixpoint findHelper_run_loop (fuel : nat) (h : store) (f : findHelper)
  : go (findHelper * option error) :=
  match fuel with
  | O => OutOfFuel
  | S fuel' =>
      if str_is_empty (f_nameRem f) then findHelper_run_exit h f
      else
        (r <- findHelper_run_body h f ;;
         let '(f', err) := r in
         match err with
         | Some e => Ret (f', Some e)
         | None => findHelper_run_loop fuel' h f'
         end)%go
  end.

(** The loop of [run] ends: every iteration either consumes at least one
    byte of [nameRem], or follows a link, which it does at most 255 times and
    which adds at most one symlink target and a separator to [nameRem].  The
    fuel below is therefore never used up ([findHelper_run_terminates]). *)
Definition extra_len (x : Extra) : nat :=
  match x with
  | ExtraBytes b => length b
  | ExtraDir _ => O
  end.

Definition max_target (h : store) : nat :=
  foldr (fun x m => Nat.max (extra_len (node_extra x)) m) O h.

Definition run_fuel (h : store) (f : findHelper) : nat :=
  (Z.to_nat (256 - f_links f) * (max_target h + 2)
   + String.length (f_nameRem f) + 1)%nat.

Definition findHelper_run (h : store) (f : findHelper)
  : go (findHelper * option error) :=
  findHelper_run_loop (run_fuel h f) h f.

(** The [findHelper] literal of [find]. *)
Definition find_start (fs : VirtualFileSystem) (nameRem : string)
    (ignoreInjectedFaults resolveSymlinks : bool) : findHelper :=
  {| f_fs := fs;
     f_ignoreInjectedFaults := ignoreInjectedFaults;
     f_links := 0;
     f_nameRem := nameRem;
     f_n := root fs;
     f_resolveSymlinks := resolveSymlinks |}.

(** [find] returns the Go triple (n, nameRem, err). *)
Definition VirtualFileSystem_find (h : store) (fs : VirtualFileSystem)
    (name : string) (ignoreInjectedFaults resolveSymlinks : bool)
  : go (ptr * string * option error) :=
  (nameRem <- slice_from_checked (VirtualFileSystem_abs fs name) 1 ;;
   let f := find_start fs nameRem ignoreInjectedFaults resolveSymlinks in
   r <- findHelper_run h f ;;
   let '(f, err) := r in
   Ret (f_n f, f_nameRem f, err))%go.

(** ** Code that writes to the store *)

(** A computation that may update the store; the store that comes back with
    a panic is the one the panic left behind. *)
Definition st (A : Type) : Type := store -> store * go A.

Definition st_ret {A : Type} (a : A) : st A := fun h => (h, Ret a).

Definition st_bind {A B : Type} (m : st A) (k : A -> st B) : st B :=
  fun h =>
    match m h with
    | (h', Ret a) => k a h'
    | (h', Panicked v) => (h', Panicked v)
    | (h', OutOfFuel) => (h', OutOfFuel)
    end.

Definition st_lift {A : Type} (m : store -> go A) : st A := fun h => (h, m h).

Definition st_panic {A : Type} (e : error) : st A :=
  fun h => (h, Panicked (PanicError e)).

(** [&node{...}] *)
Definition st_new (x : node) : st ptr := fun h => ((h ++ [x])%list, Ret (length h)).

(** [*p = x] *)
Definition st_write (p : ptr) (x : node) : st unit :=
  fun h => (<[p := x]> h, Ret tt).

Declare Scope st_scope.
Delimit Scope st_scope with st.
Notation "x <- m ;; k" := (st_bind m (fun x => k))
  (at level 100, m at next level, right associativity) : st_scope.

(** Modelled from the spec: [dirAppend] is declared outside fs.go.  A
    directory's children are an ordered sequence in insertion order, so the
    new child goes to the end of the list. *)
Definition dirAppend (n : ptr) (childN : ptr) : st unit :=
  (cur <- st_lift (fun h => deref h n) ;;
   dir <- st_lift (fun _ => assert_dir (node_extra cur)) ;;
   st_write n {| node_err := node_err cur;
                 node_extra := ExtraDir (dir ++ [childN])%list;
                 node_mode := node_mode cur;
                 node_name := node_name cur |})%st.

Record VirtualFile : Type := mkVirtualFile {
  Content : list byte;
  Mode : FileMode;
  Error : option error
}.

(** The loop of [createChildren]; every iteration that does not return
    shortens [nameRem], so [S (length nameRem)] iterations are enough. *)
Fixpoint createChildren_loop (fuel : nat) (n : ptr) (nameRem : string)
    (vfile : VirtualFile) : st unit :=
  match fuel with
  | O => fun h => (h, OutOfFuel)
  | S fuel' =>
      let slashPos := IndexByte nameRem "/" in
      let nameComp := if slashPos <? 0 then nameRem else slice_to nameRem slashPos in
      if negb (str_is_empty nameComp) then
        (_ <- st_lift (fun _ => validateNameComp nameComp) ;;
         if slashPos <? 0 then
           (* initialize file or directory as per VirtualFile *)
           childN <- st_new {| node_err := Error vfile;
                               node_mode := Mode vfile;
                               node_name := nameComp;
                               node_extra :=
                                 if Z.land (Mode vfile) ModeDir =? 0
                                 then ExtraBytes (Content vfile)
                                 else ExtraDir [] |} ;;
           dirAppend n childN
         else
           (* initialize directory with defaults *)
           childN <- st_new (newDirNode ModeDir nameComp) ;;
           _ <- dirAppend n childN ;;
           createChildren_loop fuel' childN (slice_from nameRem (slashPos + 1)) vfile)%st
      else if slashPos <? 0 then st_ret tt
      else createChildren_loop fuel' n (slice_from nameRem (slashPos + 1)) vfile
  end.

Definition VirtualFileSystem_createChildren (fs : VirtualFileSystem) (n : ptr)
    (nameRem : string) (vfile : VirtualFile) : st unit :=
  createChildren_loop (S (String.length nameRem)) n nameRem vfile.

Definition error_is (err : option error) (e : error) : bool :=
  match err with
  | Some x => error_eqb x e
  | None => false
  end.

(** The [switch] of [Set]: the one file type bit the mode may carry. *)
Definition Set_flag (vfile : VirtualFile) : FileMode :=
  if FileMode_IsDir (Mode vfile) then ModeDir
  else if negb (Z.land (Mode vfile) ModeSymlink =? 0) then ModeSymlink
  else 0.

(** The descriptor passes the mode check of [Set]. *)
Definition Set_mode_ok (vfile : VirtualFile) : bool :=
  Z.land (Mode vfile) (Z.ldiff ModeType (Set_flag vfile)) =? 0.

Definition VirtualFileSystem_Set (fs : VirtualFileSystem) (name : string)
    (vfile : VirtualFile) : st unit :=
  if negb (Set_mode_ok vfile) then st_panic errBadMode
  else
    (r <- st_lift (fun h => VirtualFileSystem_find h fs name true false) ;;
     let '(n, nameRem, err) := r in
     if error_is err ENOTDIR then st_panic errIsDirDisagreement
     else if negb (str_is_empty nameRem) then
       VirtualFileSystem_createChildren fs n nameRem vfile
     else
       cur <- st_lift (fun h => deref h n) ;;
       let nodeIsDir := negb (Z.land (node_mode cur) ModeDir =? 0) in
       let vfileIsDir := negb (Z.land (Mode vfile) ModeDir =? 0) in
       if negb (Bool.eqb nodeIsDir vfileIsDir) then st_panic errIsDirDisagreement
       else
         st_write n {| node_mode := Mode vfile;
                       node_err := Error vfile;
                       node_extra :=
                         if negb vfileIsDir then ExtraBytes (Content vfile)
                         else node_extra cur;
                       node_name := node_name cur |})%st.

(** [NewVirtualFileSystem]: [data] lists the entries of the Go map in the
    order in which the [range] loop happens to visit them. *)
Fixpoint Set_all (fs : VirtualFileSystem) (data : list (string * VirtualFile))
  : st unit :=
  match data with
  | [] => st_ret tt
  | (name, vfile) :: data' =>
      (_ <- VirtualFileSystem_Set fs name vfile ;; Set_all fs data')%st
  end.

Definition NewVirtualFileSystem (data : list (string * VirtualFile))
  : st VirtualFileSystem :=
  (r <- st_new (newDirNode 0 "/") ;;
   let fs := {| cwd := "/"; root := r |} in
   _ <- Set_all fs data ;;
   st_ret fs)%st.

(** ** File descriptors *)

Record virtualFileDescriptor : Type := mkFD {
  fd_node : ptr;
  fd_readPos : Z
}.

Definition virtualFileDescriptor_Close (r : virtualFileDescriptor) : option error :=
  None.

(** The builtin [copy(dst, src)]: the buffer after the copy and the number
    of bytes copied. *)
Definition copy (dst src : list byte) : list byte * Z :=
  let k := Nat.min (length dst) (length src) in
  ((take k src ++ drop k dst)%list, Z.of_nat k).

(** [Read(p)] returns the descriptor and the buffer as the call leaves them,
    and the Go pair (n, err). *)
Definition virtualFileDescriptor_Read (h : store) (r : virtualFileDescriptor)
    (p : list byte)
  : go (virtualFileDescriptor * list byte * Z * option error) :=
  (nd <- deref h (fd_node r) ;;
   if negb (FileMode_IsRegular (node_mode nd)) then Ret (r, p, 0, Some errBadMode)
   else if Z.of_nat (length p) >? 0 then
     fileContents <- assert_bytes (node_extra nd) ;;
     if (0 <=? fd_readPos r) && (fd_readPos r <=? Z.of_nat (length fileContents)) then
       let '(p', n) := copy p (drop (Z.to_nat (fd_readPos r)) fileContents) in
       let r' := {| fd_node := fd_node r; fd_readPos := fd_readPos r + n |} in
       Ret (r', p', n, if n =? 0 then Some EOF else None)
     else Panicked (PanicRuntime SliceBounds)
   else Ret (r, p, 0, None))%go.

(** [Readdir(n)] returns the Go pair (infos, err); an [os.FileInfo] of the
    result is the node pointer itself, and a nil slice is the empty list. *)
Definition virtualFileDescriptor_Readdir (h : store) (r : virtualFileDescriptor)
    (n : Z) : go (list ptr * option error) :=
  (nd <- deref h (fd_node r) ;;
   if negb (FileMode_IsDir (node_mode nd)) then Ret ([], Some ENOTDIR)
   else if n >? 0 then Panicked (PanicError errNotSupported)
   else
     dir <- assert_dir (node_extra nd) ;;
     if Nat.eqb (length dir) 0 then Ret ([], None)
     else Ret (dir, None))%go.

(** Modelled from the spec: the [os.FileInfo] methods of [node] are declared
    outside fs.go; a node answers with its name and with whether its mode is
    that of a directory. *)
Definition node_Name (h : store) (p : ptr) : go string :=
  (nd <- deref h p ;; Ret (node_name nd))%go.

Definition node_IsDir (h : store) (p : ptr) : go bool :=
  (nd <- deref h p ;; Ret (FileMode_IsDir (node_mode nd)))%go.

(** [Open] and [Stat] return the Go pair (value, err). *)
Definition VirtualFileSystem_Open (h : store) (fs : VirtualFileSystem)
    (name : string) : go (option virtualFileDescriptor * option error) :=
  (r <- VirtualFileSystem_find h fs name false true ;;
   let '(node, _, err) := r in
   match err with
   | Some e => Ret (None, Some e)
   | None => Ret (Some {| fd_node := node; fd_readPos := 0 |}, None)
   end)%go.

Definition VirtualFileSystem_Stat (h : store) (fs : VirtualFileSystem)
    (name : string) : go (option ptr * option error) :=
  (r <- VirtualFileSystem_find h fs name false true ;;
   let '(n, _, err) := r in
   match err with
   | Some e => Ret (None, Some e)
   | None => Ret (Some n, None)
   end)%go.

(** ** Helpers on path names *)

(** [trimTrailingSlashes]: the loop counts [n] down from [len(name)] while
    [name[n-1]] is a separator, and the result is [name[:n]].  The index
    [n-1] stays within the bounds of [name], so that [String.get] always
    answers with a byte (the [None] branch is never taken, see
    [trimTrailingSlashes_loop_in_bounds]). *)
Fixpoint trimTrailingSlashes_loop (name : string) (n : nat) : nat :=
  match n with
  | O => O
  | S n' =>
      match String.get n' name with
      | Some c => if Ascii.eqb c "/" then trimTrailingSlashes_loop name n' else n
      | None => n
      end
  end.

Definition trimTrailingSlashes (name : string) : string :=
  slice_to name (Z.of_nat (trimTrailingSlashes_loop name (String.length name))).

(** [IsPathSeparatorWindows]: [b] is the code of a forward slash (0x2f) or of
    a backward slash (0x5c). *)
Definition IsPathSeparatorWindows (b : byte) : bool :=
  Byte.eqb b Byte.x2f || Byte.eqb b Byte.x5c.

(** ** Vocabulary of the properties *)

(** [run_reaches h f f']: the loop of [run], entered in state [f], stands in
    state [f'] at the head of some later iteration (no iteration in between
    has returned or panicked). *)
Inductive run_reaches (h : store) : findHelper -> findHelper -> Prop :=
| run_reaches_here (f : findHelper) : run_reaches h f f
| run_reaches_step (f f1 f2 : findHelper) :
    str_is_empty (f_nameRem f) = false ->
    findHelper_run_body h f = Ret (f1, None) ->
    run_reaches h f1 f2 ->
    run_reaches h f f2.

(** The fields of a [findHelper] that [run] never assigns. *)
Definition same_policy (f f' : findHelper) : Prop :=
  f_fs f' = f_fs f /\
  f_ignoreInjectedFaults f' = f_ignoreInjectedFaults f /\
  f_resolveSymlinks f' = f_resolveSymlinks f.

Definition shift_links (d : Z) (f : findHelper) : findHelper :=
  set_links f (f_links f + d).

(** The name components of a path: the pieces between its separators. *)
Fixpoint split_slash (s : string) : list string :=
  match s with
  | EmptyString => [EmptyString]
  | String a s' =>
      if Ascii.eqb a "/" then EmptyString :: split_slash s'
      else match split_slash s' with
           | c :: cs => String a c :: cs
           | [] => [String a EmptyString]
           end
  end.

Definition has_dot_comp (s : string) : bool :=
  existsb is_dot_comp (split_slash s).

(** A reader that calls [Read] once with each of the given buffers, whatever
    the calls return, and collects the bytes transferred. *)
Fixpoint Read_each (h : store) (r : virtualFileDescriptor)
    (bufs : list (list byte)) : go (virtualFileDescriptor * list byte) :=
  match bufs with
  | [] => Ret (r, [])
  | p :: bufs' =>
      (x <- virtualFileDescriptor_Read h r p ;;
       let '(r1, p1, n, _) := x in
       y <- Read_each h r1 bufs' ;;
       let '(r2, data) := y in
       Ret (r2, (take (Z.to_nat n) p1 ++ data)%list))%go
  end.

Definition total_length (bufs : list (list byte)) : nat :=
  foldr (fun p k => (length p + k)%nat) O bufs.

(** Descriptors and stores used in the examples. *)
Definition bytes (s : string) : list byte := list_byte_of_string s.

Definition regular_file (content : string) : VirtualFile :=
  {| Content := bytes content; Mode := 0; Error := None |}.

Definition symlink_to (target : string) : VirtualFile :=
  {| Content := bytes target; Mode := ModeSymlink; Error := None |}.

Definition directory (e : option error) : VirtualFile :=
  {| Content := []; Mode := ModeDir; Error := e |}.

(** The store and file system that [NewVirtualFileSystem(data)] produces in
    an empty store. *)
Definition built (data : list (string * VirtualFile))
  : store * go VirtualFileSystem :=
  NewVirtualFileSystem data [].

(** The file system that [NewVirtualFileSystem] returns there, and the store
    it leaves when [data] is empty: the root alone. *)
Definition fs0 : VirtualFileSystem := {| cwd := "/"; root := O |}.

Definition new_store : store := [newDirNode 0 "/"].

(** The store in which [/a/b] has been set, in a new file system, to a
    regular file of content [C], mode [m] and injected error [E]. *)
Definition file_a_b (C : list byte) (m : FileMode) (E : option error) : store :=
  [ {| node_err := None; node_extra := ExtraDir [1%nat];
       node_mode := ModeDir; node_name := "/" |};
    {| node_err := None; node_extra := ExtraDir [2%nat];
       node_mode := ModeDir; node_name := "a" |};
    {| node_err := E; node_extra := ExtraBytes C;
       node_mode := m; node_name := "b" |} ].

(** The outcome of the given calls of [Set], in this order, on a new file
    system. *)
Definition after_sets (calls : list (string * VirtualFile)) : store * go unit :=
  Set_all fs0 calls new_store.

(** Paths made of ordinary components: a component is not empty, holds no
    separator and is neither [.] nor [..]. *)
Definition valid_comp (c : string) : Prop :=
  str_is_empty c = false /\ IndexByte c "/" < 0 /\ is_dot_comp c = false.

(** [strings.Join(cs, "/")] *)
Fixpoint join_slash (cs : list string) : string :=
  match cs with
  | [] => ""
  | [c] => c
  | c :: cs' => c ++ "/" ++ join_slash cs'
  end.

(** The node that [createChildren] makes for the last component. *)
Definition leaf_node (c : string) (vfile : VirtualFile) : node :=
  {| node_err := Error vfile;
     node_extra := if Z.land (Mode vfile) ModeDir =? 0
                   then ExtraBytes (Content vfile) else ExtraDir [];
     node_mode := Mode vfile;
     node_name := c |}.

(** The directory it makes for a component before the last, once its only
    child, at address [j], has been appended. *)
Definition link_node (c : string) (j : ptr) : node :=
  {| node_err := None;
     node_extra := ExtraDir [j];
     node_mode := Z.lor ModeDir ModeDir;
     node_name := c |}.

(** The nodes made for the components [cs], the first one at address [k]. *)
Fixpoint chain_nodes (k : nat) (cs : list string) (vfile : VirtualFile)
  : list node :=
  match cs with
  | [] => []
  | [c] => [leaf_node c vfile]
  | c :: cs' => link_node c (S k) :: chain_nodes (S k) cs' vfile
  end.

(** A directory node after [dirAppend]. *)
Definition with_child (nd : node) (dir : list ptr) (c : ptr) : node :=
  {| node_err := node_err nd;
     node_extra := ExtraDir (dir ++ [c])%list;
     node_mode := node_mode nd;
     node_name := node_name nd |}.

(** [k] separators in a row. *)
Fixpoint slashes (k : nat) : string :=
  match k with
  | O => ""
  | S k' => String "/" (slashes k')
  end.

(** The first name component of a path and the path that follows it, as
    [run] cuts them at the first separator. *)
Definition first_comp (s : string) : string :=
  if IndexByte s "/" <? 0 then s else slice_to s (IndexByte s "/").

Definition after_first (s : string) : string :=
  if IndexByte s "/" <? 0 then "" else slice_from s (IndexByte s "/" + 1).

(** The non-empty name components of a path, in order. *)
Definition comps (s : string) : list string :=
  List.filter (fun c => negb (str_is_empty c)) (split_slash s).

(** What the callers of [run] look at when it is over: the current node, the
    number of links followed and the error. *)
Definition run_result (r : go (findHelper * option error))
  : go (ptr * Z * option error) :=
  (x <- r ;; let '(f, e) := x in Ret (f_n f, f_links f, e))%go.

(** [Stat] and [Open] as functions of what [run] leaves. *)
Definition Stat_of (r : go (ptr * Z * option error))
  : go (option ptr * option error) :=
  (x <- r ;;
   let '(n, _, err) := x in
   match err with
   | Some e => Ret (None, Some e)
   | None => Ret (Some n, None)
   end)%go.

Definition Open_of (r : go (ptr * Z * option error))
  : go (option virtualFileDescriptor * option error) :=
  (x <- r ;;
   let '(n, _, err) := x in
   match err with
   | Some e => Ret (None, Some e)
   | None => Ret (Some {| fd_node := n; fd_readPos := 0 |}, None)
   end)%go.

(** A node as [Set] and [createChildren] make them: the payload of a
    directory is a list of children that are allocated, a directory is not a
    symlink, and the payload of any other node is a byte slice. *)
Definition wf_node (len : nat) (nd : node) : Prop :=
  if Z.land (node_mode nd) ModeDir =? 0
  then exists b, node_extra nd = ExtraBytes b
  else Z.land (node_mode nd) ModeSymlink = 0 /\
       exists dir, node_extra nd = ExtraDir dir /\
                   Forall (fun c : ptr => (c < len)%nat) dir.

(** A store as [NewVirtualFileSystem] and [Set] leave it: the working
    directory is the root path, the root is an allocated directory and every
    node is well formed. *)
Definition wf_store (fs : VirtualFileSystem) (h : store) : Prop :=
  cwd fs = "/" /\
  (exists r, h !! root fs = Some r /\ FileMode_IsDir (node_mode r) = true) /\
  Forall (wf_node (length h)) h.

(** What [Set] may do to a node that exists: the name and the choice between
    directory and non-directory stay, and the children of a directory stay
    in place, new ones coming after them. *)
Definition node_extends (nd nd' : node) : Prop :=
  node_name nd' = node_name nd /\
  FileMode_IsDir (node_mode nd') = FileMode_IsDir (node_mode nd) /\
  forall dir, node_extra nd = ExtraDir dir ->
              FileMode_IsDir (node_mode nd) = true ->
              exists more, node_extra nd' = ExtraDir (dir ++ more)%list.

Definition store_extends (h h' : store) : Prop :=
  forall (p : ptr) (nd : node),
    h !! p = Some nd -> exists nd', h' !! p = Some nd' /\ node_extends nd nd'.

(** What [createChildren] does to the nodes that exist: nothing, but for
    children added at the end of the list of a directory. *)
Definition node_grows (nd nd' : node) : Prop :=
  node_name nd' = node_name nd /\
  node_mode nd' = node_mode nd /\
  node_err nd' = node_err nd /\
  match node_extra nd with
  | ExtraBytes b => node_extra nd' = ExtraBytes b
  | ExtraDir dir => exists more, node_extra nd' = ExtraDir (dir ++ more)%list
  end.

Definition store_grows (h h' : store) : Prop :=
  forall (p : ptr) (nd : node),
    h !! p = Some nd -> exists nd', h' !! p = Some nd' /\ node_grows nd nd'.

(** * Properties *)

(** ** Strings *)

Lemma str_is_empty_true (s : string) : str_is_empty s = true <-> s = "".
Proof. destruct s; simpl; split; congruence. Qed.

Lemma str_is_empty_false (s : string) :
  str_is_empty s = false <-> (0 < String.length s)%nat.
Proof. destruct s; simpl; split; try congruence; lia. Qed.

Lemma nonempty_of_is_empty (s : string) : str_is_empty s = false -> s <> "".
Proof. intros H E. rewrite E in H. discriminate. Qed.

Lemma IndexByte_range (s : string) (c : ascii) :
  -1 <= IndexByte s c < Z.of_nat (String.length s) \/
  (IndexByte s c = -1 /\ s = "").
Proof.
  induction s as [|a s IH]; simpl.
  - right; auto.
  - left. destruct (Ascii.eqb a c); [lia|].
    destruct (IndexByte s c <? 0) eqn:E; [lia|].
    apply Z.ltb_ge in E. destruct IH as [IH|[IH _]]; lia.
Qed.

Lemma IndexByte_lt (s : string) (c : ascii) :
  s <> "" -> -1 <= IndexByte s c < Z.of_nat (String.length s).
Proof.
  intros Hs. destruct (IndexByte_range s c) as [H|[_ H]]; [exact H|contradiction].
Qed.

Lemma length_str_drop (k : nat) (s : string) :
  String.length (str_drop k s) = (String.length s - k)%nat.
Proof.
  revert s; induction k as [|k IH]; intros [|a s]; simpl; auto.
Qed.

Lemma length_str_take (k : nat) (s : string) :
  String.length (str_take k s) = Nat.min k (String.length s).
Proof.
  revert s; induction k as [|k IH]; intros [|a s]; simpl; auto.
Qed.

Lemma length_str_app (s t : string) :
  String.length (s ++ t) = (String.length s + String.length t)%nat.
Proof. induction s as [|a s IH]; simpl; auto. Qed.

Lemma length_string_of_list_byte (l : list byte) :
  String.length (string_of_list_byte l) = length l.
Proof.
  unfold string_of_list_byte.
  induction l as [|b l IH]; simpl; auto.
Qed.

Lemma str_take_drop (k : nat) (s : string) :
  (str_take k s ++ str_drop k s)%string = s.
Proof.
  revert s; induction k as [|k IH]; intros [|a s]; simpl; auto.
  now rewrite IH.
Qed.

Lemma slice_from_checked_1 (c : ascii) (s : string) :
  slice_from_checked (String c s) 1 = Ret s.
Proof.
  unfold slice_from_checked.
  replace ((0 <=? 1) && (1 <=? Z.of_nat (String.length (String c s)))) with true;
    [reflexivity|].
  symmetry. apply andb_true_iff. split; [reflexivity|].
  apply Z.leb_le. simpl String.length. lia.
Qed.

Lemma splice_length (target : list byte) (j : Z) (rest : string) :
  (String.length (slice_from (string_of_list_byte target) j ++ "/" ++ rest)
   <= length target + 1 + String.length rest)%nat.
Proof.
  rewrite !length_str_app. unfold slice_from.
  rewrite length_str_drop, length_string_of_list_byte. simpl. lia.
Qed.

(** *** Joined paths *)

Lemma IndexByte_app_slash (c r : string) :
  IndexByte c "/" < 0 ->
  IndexByte (c ++ "/" ++ r) "/" = Z.of_nat (String.length c).
Proof.
  induction c as [|a c IH]; simpl; [reflexivity|].
  destruct (Ascii.eqb a "/"); [lia|].
  destruct (IndexByte c "/" <? 0) eqn:E; [|apply Z.ltb_ge in E; lia].
  apply Z.ltb_lt in E. intros _. simpl in IH. rewrite (IH E).
  destruct (Z.of_nat (String.length c) <? 0) eqn:E'; [apply Z.ltb_lt in E'; lia|].
  lia.
Qed.

Lemma str_take_app (c r : string) :
  str_take (String.length c) (c ++ r) = c.
Proof. induction c as [|a c IH]; simpl; [destruct r; reflexivity|now rewrite IH]. Qed.

Lemma str_drop_app (c r : string) :
  str_drop (String.length c) (c ++ r) = r.
Proof. induction c as [|a c IH]; simpl; auto. Qed.

Lemma slice_to_app_slash (c r : string) :
  slice_to (c ++ "/" ++ r) (Z.of_nat (String.length c)) = c.
Proof. unfold slice_to. rewrite Nat2Z.id. apply str_take_app. Qed.

Lemma slice_from_app_slash (c r : string) :
  slice_from (c ++ "/" ++ r) (Z.of_nat (String.length c) + 1) = r.
Proof.
  unfold slice_from.
  replace (Z.to_nat (Z.of_nat (String.length c) + 1)) with (String.length (c ++ "/")).
  - replace (c ++ "/" ++ r)%string with ((c ++ "/") ++ r)%string.
    + apply str_drop_app.
    + induction c as [|a c IH]; simpl; [reflexivity|now rewrite IH].
  - rewrite length_str_app. simpl. lia.
Qed.

(** How the code cuts the first component off a joined path. *)
Lemma join_slash_cut (c : string) (cs : list string) :
  valid_comp c ->
  let s := join_slash (c :: cs) in
  let slashPos := IndexByte s "/" in
  (if slashPos <? 0 then s else slice_to s slashPos) = c /\
  ((cs = [] /\ slashPos < 0) \/
   (cs <> [] /\ 0 <= slashPos /\ slice_from s (slashPos + 1) = join_slash cs)).
Proof.
  intros (Hne & Hns & Hnd). destruct cs as [|c' cs]; cbn [join_slash]; cbv zeta.
  - replace (IndexByte c "/" <? 0) with true by (symmetry; apply Z.ltb_lt; exact Hns).
    split; [reflexivity|]. left. auto.
  - fold (join_slash (c' :: cs)).
    rewrite (IndexByte_app_slash c _ Hns).
    replace (Z.of_nat (String.length c) <? 0) with false
      by (symmetry; apply Z.ltb_ge; lia).
    split; [apply slice_to_app_slash|]. right.
    split; [discriminate|]. split; [lia|apply slice_from_app_slash].
Qed.

(** ** Name components *)

Lemma split_slash_nonempty (s : string) : split_slash s <> [].
Proof.
  induction s as [|a s IH]; simpl; [discriminate|].
  destruct (Ascii.eqb a "/"); [discriminate|].
  destruct (split_slash s); discriminate.
Qed.

Lemma split_slash_no_slash (s : string) :
  IndexByte s "/" < 0 -> split_slash s = [s].
Proof.
  induction s as [|a s IH]; simpl; [reflexivity|].
  destruct (Ascii.eqb a "/"); [lia|].
  destruct (IndexByte s "/" <? 0) eqn:E; [|apply Z.ltb_ge in E; lia].
  apply Z.ltb_lt in E. intros _. rewrite (IH E). reflexivity.
Qed.

Lemma split_slash_at_slash (s : string) :
  0 <= IndexByte s "/" ->
  split_slash s =
  slice_to s (IndexByte s "/") :: split_slash (slice_from s (IndexByte s "/" + 1)).
Proof.
  unfold slice_to, slice_from.
  induction s as [|a s IH]; simpl; [lia|].
  destruct (Ascii.eqb a "/"); [reflexivity|].
  destruct (IndexByte s "/" <? 0) eqn:E; [lia|].
  apply Z.ltb_ge in E. intros _. rewrite (IH E).
  replace (Z.to_nat (IndexByte s "/" + 1)) with (S (Z.to_nat (IndexByte s "/"))) by lia.
  replace (Z.to_nat (IndexByte s "/" + 1 + 1)) with (S (S (Z.to_nat (IndexByte s "/")))) by lia.
  reflexivity.
Qed.

Lemma split_slash_app (a b : string) :
  split_slash (a ++ "/" ++ b) = (split_slash a ++ split_slash b)%list.
Proof.
  induction a as [|c a IH]; simpl; [reflexivity|].
  destruct (Ascii.eqb c "/"); [simpl; f_equal; exact IH|].
  simpl in IH. rewrite IH.
  pose proof (split_slash_nonempty a).
  destruct (split_slash a); [contradiction|reflexivity].
Qed.

Lemma has_dot_comp_app (a b : string) :
  has_dot_comp b = true -> has_dot_comp (a ++ "/" ++ b) = true.
Proof.
  unfold has_dot_comp. intros H. rewrite split_slash_app, existsb_app, H.
  apply orb_true_r.
Qed.

(** The component that an iteration looks at, and what is left after it. *)
Lemma has_dot_comp_step (s : string) :
  has_dot_comp s = true ->
  let slashPos := IndexByte s "/" in
  let nameComp := if slashPos <? 0 then s else slice_to s slashPos in
  is_dot_comp nameComp = true \/
  (0 <= slashPos /\ has_dot_comp (slice_from s (slashPos + 1)) = true).
Proof.
  unfold has_dot_comp. intros H. simpl.
  destruct (IndexByte s "/" <? 0) eqn:E.
  - apply Z.ltb_lt in E. rewrite (split_slash_no_slash s E) in H. simpl in H.
    rewrite orb_false_r in H. left; exact H.
  - apply Z.ltb_ge in E. rewrite (split_slash_at_slash s E) in H. simpl in H.
    apply orb_true_iff in H. destruct H as [H|H]; [left|right]; auto.
Qed.

Lemma is_dot_comp_nonempty (s : string) :
  is_dot_comp s = true -> str_is_empty s = false.
Proof. destruct s; [discriminate|reflexivity]. Qed.

(** ** File modes *)

Lemma regular_not_dir (m : FileMode) :
  FileMode_IsRegular m = true -> FileMode_IsDir m = false.
Proof.
  unfold FileMode_IsRegular, FileMode_IsDir. intros H.
  apply Z.eqb_eq in H.
  assert (E : Z.land m ModeDir = 0).
  { apply Z.bits_inj'. intros k Hk. rewrite Z.land_spec, Z.bits_0.
    assert (Hb : Z.testbit (Z.land m ModeType) k = false) by (rewrite H; apply Z.bits_0).
    rewrite Z.land_spec in Hb.
    destruct (Z.testbit ModeDir k) eqn:Ed; [|apply andb_false_r].
    assert (Et : Z.testbit ModeType k = true).
    { destruct (Z.eq_dec k 31) as [->|Hne]; [reflexivity|].
      unfold ModeDir in Ed. rewrite Z.pow2_bits_eqb in Ed by lia.
      apply Z.eqb_eq in Ed. lia. }
    rewrite Et, andb_true_r in Hb. rewrite Hb. reflexivity. }
  rewrite E. reflexivity.
Qed.

Lemma regular_not_symlink (m : FileMode) :
  FileMode_IsRegular m = true -> Z.land m ModeSymlink = 0.
Proof.
  unfold FileMode_IsRegular. intros H.
  apply Z.eqb_eq in H.
  apply Z.bits_inj'. intros k Hk. rewrite Z.land_spec, Z.bits_0.
  assert (Hb : Z.testbit (Z.land m ModeType) k = false) by (rewrite H; apply Z.bits_0).
  rewrite Z.land_spec in Hb.
  destruct (Z.testbit ModeSymlink k) eqn:Ed; [|apply andb_false_r].
  assert (Et : Z.testbit ModeType k = true).
  { destruct (Z.eq_dec k 27) as [->|Hne]; [reflexivity|].
    unfold ModeSymlink in Ed. rewrite Z.pow2_bits_eqb in Ed by lia.
    apply Z.eqb_eq in Ed. lia. }
  rewrite Et, andb_true_r in Hb. rewrite Hb. reflexivity.
Qed.

(** ** The resolver on a fixed store *)

Lemma max_target_ge (h : store) (p : ptr) (nd : node) :
  h !! p = Some nd -> (extra_len (node_extra nd) <= max_target h)%nat.
Proof.
  unfold max_target.
  revert p; induction h as [|x h IH]; intros [|p]; simpl; try discriminate.
  - intros [= ->]. lia.
  - intros H. specialize (IH _ H). lia.
Qed.

Lemma shift_links_eq (f f' : findHelper) :
  f_fs f' = f_fs f ->
  f_ignoreInjectedFaults f' = f_ignoreInjectedFaults f ->
  f_resolveSymlinks f' = f_resolveSymlinks f ->
  f_n f' = f_n f ->
  f_nameRem f' = f_nameRem f ->
  f' = shift_links (f_links f' - f_links f) f.
Proof.
  destruct f, f'; unfold shift_links, set_links; simpl.
  intros -> -> -> -> ->. f_equal. lia.
Qed.

Lemma updateNameRem_length (f : findHelper) :
  f_nameRem f <> "" ->
  (String.length (f_nameRem (findHelper_updateNameRemFromSlashPos f (IndexByte (f_nameRem f) "/")))
   < String.length (f_nameRem f))%nat.
Proof.
  intros Hne. unfold findHelper_updateNameRemFromSlashPos.
  pose proof (IndexByte_lt _ "/"%char Hne) as Hr.
  destruct (IndexByte (f_nameRem f) "/" <? 0) eqn:E; simpl.
  - destruct (f_nameRem f); [congruence|simpl; lia].
  - apply Z.ltb_ge in E. unfold slice_from. rewrite length_str_drop. lia.
Qed.

Section Walk.

Variable h : store.

(** *** The loop of [run] always ends *)

Lemma body_measure (f f' : findHelper) :
  f_nameRem f <> "" ->
  findHelper_run_body h f = Ret (f', None) ->
  (f_links f' = f_links f /\
   (String.length (f_nameRem f') < String.length (f_nameRem f))%nat) \/
  (f_links f' = f_links f + 1 /\ f_links f' <= 255 /\
   (String.length (f_nameRem f') <= max_target h + String.length (f_nameRem f))%nat).
Proof.
  intros Hne H.
  pose proof (updateNameRem_length f Hne) as Hlen.
  unfold findHelper_run_body in H.
  destruct (findHelper_injectedFault h f) as [[e|]| |]; simpl in H; try discriminate.
  destruct (findHelper_getChildN h f _) as [[childN [e|]]| |]; simpl in H; try discriminate.
  set (f1 := findHelper_updateNameRemFromSlashPos f _) in *.
  assert (Hl1 : f_links f1 = f_links f).
  { unfold f1, findHelper_updateNameRemFromSlashPos. destruct (_ <? _); reflexivity. }
  destruct childN as [c|].
  - unfold findHelper_updateFromChildN in H.
    destruct (deref h c) as [nd| |] eqn:Hd; simpl in H; try discriminate.
    destruct (negb _).
    + destruct (f_resolveSymlinks f1).
      * simpl in H. destruct (f_links f1 + 1 >? 255) eqn:Hb; [discriminate|].
        destruct (node_extra nd) as [target|] eqn:Hx; simpl in H; try discriminate.
        right.
        assert (Ht : (length target <= max_target h)%nat).
        { unfold deref in Hd. destruct (h !! c) eqn:Hc; try discriminate.
          injection Hd as ->. pose proof (max_target_ge _ _ _ Hc) as Hm.
          rewrite Hx in Hm. exact Hm. }
        assert (Hb' : f_links f1 + 1 <= 255) by lia.
        assert (Hs : forall j, (String.length (slice_from (string_of_list_byte target) j
                     ++ "/" ++ f_nameRem f1) <= max_target h + String.length (f_nameRem f))%nat).
        { intros j. pose proof (splice_length target j (f_nameRem f1)). lia. }
        destruct target as [|b target]; [|destruct (Byte.eqb b Byte.x2f)];
          injection H as <-; cbn [f_links f_nameRem set_nameRem set_n set_links];
          (split; [lia|split;[lia|first [exact (Hs 0)|exact (Hs 1)]]]).
      * injection H as <-. left. split; [lia|lia].
    + injection H as <-. left. simpl. split; [lia|lia].
  - injection H as <-. left. split; [lia|lia].
Qed.

Lemma run_fuel_decreases (f f' : findHelper) :
  f_nameRem f <> "" ->
  findHelper_run_body h f = Ret (f', None) ->
  (run_fuel h f' < run_fuel h f)%nat.
Proof.
  intros Hne H. unfold run_fuel.
  destruct (body_measure f f' Hne H) as [[Hl Hn]|(Hl & Hb & Hn)].
  - rewrite Hl. lia.
  - rewrite Hl.
    replace (Z.to_nat (256 - f_links f)) with (S (Z.to_nat (256 - (f_links f + 1)))) by lia.
    simpl. lia.
Qed.

Lemma deref_fueled (p : ptr) : deref h p <> OutOfFuel.
Proof. unfold deref. destruct (h !! p); discriminate. Qed.

Lemma dirLookup_children_fueled (dir : list ptr) (s : string) :
  dirLookup_children h dir s <> OutOfFuel.
Proof.
  induction dir as [|c dir IH]; simpl; [discriminate|].
  unfold deref. destruct (h !! c); simpl; [|discriminate].
  destruct (String.eqb _ _); [discriminate|exact IH].
Qed.

Lemma getChildN_fueled (f : findHelper) (s : string) :
  findHelper_getChildN h f s <> OutOfFuel.
Proof.
  unfold findHelper_getChildN, validateNameComp, dirLookup, deref.
  destruct (str_is_empty s); [discriminate|].
  destruct (is_dot_comp s); simpl; [discriminate|].
  destruct (h !! f_n f) as [cur|]; simpl; [|discriminate].
  destruct (_ =? 0); [discriminate|].
  destruct (node_extra cur) as [b|dir]; simpl; [discriminate|].
  pose proof (dirLookup_children_fueled dir s) as Hd.
  destruct (dirLookup_children h dir s) as [[c|]| |]; simpl; congruence.
Qed.

Lemma updateFromChildN_fueled (f : findHelper) (c : ptr) :
  findHelper_updateFromChildN h f c <> OutOfFuel.
Proof.
  unfold findHelper_updateFromChildN, deref.
  destruct (h !! c) as [nd|]; simpl; [|discriminate].
  destruct (negb _); [|discriminate].
  destruct (f_resolveSymlinks f); [|discriminate].
  destruct (_ >? 255); [discriminate|].
  destruct (node_extra nd) as [[|b t]|dir]; simpl; try discriminate.
  destruct (Byte.eqb b Byte.x2f); discriminate.
Qed.

Lemma injectedFault_fueled (f : findHelper) :
  findHelper_injectedFault h f <> OutOfFuel.
Proof.
  unfold findHelper_injectedFault, deref.
  destruct (f_ignoreInjectedFaults f); [discriminate|].
  destruct (h !! f_n f); discriminate.
Qed.

Lemma run_body_fueled (f : findHelper) :
  findHelper_run_body h f <> OutOfFuel.
Proof.
  unfold findHelper_run_body.
  pose proof (injectedFault_fueled f) as H1.
  destruct (findHelper_injectedFault h f) as [[e|]| |]; simpl; try congruence.
  pose proof (getChildN_fueled f (findHelper_getNameComp f (IndexByte (f_nameRem f) "/"))) as H2.
  destruct (findHelper_getChildN h f _) as [[[c|] [e|]]| |]; simpl; try congruence.
  apply updateFromChildN_fueled.
Qed.

Lemma run_exit_fueled (f : findHelper) :
  findHelper_run_exit h f <> OutOfFuel.
Proof.
  unfold findHelper_run_exit.
  pose proof (injectedFault_fueled f) as H1.
  destruct (findHelper_injectedFault h f); simpl; congruence.
Qed.

Lemma run_loop_enough (fuel : nat) :
  forall f, (run_fuel h f <= fuel)%nat -> findHelper_run_loop fuel h f <> OutOfFuel.
Proof.
  induction fuel as [|fuel IH]; intros f Hf.
  - unfold run_fuel in Hf. nia.
  - simpl. destruct (str_is_empty (f_nameRem f)) eqn:He.
    + apply run_exit_fueled.
    + pose proof (run_body_fueled f) as Hb.
      destruct (findHelper_run_body h f) as [[f' [e|]]| |] eqn:Hr; simpl; try congruence.
      apply IH.
      assert (f_nameRem f <> "") by (intros E; rewrite E in He; discriminate).
      pose proof (run_fuel_decreases f f' H Hr). lia.
Qed.

Lemma run_loop_mono (k : nat) :
  forall f k', (k <= k')%nat ->
    findHelper_run_loop k h f <> OutOfFuel ->
    findHelper_run_loop k' h f = findHelper_run_loop k h f.
Proof.
  induction k as [|k IH]; intros f k' Hk Hr.
  - simpl in Hr. congruence.
  - destruct k' as [|k']; [lia|]. simpl in *.
    destruct (str_is_empty (f_nameRem f)); [reflexivity|].
    destruct (findHelper_run_body h f) as [[f' [e|]]| |]; simpl in *; try reflexivity.
    apply IH; [lia|exact Hr].
Qed.

Lemma run_loop_run (f : findHelper) (k : nat) :
  findHelper_run_loop k h f <> OutOfFuel ->
  findHelper_run h f = findHelper_run_loop k h f.
Proof.
  intros Hk. unfold findHelper_run.
  destruct (Nat.le_ge_cases k (run_fuel h f)) as [Hle|Hge].
  - apply run_loop_mono; assumption.
  - symmetry. apply run_loop_mono; [exact Hge|]. apply run_loop_enough. lia.
Qed.

Lemma run_fueled (f : findHelper) : findHelper_run h f <> OutOfFuel.
Proof. apply run_loop_enough. lia. Qed.

(** [run] returns or panics, and more fuel than [run_fuel] changes nothing. *)
Theorem findHelper_run_terminates (f : findHelper) :
  findHelper_run h f <> OutOfFuel /\
  forall fuel : nat, (run_fuel h f <= fuel)%nat ->
    findHelper_run_loop fuel h f = findHelper_run h f.
Proof.
  split; [apply run_fueled|].
  intros fuel Hfuel. apply run_loop_mono; [exact Hfuel|apply run_fueled].
Qed.

(** Unfolding [run] once. *)
Lemma run_unfold (f : findHelper) :
  findHelper_run h f =
  if str_is_empty (f_nameRem f) then findHelper_run_exit h f
  else go_bind (findHelper_run_body h f) (fun r =>
         let '(f', err) := r in
         match err with
         | Some e => Ret (f', Some e)
         | None => findHelper_run h f'
         end).
Proof.
  pose proof (run_fueled f) as Hf.
  unfold findHelper_run in *.
  destruct (run_fuel h f) as [|k] eqn:Hk; [simpl in Hf; congruence|].
  simpl in *.
  destruct (str_is_empty (f_nameRem f)); [reflexivity|].
  destruct (findHelper_run_body h f) as [[f' [e|]]| |]; simpl in *; try reflexivity.
  symmetry. apply (run_loop_run f' k Hf).
Qed.

Lemma run_reaches_run (f f' : findHelper) :
  run_reaches h f f' -> findHelper_run h f = findHelper_run h f'.
Proof.
  induction 1 as [f|f f1 f2 He Hb _ IH]; [reflexivity|].
  rewrite run_unfold, He, Hb. simpl. exact IH.
Qed.


(** *** The policy fields and the link counter *)

Ltac fh_simpl :=
  cbv [set_links set_nameRem set_n shift_links f_fs f_ignoreInjectedFaults
       f_links f_nameRem f_n f_resolveSymlinks] in *.

Lemma body_shift (f f' : findHelper) (d : Z) :
  findHelper_run_body h f = Ret (f', None) ->
  findHelper_run_body h (shift_links d f) = Ret (shift_links d f', None) \/
  (f_links f' = f_links f + 1 /\ f_links f' + d > 255 /\
   exists g, findHelper_run_body h (shift_links d f) = Ret (g, Some errTooManyLinks)
             /\ f_links g = f_links f' + d).
Proof.
  destruct f as [fs ig l nr n rs].
  unfold findHelper_run_body, shift_links, findHelper_injectedFault,
    findHelper_getNameComp, findHelper_getChildN,
    findHelper_updateNameRemFromSlashPos. cbn [f_fs f_ignoreInjectedFaults f_links f_nameRem f_n f_resolveSymlinks set_links set_nameRem set_n].
  intros H.
  destruct (if ig then Ret None else _) as [[e|]| |]; simpl in H |- *; try discriminate.
  destruct (if str_is_empty _ then _ else _) as [[childN [e|]]| |]; simpl in H |- *; try discriminate.
  destruct childN as [c|].
  - unfold findHelper_updateFromChildN in *.
    destruct (deref h c) as [nd| |]; simpl in H |- *; try discriminate.
    destruct (negb _).
    + destruct (IndexByte nr "/" <? 0);
      cbn [f_fs f_ignoreInjectedFaults f_links f_nameRem f_n f_resolveSymlinks set_links set_nameRem set_n] in *.
      all: destruct rs; [|injection H as <-; left; reflexivity].
      all: destruct (l + 1 >? 255) eqn:Hb; [discriminate|].
      all: destruct (l + d + 1 >? 255) eqn:Hb'.
      all: try (right; destruct (assert_bytes _) as [[|b t]| |]; simpl in H; try discriminate;
           [|destruct (Byte.eqb b Byte.x2f)]; injection H as <-; simpl;
           fh_simpl;
           (split; [lia|split; [lia|eexists; split; [reflexivity|fh_simpl; lia]]])).
      all: left; destruct (assert_bytes _) as [[|b t]| |]; simpl in H |- *; try discriminate;
           [|destruct (Byte.eqb b Byte.x2f)]; injection H as <-; simpl;
           fh_simpl; replace (l + d + 1) with (l + 1 + d) by lia; reflexivity.
    + injection H as <-. left. destruct (IndexByte nr "/" <? 0); reflexivity.
  - injection H as <-. left. destruct (IndexByte nr "/" <? 0); reflexivity.
Qed.

Lemma body_links (f f' : findHelper) :
  str_is_empty (f_nameRem f) = false ->
  findHelper_run_body h f = Ret (f', None) ->
  f_links f' = f_links f \/ (f_links f' = f_links f + 1 /\ f_links f' <= 255).
Proof.
  intros He Hb.
  destruct (body_measure f f' (nonempty_of_is_empty _ He) Hb) as [[H _]|(H1 & H2 & _)];
    [left|right]; auto.
Qed.

Lemma updateFromChildN_frame (f f' : findHelper) (c : ptr)
    (e : option error) :
  findHelper_updateFromChildN h f c = Ret (f', e) -> same_policy f f'.
Proof.
  unfold findHelper_updateFromChildN, same_policy. intros H.
  destruct (deref h c) as [nd| |]; simpl in H; try discriminate.
  destruct (negb _); [|injection H as <- _; auto].
  destruct (f_resolveSymlinks f) eqn:Hr; [|injection H as <- _; auto].
  simpl in H.
  destruct (f_links f + 1 >? 255); [injection H as <- _; auto|].
  destruct (node_extra nd) as [[|b t]|dir]; simpl in H; try discriminate;
    [|destruct (Byte.eqb b Byte.x2f)]; injection H as <- _; auto.
Qed.

Lemma body_frame (f f' : findHelper) (e : option error) :
  findHelper_run_body h f = Ret (f', e) -> same_policy f f'.
Proof.
  unfold findHelper_run_body. intros H.
  destruct (findHelper_injectedFault h f) as [[e0|]| |]; simpl in H; try discriminate.
  { injection H as <- _. repeat split. }
  destruct (findHelper_getChildN h f _) as [[childN [e0|]]| |]; simpl in H; try discriminate.
  { injection H as <- _. repeat split. }
  set (f1 := findHelper_updateNameRemFromSlashPos f _) in *.
  assert (H1 : same_policy f f1).
  { unfold f1, findHelper_updateNameRemFromSlashPos. destruct (_ <? 0); repeat split. }
  clearbody f1.
  destruct childN as [c|]; [|injection H as <- _; exact H1].
  apply updateFromChildN_frame in H. unfold same_policy in *.
  destruct H as (-> & -> & ->). exact H1.
Qed.

Lemma run_reaches_frame (f f' : findHelper) :
  run_reaches h f f' -> same_policy f f'.
Proof.
  induction 1 as [f|f f1 f2 He Hb _ IH]; [repeat split|].
  destruct (body_frame _ _ _ Hb) as (E1 & E2 & E3).
  unfold same_policy in *. rewrite <- E1, <- E2, <- E3. exact IH.
Qed.

Lemma run_reaches_links (f f' : findHelper) :
  run_reaches h f f' ->
  f_links f' = f_links f \/ (f_links f < f_links f' /\ f_links f' <= 255).
Proof.
  induction 1 as [f|f f1 f2 He Hb _ IH]; [auto|].
  destruct (body_links _ _ He Hb) as [H1|[H1 H2]]; lia.
Qed.

Lemma run_reaches_shift (f f' : findHelper) (d : Z) :
  run_reaches h f f' ->
  f_links f + d <= 255 ->
  run_reaches h (shift_links d f) (shift_links d f') \/
  exists g, findHelper_run h (shift_links d f) = Ret (g, Some errTooManyLinks)
            /\ f_links g = 256.
Proof.
  induction 1 as [f|f f1 f2 He Hb _ IH]; intros Hd.
  - left. constructor.
  - assert (He' : str_is_empty (f_nameRem (shift_links d f)) = false) by exact He.
    destruct (body_shift f f1 d Hb) as [Hs|(Hl & Hgt & g & Hg & Hlg)].
    + assert (Hd1 : f_links f1 + d <= 255).
      { destruct (body_links _ _ He' Hs) as [E|[_ E]]; simpl in E; lia. }
      destruct (IH Hd1) as [Hr|(g & Hg & Hlg)].
      * left. eapply run_reaches_step; eauto.
      * right. exists g. split; [|exact Hlg].
        rewrite run_unfold, He', Hs. simpl. exact Hg.
    + right. exists g. split; [|lia].
      rewrite run_unfold, He', Hg. reflexivity.
Qed.

(** Going round a cycle: back on the same node with the same path left,
    and more links followed. *)

Lemma cycle_too_many_links (k : nat) :
  forall f f', (Z.to_nat (256 - f_links f) <= k)%nat ->
    run_reaches h f f' ->
    f_n f' = f_n f ->
    f_nameRem f' = f_nameRem f ->
    f_links f < f_links f' ->
    exists g, findHelper_run h f = Ret (g, Some errTooManyLinks) /\ f_links g = 256.
Proof.
  induction k as [|k IH]; intros f f' Hk Hr Hn Hs Hl.
  - destruct (run_reaches_links _ _ Hr) as [E|[_ E]]; lia.
  - assert (Hb : f_links f' <= 255)
      by (destruct (run_reaches_links _ _ Hr) as [E|[_ E]]; lia).
    destruct (run_reaches_frame _ _ Hr) as (Hfs & Hig & Hrs).
    pose proof (shift_links_eq f f' Hfs Hig Hrs Hn Hs) as Heq.
    set (d := f_links f' - f_links f) in *.
    rewrite (run_reaches_run _ _ Hr).
    assert (Hd : f_links f + d <= 255) by (unfold d; lia).
    destruct (run_reaches_shift f f' d Hr Hd) as [Hr'|Hg].
    + rewrite <- Heq in Hr'.
      apply (IH f' (shift_links d f')).
      * lia.
      * exact Hr'.
      * reflexivity.
      * reflexivity.
      * unfold shift_links; simpl. unfold d. lia.
    + rewrite <- Heq in Hg. exact Hg.
Qed.

(** *** The components [.] and [..] *)

Lemma getChildN_dot (f : findHelper) (nameComp : string) :
  is_dot_comp nameComp = true ->
  findHelper_getChildN h f nameComp = Panicked (PanicError errNameComp).
Proof.
  intros H. unfold findHelper_getChildN, validateNameComp.
  rewrite (is_dot_comp_nonempty _ H), H. reflexivity.
Qed.

Lemma getChildN_validates (f : findHelper) (nameComp : string)
    (r : option ptr * option error) :
  findHelper_getChildN h f nameComp = Ret r -> is_dot_comp nameComp = false.
Proof.
  destruct (is_dot_comp nameComp) eqn:E; [|reflexivity].
  rewrite (getChildN_dot f _ E). discriminate.
Qed.

Lemma updateFromChildN_keeps_dot (f f' : findHelper) (c : ptr)
    (e : option error) :
  findHelper_updateFromChildN h f c = Ret (f', e) ->
  has_dot_comp (f_nameRem f) = true ->
  has_dot_comp (f_nameRem f') = true.
Proof.
  unfold findHelper_updateFromChildN. intros H Hd.
  destruct (deref h c) as [nd| |]; simpl in H; try discriminate.
  destruct (negb _); [|injection H as <- _; exact Hd].
  destruct (f_resolveSymlinks f); [|injection H as <- _; exact Hd].
  simpl in H.
  destruct (f_links f + 1 >? 255); [injection H as <- _; exact Hd|].
  destruct (node_extra nd) as [[|b t]|dir]; simpl in H; try discriminate;
    [|destruct (Byte.eqb b Byte.x2f)]; injection H as <- _;
    cbn [f_nameRem set_nameRem set_n set_links];
    first [ exact (has_dot_comp_app "" _ Hd)
          | exact (has_dot_comp_app (slice_from (string_of_list_byte (b :: t)) 1) _ Hd)
          | exact (has_dot_comp_app (slice_from (string_of_list_byte (b :: t)) 0) _ Hd) ].
Qed.

Lemma body_keeps_dot (f f' : findHelper) (e : option error) :
  findHelper_run_body h f = Ret (f', e) ->
  has_dot_comp (f_nameRem f) = true ->
  has_dot_comp (f_nameRem f') = true.
Proof.
  unfold findHelper_run_body. intros H Hd.
  destruct (findHelper_injectedFault h f) as [[e0|]| |]; simpl in H; try discriminate.
  { injection H as <- _. exact Hd. }
  destruct (findHelper_getChildN h f _) as [[childN [e0|]]| |] eqn:Hg;
    simpl in H; try discriminate.
  { injection H as <- _. exact Hd. }
  apply getChildN_validates in Hg.
  assert (H1 : has_dot_comp (f_nameRem
            (findHelper_updateNameRemFromSlashPos f (IndexByte (f_nameRem f) "/"))) = true).
  { destruct (has_dot_comp_step _ Hd) as [Hc|[Hp Hr]].
    - unfold findHelper_getNameComp in Hg. simpl in Hc. congruence.
    - unfold findHelper_updateNameRemFromSlashPos.
      destruct (_ <? 0) eqn:E; [apply Z.ltb_lt in E; lia|exact Hr]. }
  destruct childN as [c|]; [|injection H as <- _; exact H1].
  eapply updateFromChildN_keeps_dot; eauto.
Qed.

(** A walk over a path with a [.] or [..] component never returns nil. *)
Lemma run_loop_dot (fuel : nat) :
  forall f f' e,
    has_dot_comp (f_nameRem f) = true ->
    findHelper_run_loop fuel h f = Ret (f', e) ->
    e <> None /\ has_dot_comp (f_nameRem f') = true.
Proof.
  induction fuel as [|fuel IH]; intros f f' e Hd H; simpl in H; [discriminate|].
  destruct (str_is_empty (f_nameRem f)) eqn:He.
  - apply str_is_empty_true in He. rewrite He in Hd. discriminate.
  - destruct (findHelper_run_body h f) as [[f1 [e1|]]| |] eqn:Hb; simpl in H;
      try discriminate.
    + injection H as <- <-. split; [discriminate|].
      eapply body_keeps_dot; eauto.
    + eapply IH; [|exact H]. eapply body_keeps_dot; eauto.
Qed.

Lemma body_dot_panics (f : findHelper) :
  findHelper_injectedFault h f = Ret None ->
  is_dot_comp (findHelper_getNameComp f (IndexByte (f_nameRem f) "/")) = true ->
  findHelper_run_body h f = Panicked (PanicError errNameComp).
Proof.
  intros Hf Hc. unfold findHelper_run_body. rewrite Hf. simpl.
  rewrite (getChildN_dot f _ Hc). reflexivity.
Qed.

(** *** Injected errors and empty components *)

Lemma injectedFault_some (f : findHelper) (nd : node) (e : error) :
  f_ignoreInjectedFaults f = false ->
  h !! f_n f = Some nd ->
  node_err nd = Some e ->
  findHelper_injectedFault h f = Ret (Some e).
Proof.
  intros Hi Hn He. unfold findHelper_injectedFault, deref.
  rewrite Hi, Hn. simpl. rewrite He. reflexivity.
Qed.

Lemma run_on_fault (f : findHelper) (nd : node) (e : error) :
  f_ignoreInjectedFaults f = false ->
  h !! f_n f = Some nd ->
  node_err nd = Some e ->
  findHelper_run h f = Ret (f, Some e).
Proof.
  intros Hi Hn He. rewrite run_unfold.
  unfold findHelper_run_exit, findHelper_run_body.
  rewrite (injectedFault_some f nd e Hi Hn He). simpl.
  destruct (str_is_empty (f_nameRem f)); reflexivity.
Qed.

Lemma run_reaches_fault (f f' : findHelper) (nd : node) (e : error) :
  f_ignoreInjectedFaults f = false ->
  run_reaches h f f' ->
  h !! f_n f' = Some nd ->
  node_err nd = Some e ->
  findHelper_run h f = Ret (f', Some e).
Proof.
  intros Hi Hr Hn He.
  rewrite (run_reaches_run f f' Hr).
  destruct (run_reaches_frame f f' Hr) as (_ & Hi' & _).
  apply (run_on_fault f' nd e); [congruence|exact Hn|exact He].
Qed.

Lemma body_empty_comp (f : findHelper) (rest : string) :
  f_nameRem f = String "/" rest ->
  findHelper_injectedFault h f = Ret None ->
  findHelper_run_body h f = Ret (set_nameRem f rest, None).
Proof.
  intros Hn Hf. unfold findHelper_run_body. rewrite Hf. simpl.
  unfold findHelper_getNameComp, findHelper_updateNameRemFromSlashPos.
  rewrite Hn. reflexivity.
Qed.

End Walk.

(** ** Paths with a [.] or [..] component *)

Lemma dirAppend_fueled (n c : ptr) (h : store) :
  snd (dirAppend n c h) <> OutOfFuel.
Proof.
  unfold dirAppend, st_bind, st_lift, st_write, deref.
  destruct (h !! n) as [cur|]; simpl; [|discriminate].
  destruct (node_extra cur); simpl; discriminate.
Qed.

Lemma createChildren_dot (fuel : nat) :
  forall (n : ptr) (nameRem : string) (vfile : VirtualFile) (h : store),
    (String.length nameRem < fuel)%nat ->
    has_dot_comp nameRem = true ->
    exists h' v, createChildren_loop fuel n nameRem vfile h = (h', Panicked v).
Proof.
  induction fuel as [|fuel IH]; intros n nameRem vfile h Hf Hd; [lia|].
  assert (Hne : nameRem <> "") by (intros ->; discriminate).
  pose proof (IndexByte_lt nameRem "/"%char Hne) as Hi.
  assert (Hrest : 0 <= IndexByte nameRem "/" ->
          (String.length (slice_from nameRem (IndexByte nameRem "/" + 1)) < fuel)%nat).
  { intros Hp. unfold slice_from. rewrite length_str_drop. lia. }
  simpl.
  destruct (has_dot_comp_step _ Hd) as [Hc|[Hp Hr]]; cbv zeta in *.
  - rewrite (is_dot_comp_nonempty _ Hc). simpl.
    unfold st_bind, st_lift, validateNameComp. rewrite Hc. eauto.
  - destruct (IndexByte nameRem "/" <? 0) eqn:E; [apply Z.ltb_lt in E; lia|].
    destruct (str_is_empty (slice_to nameRem (IndexByte nameRem "/"))); simpl.
    + apply IH; auto.
    + unfold st_bind at 1. unfold st_lift, validateNameComp.
      destruct (is_dot_comp _); [eauto|].
      unfold st_bind at 1. unfold st_new at 1.
      unfold st_bind at 1.
      pose proof (dirAppend_fueled n (length h)
                    (h ++ [newDirNode ModeDir (slice_to nameRem (IndexByte nameRem "/"))])%list) as Ha.
      destruct (dirAppend _ _ _) as [h1 [[]|v|]]; simpl in Ha; [|eauto|congruence].
      apply IH; auto.
Qed.

Lemma abs_dot (fs : VirtualFileSystem) (name : string) :
  cwd fs = "/" ->
  has_dot_comp name = true ->
  exists nameRem,
    slice_from_checked (VirtualFileSystem_abs fs name) 1 = Ret nameRem /\
    has_dot_comp nameRem = true.
Proof.
  intros Hc Hd. unfold VirtualFileSystem_abs.
  destruct name as [|c name]; [discriminate|].
  destruct (Ascii.eqb c "/") eqn:E.
  - exists name. split; [apply slice_from_checked_1|].
    unfold has_dot_comp in *. simpl in Hd. rewrite E in Hd. exact Hd.
  - rewrite Hc. exists (String c name). split; [apply slice_from_checked_1|exact Hd].
Qed.

Lemma find_dot (h : store) (fs : VirtualFileSystem) (name : string)
    (ign res : bool) :
  cwd fs = "/" ->
  has_dot_comp name = true ->
  (exists v, VirtualFileSystem_find h fs name ign res = Panicked v) \/
  (exists n nameRem e,
     VirtualFileSystem_find h fs name ign res = Ret (n, nameRem, Some e) /\
     has_dot_comp nameRem = true).
Proof.
  intros Hc Hd. destruct (abs_dot fs name Hc Hd) as (nameRem & Hs & Hn).
  unfold VirtualFileSystem_find. rewrite Hs. simpl.
  pose proof (run_fueled h (find_start fs nameRem ign res)) as Hf.
  destruct (findHelper_run h _) as [[f' e]|v|] eqn:Hr; simpl; [|eauto|congruence].
  destruct (run_loop_dot h _ (find_start fs nameRem ign res) _ _ Hn Hr) as [He Hd'].
  destruct e as [e|]; [|congruence].
  right. eauto.
Qed.

Lemma Stat_dot (h : store) (fs : VirtualFileSystem) (name : string) :
  cwd fs = "/" ->
  has_dot_comp name = true ->
  (exists v, VirtualFileSystem_Stat h fs name = Panicked v) \/
  (exists e, VirtualFileSystem_Stat h fs name = Ret (None, Some e)).
Proof.
  intros Hc Hd. unfold VirtualFileSystem_Stat.
  destruct (find_dot h fs name false true Hc Hd) as [[v ->]|(n & r & e & -> & _)];
    simpl; eauto.
Qed.

Lemma Open_dot (h : store) (fs : VirtualFileSystem) (name : string) :
  cwd fs = "/" ->
  has_dot_comp name = true ->
  (exists v, VirtualFileSystem_Open h fs name = Panicked v) \/
  (exists e, VirtualFileSystem_Open h fs name = Ret (None, Some e)).
Proof.
  intros Hc Hd. unfold VirtualFileSystem_Open.
  destruct (find_dot h fs name false true Hc Hd) as [[v ->]|(n & r & e & -> & _)];
    simpl; eauto.
Qed.

Lemma Set_dot (fs : VirtualFileSystem) (name : string) (vfile : VirtualFile)
    (h : store) :
  cwd fs = "/" ->
  has_dot_comp name = true ->
  exists h' v, VirtualFileSystem_Set fs name vfile h = (h', Panicked v).
Proof.
  intros Hc Hd. unfold VirtualFileSystem_Set.
  destruct (negb (Set_mode_ok vfile)); [unfold st_panic; eauto|].
  unfold st_bind at 1. unfold st_lift at 1.
  destruct (find_dot h fs name true false Hc Hd) as [[v ->]|(n & r & e & -> & Hr)];
    [eauto|].
  destruct (error_is (Some e) ENOTDIR); [unfold st_panic; eauto|].
  assert (Hne : str_is_empty r = false).
  { destruct r; [discriminate|reflexivity]. }
  rewrite Hne. simpl.
  apply createChildren_dot; [lia|exact Hr].
Qed.

(** ** [Set] and [createChildren] return or panic *)

Lemma st_new_dirAppend_fueled (n : ptr) (x : node) (h : store) :
  snd (dirAppend n (length h) (h ++ [x])%list) <> OutOfFuel.
Proof. apply dirAppend_fueled. Qed.

Lemma createChildren_fueled (fuel : nat) :
  forall (n : ptr) (nameRem : string) (vfile : VirtualFile) (h : store),
    (String.length nameRem < fuel)%nat ->
    snd (createChildren_loop fuel n nameRem vfile h) <> OutOfFuel.
Proof.
  induction fuel as [|fuel IH]; intros n nameRem vfile h Hf; [lia|].
  assert (Hrest : 0 <= IndexByte nameRem "/" ->
          (String.length (slice_from nameRem (IndexByte nameRem "/" + 1)) < fuel)%nat).
  { intros Hp. unfold slice_from. rewrite length_str_drop.
    destruct nameRem as [|a s]; [simpl in Hp; lia|].
    pose proof (IndexByte_lt (String a s) "/"%char ltac:(discriminate)). lia. }
  simpl.
  destruct (str_is_empty _); simpl.
  - destruct (IndexByte nameRem "/" <? 0) eqn:E; [discriminate|].
    apply Z.ltb_ge in E. apply IH; auto.
  - unfold st_bind at 1. unfold st_lift, validateNameComp.
    destruct (is_dot_comp _); [discriminate|].
    destruct (IndexByte nameRem "/" <? 0) eqn:E.
    + unfold st_bind, st_new. apply dirAppend_fueled.
    + apply Z.ltb_ge in E.
      unfold st_bind at 1. unfold st_new at 1. unfold st_bind at 1.
      pose proof (dirAppend_fueled n (length h)
                    (h ++ [newDirNode ModeDir (slice_to nameRem (IndexByte nameRem "/"))])%list) as Ha.
      destruct (dirAppend _ _ _) as [h1 [[]|v|]]; simpl in Ha; [|discriminate|congruence].
      apply IH; auto.
Qed.

Lemma find_fueled (h : store) (fs : VirtualFileSystem) (name : string)
    (ign res : bool) :
  VirtualFileSystem_find h fs name ign res <> OutOfFuel.
Proof.
  unfold VirtualFileSystem_find, slice_from_checked.
  destruct (_ && _); simpl; [|discriminate].
  pose proof (run_fueled h (find_start fs (slice_from (VirtualFileSystem_abs fs name) 1)
                              ign res)) as Hf.
  destruct (findHelper_run h _) as [[f e]| |]; simpl; congruence.
Qed.

Theorem Set_terminates (fs : VirtualFileSystem) (name : string)
    (vfile : VirtualFile) (h : store) :
  snd (VirtualFileSystem_Set fs name vfile h) <> OutOfFuel.
Proof.
  unfold VirtualFileSystem_Set.
  destruct (negb (Set_mode_ok vfile)); [discriminate|].
  unfold st_bind at 1. unfold st_lift at 1.
  pose proof (find_fueled h fs name true false) as Hf.
  destruct (VirtualFileSystem_find h fs name true false) as [[[n nameRem] err]|v|];
    [|discriminate|congruence].
  destruct (error_is err ENOTDIR); [discriminate|].
  destruct (negb (str_is_empty nameRem)).
  - apply createChildren_fueled. lia.
  - unfold st_bind, st_lift, st_panic, st_write, deref.
    destruct (h !! n); simpl; [|discriminate].
    destruct (negb _); discriminate.
Qed.

(** ** What [Set] does to a node that its lookup finds *)

(** The lookup of [Set] ends on a node whose directory status agrees with
    the descriptor: mode and injected error are replaced; the payload is
    replaced by the descriptor's content unless the node is a directory,
    which keeps its children. *)
Lemma Set_updates_found_node (fs : VirtualFileSystem) (name : string)
    (vfile : VirtualFile) (h : store) (n : ptr) (cur : node) :
  Set_mode_ok vfile = true ->
  VirtualFileSystem_find h fs name true false = Ret (n, "", None) ->
  h !! n = Some cur ->
  FileMode_IsDir (node_mode cur) = FileMode_IsDir (Mode vfile) ->
  VirtualFileSystem_Set fs name vfile h =
  (<[n := {| node_err := Error vfile;
             node_extra := if FileMode_IsDir (Mode vfile) then node_extra cur
                           else ExtraBytes (Content vfile);
             node_mode := Mode vfile;
             node_name := node_name cur |}]> h,
   Ret tt).
Proof.
  intros Hok Hf Hn Hd. unfold VirtualFileSystem_Set.
  rewrite Hok. cbn [negb]. unfold st_bind at 1. unfold st_lift at 1.
  rewrite Hf. cbn [error_is str_is_empty negb].
  unfold st_bind, st_lift, deref. rewrite Hn.
  unfold FileMode_IsDir in Hd. rewrite Hd, eqb_reflx. cbn [negb].
  unfold st_write, FileMode_IsDir.
  destruct (Z.land (Mode vfile) ModeDir =? 0); reflexivity.
Qed.

(** The same, with directory statuses that disagree: a panic, the store as
    it was. *)
Lemma Set_type_conflict (fs : VirtualFileSystem) (name : string)
    (vfile : VirtualFile) (h : store) (n : ptr) (cur : node) :
  Set_mode_ok vfile = true ->
  VirtualFileSystem_find h fs name true false = Ret (n, "", None) ->
  h !! n = Some cur ->
  FileMode_IsDir (node_mode cur) <> FileMode_IsDir (Mode vfile) ->
  VirtualFileSystem_Set fs name vfile h =
  (h, Panicked (PanicError errIsDirDisagreement)).
Proof.
  intros Hok Hf Hn Hd. unfold VirtualFileSystem_Set.
  rewrite Hok. cbn [negb]. unfold st_bind at 1. unfold st_lift at 1.
  rewrite Hf. cbn [error_is str_is_empty negb].
  unfold st_bind, st_lift, deref. rewrite Hn.
  unfold FileMode_IsDir in Hd.
  destruct (negb (Z.land (node_mode cur) ModeDir =? 0)),
           (negb (Z.land (Mode vfile) ModeDir =? 0)); try reflexivity; congruence.
Qed.

(** ** A new file system with one entry *)

Lemma dirAppend_new (h : store) (p : ptr) (nd x : node) (dir : list ptr) :
  h !! p = Some nd ->
  node_extra nd = ExtraDir dir ->
  dirAppend p (length h) (h ++ [x])%list
  = ((<[p := with_child nd dir (length h)]> h ++ [x])%list, Ret tt).
Proof.
  intros Hp Hx. unfold dirAppend, st_bind, st_lift, st_write, deref.
  rewrite (lookup_app_l_Some _ _ _ _ Hp). cbn [go_bind]. rewrite Hx.
  cbn [assert_dir go_bind]. unfold with_child.
  rewrite insert_app_l by (eapply lookup_lt_Some; eauto).
  reflexivity.
Qed.

Lemma createChildren_chain (vfile : VirtualFile) (cs : list string) :
  forall (c : string) (fuel : nat) (p : ptr) (h : store) (nd : node)
         (dir : list ptr),
    Forall valid_comp (c :: cs) ->
    (String.length (join_slash (c :: cs)) < fuel)%nat ->
    h !! p = Some nd ->
    node_extra nd = ExtraDir dir ->
    createChildren_loop fuel p (join_slash (c :: cs)) vfile h
    = ((<[p := with_child nd dir (length h)]> h
        ++ chain_nodes (length h) (c :: cs) vfile)%list, Ret tt).
Proof.
  induction cs as [|c' cs IH]; intros c fuel p h nd dir Hv Hf Hp Hx;
    (destruct fuel as [|fuel]; [lia|]);
    apply Forall_cons in Hv; destruct Hv as [Hc Hv].
  - destruct (join_slash_cut c [] Hc) as [Hcomp Hrest]; cbv zeta in Hcomp, Hrest.
    destruct Hc as (Hne & Hns & Hnd).
    destruct Hrest as [[_ Hneg]|[Hcs _]]; [|congruence].
    cbn [createChildren_loop]. rewrite Hcomp.
    replace (IndexByte (join_slash [c]) "/" <? 0) with true
      by (symmetry; apply Z.ltb_lt; exact Hneg).
    rewrite Hne. cbn [negb].
    unfold st_bind at 1. unfold st_lift at 1. unfold validateNameComp.
    rewrite Hnd. unfold st_bind, st_new.
    apply (dirAppend_new h p nd _ dir Hp Hx).
  - destruct (join_slash_cut c (c' :: cs) Hc) as [Hcomp Hrest];
      cbv zeta in Hcomp, Hrest.
    destruct Hc as (Hne & Hns & Hnd).
    destruct Hrest as [[Hcs _]|(_ & Hpos & Hrest)]; [congruence|].
    cbn [createChildren_loop]. rewrite Hcomp.
    replace (IndexByte (join_slash (c :: c' :: cs)) "/" <? 0) with false
      by (symmetry; apply Z.ltb_ge; exact Hpos).
    rewrite Hne. cbn [negb].
    unfold st_bind at 1. unfold st_lift at 1. unfold validateNameComp.
    rewrite Hnd. unfold st_bind at 1. unfold st_new at 1.
    unfold st_bind at 1.
    rewrite (dirAppend_new h p nd _ dir Hp Hx).
    rewrite Hrest.
    set (h2 := (<[p := with_child nd dir (length h)]> h ++ [newDirNode ModeDir c])%list).
    assert (Hlen : length h2 = S (length h)).
    { unfold h2. rewrite length_app, length_insert. simpl. lia. }
    assert (Hnew : h2 !! length h = Some (newDirNode ModeDir c)).
    { unfold h2. rewrite lookup_app_r by (rewrite length_insert; lia).
      rewrite length_insert, Nat.sub_diag. reflexivity. }
    rewrite (IH c' fuel (length h) h2 (newDirNode ModeDir c) [] Hv).
    + rewrite Hlen. f_equal.
      unfold h2.
      rewrite insert_app_r_alt by (rewrite length_insert; lia).
      rewrite length_insert, Nat.sub_diag. cbn [insert list_insert].
      rewrite <- app_assoc. reflexivity.
    + assert (Hl : (String.length (join_slash (c' :: cs))
                    < String.length (join_slash (c :: c' :: cs)))%nat).
      { rewrite <- Hrest. unfold slice_from. rewrite length_str_drop.
        assert (join_slash (c :: c' :: cs) <> "").
        { cbn [join_slash]. destruct c; [discriminate Hne|discriminate]. }
        pose proof (IndexByte_lt _ "/"%char H). lia. }
      lia.
    + exact Hnew.
    + reflexivity.
Qed.

Lemma chain_nodes_head (k : nat) (c : string) (cs : list string)
    (vfile : VirtualFile) :
  exists x, chain_nodes k (c :: cs) vfile !! O = Some x /\ node_name x = c /\
            (cs = [] -> x = leaf_node c vfile) /\
            (cs <> [] -> x = link_node c (S k)).
Proof.
  destruct cs as [|c' cs]; simpl; eexists; (split; [reflexivity|]);
    (split; [reflexivity|]); split; congruence.
Qed.

Lemma chain_nodes_tail (k : nat) (c c' : string) (cs : list string)
    (vfile : VirtualFile) (i : nat) :
  chain_nodes k (c :: c' :: cs) vfile !! S i = chain_nodes (S k) (c' :: cs) vfile !! i.
Proof. reflexivity. Qed.

Section WalkChain.

Variables (H : store) (vfile : VirtualFile).

Hypothesis Hnolink : Z.land (Mode vfile) ModeSymlink = 0.

(** Down a chain of freshly made nodes, to its last node. *)
Lemma run_chain (cs : list string) :
  forall (c : string) (k : nat) (f : findHelper) (nd : node) (dir : list ptr),
    Forall valid_comp (c :: cs) ->
    f_nameRem f = join_slash (c :: cs) ->
    f_ignoreInjectedFaults f = true \/ node_err nd = None ->
    H !! f_n f = Some nd ->
    (Z.land (node_mode nd) ModeDir =? 0) = false ->
    node_extra nd = ExtraDir dir ->
    dirLookup_children H dir c = Ret (Some k) ->
    (forall i x, chain_nodes k (c :: cs) vfile !! i = Some x ->
                 H !! (k + i)%nat = Some x) ->
    findHelper_run H f
    = Ret (set_n (set_nameRem f "") (k + length cs)%nat,
           if f_ignoreInjectedFaults f then None else Error vfile).
Proof using Hnolink.
  induction cs as [|c' cs IH]; intros c k f nd dir Hv Hname Hq Hn Hd Hx Hl Hch;
    apply Forall_cons in Hv; destruct Hv as [Hc Hv].
  - destruct (join_slash_cut c [] Hc) as [Hcomp Hrest]; cbv zeta in Hcomp, Hrest.
    destruct Hc as (Hne & Hns & Hnd).
    destruct Hrest as [[_ Hneg]|[Hcs _]]; [|congruence].
    assert (Hfault : findHelper_injectedFault H f = Ret None).
    { unfold findHelper_injectedFault, deref. destruct Hq as [->|He]; [reflexivity|].
      destruct (f_ignoreInjectedFaults f); [reflexivity|]. rewrite Hn. simpl.
      rewrite He. reflexivity. }
    pose proof (Hch O (leaf_node c vfile) eq_refl) as Hk. rewrite Nat.add_0_r in Hk.
    rewrite run_unfold. rewrite Hname at 1.
    replace (str_is_empty (join_slash [c])) with false
      by (symmetry; exact Hne).
    unfold findHelper_run_body. rewrite Hfault. cbn [go_bind].
    unfold findHelper_getNameComp, findHelper_updateNameRemFromSlashPos.
    rewrite Hname, Hcomp.
    replace (IndexByte (join_slash [c]) "/" <? 0) with true
      by (symmetry; apply Z.ltb_lt; exact Hneg).
    unfold findHelper_getChildN, validateNameComp, dirLookup, deref.
    rewrite Hne, Hnd, Hn. cbn [go_bind]. rewrite Hd, Hx. cbn [assert_dir go_bind].
    rewrite Hl. cbn [go_bind].
    unfold findHelper_updateFromChildN, deref. cbn [f_n set_nameRem].
    rewrite Hk. cbn [go_bind leaf_node node_mode].
    rewrite Hnolink. cbn [Z.eqb negb go_bind]. cbv beta iota.
    rewrite run_unfold. cbn [f_nameRem set_n set_nameRem str_is_empty].
    unfold findHelper_run_exit, findHelper_injectedFault, deref.
    cbn [f_ignoreInjectedFaults f_n set_n set_nameRem].
    rewrite Nat.add_0_r.
    destruct (f_ignoreInjectedFaults f); [reflexivity|].
    rewrite Hk. reflexivity.
  - destruct (join_slash_cut c (c' :: cs) Hc) as [Hcomp Hrest];
      cbv zeta in Hcomp, Hrest.
    destruct Hc as (Hne & Hns & Hnd).
    destruct Hrest as [[Hcs _]|(_ & Hpos & Hrest)]; [congruence|].
    assert (Hfault : findHelper_injectedFault H f = Ret None).
    { unfold findHelper_injectedFault, deref. destruct Hq as [->|He]; [reflexivity|].
      destruct (f_ignoreInjectedFaults f); [reflexivity|]. rewrite Hn. simpl.
      rewrite He. reflexivity. }
    pose proof (Hch O (link_node c (S k)) eq_refl) as Hk. rewrite Nat.add_0_r in Hk.
    rewrite run_unfold. rewrite Hname at 1.
    replace (str_is_empty (join_slash (c :: c' :: cs))) with false
      by (cbn [join_slash]; destruct c; [discriminate Hne|reflexivity]).
    unfold findHelper_run_body. rewrite Hfault. cbn [go_bind].
    unfold findHelper_getNameComp, findHelper_updateNameRemFromSlashPos.
    rewrite Hname, Hcomp, Hrest.
    replace (IndexByte (join_slash (c :: c' :: cs)) "/" <? 0) with false
      by (symmetry; apply Z.ltb_ge; exact Hpos).
    unfold findHelper_getChildN, validateNameComp, dirLookup, deref.
    rewrite Hne, Hnd, Hn. cbn [go_bind]. rewrite Hd, Hx. cbn [assert_dir go_bind].
    rewrite Hl. cbn [go_bind].
    unfold findHelper_updateFromChildN, deref. cbn [f_n set_nameRem].
    rewrite Hk. cbn [go_bind link_node node_mode].
    change (negb (Z.land (Z.lor ModeDir ModeDir) ModeSymlink =? 0)) with false.
    cbn [go_bind]. cbv beta iota.
    set (f1 := set_n (set_nameRem f (join_slash (c' :: cs))) k).
    destruct (chain_nodes_head (S k) c' cs vfile) as (x & Hx0 & Hxn & _).
    assert (Hk1 : H !! S k = Some x).
    { specialize (Hch 1%nat x). rewrite Nat.add_1_r in Hch. apply Hch.
      rewrite chain_nodes_tail. exact Hx0. }
    rewrite (IH c' (S k) f1 (link_node c (S k)) [S k] Hv).
    + unfold f1. cbn [set_n set_nameRem f_fs f_ignoreInjectedFaults f_links
                      f_nameRem f_n f_resolveSymlinks length].
      rewrite Nat.add_succ_r. reflexivity.
    + reflexivity.
    + right. reflexivity.
    + exact Hk.
    + reflexivity.
    + reflexivity.
    + cbn [dirLookup_children]. unfold deref. rewrite Hk1. cbn [go_bind].
      rewrite Hxn, String.eqb_refl. reflexivity.
    + intros i y Hy. specialize (Hch (S i) y).
      rewrite Nat.add_succ_r in Hch. apply Hch.
      rewrite chain_nodes_tail. exact Hy.
Qed.

End WalkChain.

Lemma last_default (l : list string) :
  forall a d d' : string, List.last (a :: l) d = List.last (a :: l) d'.
Proof.
  induction l as [|b l IH]; intros a d d'; [reflexivity|].
  change (List.last (b :: l) d = List.last (b :: l) d'). apply IH.
Qed.

Lemma chain_nodes_last (vfile : VirtualFile) (cs : list string) :
  forall (c : string) (k : nat),
    chain_nodes k (c :: cs) vfile !! length cs
    = Some (leaf_node (List.last cs c) vfile).
Proof.
  induction cs as [|c' cs IH]; intros c k; [reflexivity|].
  cbn [length]. rewrite chain_nodes_tail, IH.
  destruct cs as [|s cs]; [reflexivity|].
  do 2 f_equal. change (List.last (c' :: s :: cs) c) with (List.last (s :: cs) c).
  apply last_default.
Qed.

(** On a new file system no first component is found. *)
Lemma find_new_store (c : string) (cs : list string) (res : bool) :
  Forall valid_comp (c :: cs) ->
  VirtualFileSystem_find new_store fs0 (String "/" (join_slash (c :: cs))) true res
  = Ret (O, join_slash (c :: cs), Some ErrNotExist).
Proof.
  intros Hv. apply Forall_cons in Hv. destruct Hv as [Hc _].
  destruct (join_slash_cut c cs Hc) as [Hcomp _]; cbv zeta in Hcomp.
  destruct Hc as (Hne & Hns & Hnd).
  unfold VirtualFileSystem_find.
  change (VirtualFileSystem_abs fs0 (String "/" (join_slash (c :: cs))))
    with (String "/" (join_slash (c :: cs))).
  rewrite slice_from_checked_1. cbn [go_bind].
  rewrite run_unfold. cbn [f_nameRem find_start].
  replace (str_is_empty (join_slash (c :: cs))) with false
    by (destruct cs; cbn [join_slash]; destruct c; try discriminate Hne; reflexivity).
  unfold findHelper_run_body, findHelper_injectedFault.
  cbn [f_ignoreInjectedFaults find_start go_bind].
  unfold findHelper_getNameComp. cbn [f_nameRem find_start]. rewrite Hcomp.
  unfold findHelper_getChildN, validateNameComp. rewrite Hne, Hnd.
  reflexivity.
Qed.

(** A new file system with one entry, of a path made of valid components
    and a descriptor that is no symlink: the nodes of the path are created
    one under the other, and the path resolves, under every policy, to the
    node made from the descriptor; the error returned with it is the
    injected error of the descriptor, unless the policy ignores it. *)
Theorem new_entry_resolves (c : string) (cs : list string) (vfile : VirtualFile) :
  Forall valid_comp (c :: cs) ->
  Set_mode_ok vfile = true ->
  Z.land (Mode vfile) ModeSymlink = 0 ->
  let P := String "/" (join_slash (c :: cs)) in
  let h := (with_child (newDirNode 0 "/") [] 1
            :: chain_nodes 1 (c :: cs) vfile)%list in
  built [(P, vfile)] = (h, Ret fs0) /\
  h !! S (length cs) = Some (leaf_node (List.last cs c) vfile) /\
  forall ign res : bool,
    VirtualFileSystem_find h fs0 P ign res
    = Ret (S (length cs), "", if ign then None else Error vfile).
Proof.
  intros Hv Hok Hl P h. split; [|split].
  - unfold P, h, built, NewVirtualFileSystem, st_bind at 1, st_new at 1.
    cbn [app length]. unfold st_bind at 1. cbn [Set_all].
    unfold st_bind at 1. unfold VirtualFileSystem_Set. rewrite Hok. cbn [negb].
    unfold st_bind at 1. unfold st_lift at 1.
    change [newDirNode 0 "/"] with new_store.
    change {| cwd := "/"; root := 0%nat |} with fs0.
    rewrite (find_new_store c cs false Hv).
    cbv beta iota. cbn [error_is error_eqb].
    replace (negb (str_is_empty (join_slash (c :: cs)))) with true.
    2:{ apply Forall_cons in Hv. destruct Hv as [(Hne & _) _].
        destruct cs; cbn [join_slash]; destruct c; try discriminate Hne; reflexivity. }
    unfold VirtualFileSystem_createChildren.
    rewrite (createChildren_chain vfile cs c _ O new_store (newDirNode 0 "/") []
               Hv (Nat.lt_succ_diag_r _) eq_refl eq_refl).
    reflexivity.
  - unfold h. apply (chain_nodes_last vfile cs c 1%nat).
  - intros ign res. unfold VirtualFileSystem_find.
    change (VirtualFileSystem_abs fs0 P) with P. unfold P.
    rewrite slice_from_checked_1. cbn [go_bind].
    rewrite (run_chain h vfile Hl cs c 1%nat _ (with_child (newDirNode 0 "/") [] 1) [1%nat] Hv).
    + reflexivity.
    + reflexivity.
    + right. reflexivity.
    + reflexivity.
    + reflexivity.
    + reflexivity.
    + cbn [dirLookup_children]. unfold deref.
      destruct (chain_nodes_head 1 c cs vfile) as (x & Hx0 & Hxn & _).
      assert (Hh1 : h !! 1%nat = Some x) by exact Hx0.
      rewrite Hh1. cbn [go_bind].
      rewrite Hxn, String.eqb_refl. reflexivity.
    + intros i x Hx. exact Hx.
Qed.

(** On such an entry a second identical [Set] changes nothing. *)
Theorem Set_twice_new_entry (c : string) (cs : list string) (vfile : VirtualFile) :
  Forall valid_comp (c :: cs) ->
  Set_mode_ok vfile = true ->
  Z.land (Mode vfile) ModeSymlink = 0 ->
  let P := String "/" (join_slash (c :: cs)) in
  exists h,
    VirtualFileSystem_Set fs0 P vfile new_store = (h, Ret tt) /\
    VirtualFileSystem_Set fs0 P vfile h = (h, Ret tt).
Proof.
  intros Hv Hok Hl P.
  destruct (new_entry_resolves c cs vfile Hv Hok Hl) as (Hb & Hleaf & Hfind).
  cbv zeta in Hb, Hleaf, Hfind. fold P in Hb, Hfind.
  set (h := (with_child (newDirNode 0 "/") [] 1
             :: chain_nodes 1 (c :: cs) vfile)%list) in *.
  exists h. split.
  - unfold built, NewVirtualFileSystem, st_bind at 1, st_new at 1 in Hb.
    cbn [app length] in Hb. unfold st_bind at 1 in Hb. cbn [Set_all] in Hb.
    unfold st_bind at 1 in Hb.
    change [newDirNode 0 "/"] with new_store in Hb.
    change {| cwd := "/"; root := 0%nat |} with fs0 in Hb.
    destruct (VirtualFileSystem_Set fs0 P vfile new_store) as [h' [[]|v|]];
      cbn [st_ret] in Hb; try discriminate.
    injection Hb as ->. reflexivity.
  - rewrite (Set_updates_found_node fs0 P vfile h (S (length cs))
               (leaf_node (List.last cs c) vfile) Hok
               (Hfind true false) Hleaf eq_refl).
    f_equal. apply list_insert_id. rewrite Hleaf. f_equal.
    unfold leaf_node, FileMode_IsDir. cbn [node_extra node_name].
    destruct (Z.land (Mode vfile) ModeDir =? 0); reflexivity.
Qed.

(** An entry of a new file system is updated in place by a later [Set]
    whose descriptor agrees with it on being a directory. *)
Corollary Set_updates_new_entry (c : string) (cs : list string)
    (vfile vfile' : VirtualFile) :
  Forall valid_comp (c :: cs) ->
  Set_mode_ok vfile = true ->
  Z.land (Mode vfile) ModeSymlink = 0 ->
  Set_mode_ok vfile' = true ->
  FileMode_IsDir (Mode vfile) = FileMode_IsDir (Mode vfile') ->
  let P := String "/" (join_slash (c :: cs)) in
  exists h,
    built [(P, vfile)] = (h, Ret fs0) /\
    VirtualFileSystem_Set fs0 P vfile' h =
    (<[S (length cs) :=
         {| node_err := Error vfile';
            node_extra := if FileMode_IsDir (Mode vfile')
                          then node_extra (leaf_node (List.last cs c) vfile)
                          else ExtraBytes (Content vfile');
            node_mode := Mode vfile';
            node_name := List.last cs c |}]> h,
     Ret tt).
Proof.
  intros Hv Hok Hl Hok' Hd P.
  destruct (new_entry_resolves c cs vfile Hv Hok Hl) as (Hb & Hleaf & Hfind).
  cbv zeta in Hb, Hleaf, Hfind. eexists. split; [exact Hb|].
  apply (Set_updates_found_node fs0 _ vfile' _ _ _ Hok' (Hfind true false) Hleaf).
  exact Hd.
Qed.

(** ** Descriptors *)

Lemma take_add_drop (l : list byte) (a b : nat) :
  take (a + b) l = (take a l ++ take b (drop a l))%list.
Proof.
  revert l; induction a as [|a IH]; intros [|x l]; simpl; auto.
  - destruct b; reflexivity.
  - f_equal. apply IH.
Qed.

Lemma take_min_drop (l : list byte) (a b : nat) :
  (take (Nat.min a (length l)) l ++ take b (drop (Nat.min a (length l)) l))%list
  = take (a + b) l.
Proof.
  destruct (Nat.le_ge_cases a (length l)) as [H|H].
  - rewrite Nat.min_l by exact H. symmetry. apply take_add_drop.
  - rewrite Nat.min_r by exact H.
    rewrite drop_ge by lia. rewrite take_ge by lia.
    rewrite (take_ge l (a + b)) by lia.
    destruct b; simpl; apply app_nil_r.
Qed.

Section RegularFile.

(** A descriptor on a regular file of content [C]. *)
Variables (h : store) (nd : node) (C : list byte).
Hypothesis Hregular : FileMode_IsRegular (node_mode nd) = true.
Hypothesis Hcontent : node_extra nd = ExtraBytes C.

(** What one [Read] does with a non-empty buffer. *)
Lemma Read_regular (r : virtualFileDescriptor) (p : list byte) :
  h !! fd_node r = Some nd ->
  p <> [] ->
  0 <= fd_readPos r <= Z.of_nat (length C) ->
  let k := Nat.min (length p) (length C - Z.to_nat (fd_readPos r)) in
  virtualFileDescriptor_Read h r p =
  Ret ({| fd_node := fd_node r; fd_readPos := fd_readPos r + Z.of_nat k |},
       (take k (drop (Z.to_nat (fd_readPos r)) C) ++ drop k p)%list,
       Z.of_nat k,
       if Z.of_nat k =? 0 then Some EOF else None).
Proof using Hregular Hcontent.
  intros Hn Hp Hpos. unfold virtualFileDescriptor_Read, deref.
  rewrite Hn. simpl. rewrite Hregular, Hcontent. simpl.
  assert (Hl : (Z.of_nat (length p) >? 0) = true).
  { apply Z.gtb_lt. destruct p; [congruence|]. simpl length. lia. }
  rewrite Hl.
  assert (Hb : (0 <=? fd_readPos r) && (fd_readPos r <=? Z.of_nat (length C)) = true).
  { apply andb_true_iff. split; apply Z.leb_le; lia. }
  rewrite Hb. unfold copy. rewrite length_drop. reflexivity.
Qed.

(** At the end of the content: nothing is transferred, the descriptor and
    the buffer stay as they are. *)
Lemma Read_at_end (r : virtualFileDescriptor) (p : list byte) :
  h !! fd_node r = Some nd ->
  p <> [] ->
  fd_readPos r = Z.of_nat (length C) ->
  virtualFileDescriptor_Read h r p = Ret (r, p, 0, Some EOF).
Proof using Hregular Hcontent.
  intros Hn Hp Hpos.
  rewrite (Read_regular r p Hn Hp) by lia.
  replace (length C - Z.to_nat (fd_readPos r))%nat with O by lia.
  rewrite Nat.min_0_r. simpl. rewrite Z.add_0_r.
  destruct r; reflexivity.
Qed.

(** Successive reads walk through the content. *)
Lemma Read_each_regular (bufs : list (list byte)) :
  forall r : virtualFileDescriptor,
    h !! fd_node r = Some nd ->
    Forall (fun p => p <> []) bufs ->
    0 <= fd_readPos r <= Z.of_nat (length C) ->
    Read_each h r bufs =
    Ret ({| fd_node := fd_node r;
            fd_readPos :=
              Z.of_nat (Nat.min (Z.to_nat (fd_readPos r) + total_length bufs)
                                (length C)) |},
         take (total_length bufs) (drop (Z.to_nat (fd_readPos r)) C)).
Proof using Hregular Hcontent.
  induction bufs as [|p bufs IH]; intros r Hn Hall Hpos.
  - simpl. rewrite Nat.add_0_r, Nat.min_l by lia.
    rewrite Z2Nat.id by lia. destruct r; reflexivity.
  - apply Forall_cons in Hall. destruct Hall as [Hp Hall].
    cbn [Read_each].
    rewrite (Read_regular r p Hn Hp Hpos). cbn zeta.
    set (pos := Z.to_nat (fd_readPos r)) in *.
    set (k := Nat.min (length p) (length C - pos)).
    cbn [go_bind].
    rewrite IH; cbn [fd_node fd_readPos]; try assumption; [|lia].
    cbn [go_bind].
    replace (Z.to_nat (fd_readPos r + Z.of_nat k)) with (pos + k)%nat by lia.
    f_equal. f_equal.
    + f_equal. f_equal. simpl total_length. lia.
    + rewrite Nat2Z.id.
      rewrite take_app_le by (rewrite length_take, length_drop; lia).
      rewrite take_take, Nat.min_id.
      rewrite <- drop_drop.
      simpl total_length.
      assert (Hk : k = Nat.min (length p) (length (drop pos C)))
        by (rewrite length_drop; reflexivity).
      rewrite Hk. apply take_min_drop.
Qed.

End RegularFile.

(** ** The scenario of a file registered where a directory is needed *)

Lemma built_empty : built [] = (new_store, Ret fs0).
Proof. reflexivity. Qed.

Lemma mode_ok_regular (C : list byte) (m : FileMode) (E : option error) :
  FileMode_IsRegular m = true ->
  Set_mode_ok {| Content := C; Mode := m; Error := E |} = true.
Proof.
  intros H. unfold Set_mode_ok, Set_flag. cbn [Mode].
  rewrite (regular_not_dir m H), (regular_not_symlink m H). simpl.
  exact H.
Qed.

Lemma Set_a_b (C : list byte) (m : FileMode) (E : option error) :
  FileMode_IsRegular m = true ->
  VirtualFileSystem_Set fs0 "/a/b" {| Content := C; Mode := m; Error := E |} new_store
  = (file_a_b C m E, Ret tt).
Proof.
  intros Hm.
  pose proof (regular_not_dir m Hm) as Hd. unfold FileMode_IsDir in Hd.
  apply negb_false_iff in Hd.
  unfold VirtualFileSystem_Set. rewrite (mode_ok_regular C m E Hm).
  cbn [negb]. unfold st_bind at 1. unfold st_lift at 1.
  assert (Hfind : VirtualFileSystem_find new_store fs0 "/a/b" true false
                 = Ret (O, "a/b", Some ErrNotExist)) by (vm_compute; reflexivity).
  rewrite Hfind. cbv beta iota zeta.
  change (error_is (Some ErrNotExist) ENOTDIR) with false.
  change (negb (str_is_empty "a/b")) with true.
  cbv beta iota.
  cbv -[Z.land Z.eqb ModeDir].
  rewrite Hd. reflexivity.
Qed.

Lemma find_a_b_c (C : list byte) (m : FileMode) (E : option error) :
  FileMode_IsRegular m = true ->
  VirtualFileSystem_find (file_a_b C m E) fs0 "/a/b/c" true false
  = Ret (2%nat, "c", Some ENOTDIR).
Proof.
  intros Hm.
  pose proof (regular_not_dir m Hm) as Hd. unfold FileMode_IsDir in Hd.
  apply negb_false_iff in Hd.
  pose proof (regular_not_symlink m Hm) as Hs.
  assert (Hrun : findHelper_run_loop 3 (file_a_b C m E)
                   (find_start fs0 "a/b/c" true false)
                 = Ret ({| f_fs := fs0; f_ignoreInjectedFaults := true; f_links := 0;
                           f_nameRem := "c"; f_n := 2%nat;
                           f_resolveSymlinks := false |}, Some ENOTDIR)).
  { assert (Hs' : (Z.land m ModeSymlink =? 0) = true) by (rewrite Hs; reflexivity).
    repeat (cbv -[Z.land Z.eqb ModeDir ModeSymlink];
            first [ progress change (Z.land ModeDir ModeDir =? 0) with false
                  | progress change (Z.land ModeDir ModeSymlink =? 0) with true
                  | rewrite Hs'
                  | rewrite Hd ]).
    reflexivity. }
  unfold VirtualFileSystem_find.
  change (slice_from_checked (VirtualFileSystem_abs fs0 "/a/b/c") 1) with (Ret "a/b/c").
  cbn [go_bind].
  rewrite (run_loop_run _ _ 3) by (rewrite Hrun; discriminate).
  rewrite Hrun. reflexivity.
Qed.


(** * Further properties of the code *)

(** ** [trimTrailingSlashes] *)

Lemma get_app_left (r t : string) (i : nat) :
  (i < String.length r)%nat -> String.get i (r ++ t) = String.get i r.
Proof.
  revert i. induction r as [|a r IH]; intros i Hi; simpl in *; [lia|].
  destruct i as [|i]; [reflexivity|]. apply IH. lia.
Qed.

Lemma get_app_right (r t : string) (i : nat) :
  String.get (String.length r + i) (r ++ t) = String.get i t.
Proof. induction r as [|a r IH]; simpl; auto. Qed.

Lemma get_slashes (k i : nat) :
  (i < k)%nat -> String.get i (slashes k) = Some "/"%char.
Proof.
  revert i. induction k as [|k IH]; intros i Hi; [lia|].
  destruct i as [|i]; simpl; [reflexivity|]. apply IH. lia.
Qed.

Lemma get_in_bounds (s : string) (i : nat) :
  (i < String.length s)%nat -> exists c, String.get i s = Some c.
Proof.
  revert i. induction s as [|a s IH]; intros i Hi; simpl in *; [lia|].
  destruct i as [|i]; [eauto|]. apply IH. lia.
Qed.

Lemma length_slashes (k : nat) : String.length (slashes k) = k.
Proof. induction k; simpl; auto. Qed.

Lemma slashes_snoc (k : nat) : (slashes k ++ "/")%string = slashes (S k).
Proof. induction k as [|k IH]; simpl; [reflexivity|]. now rewrite IH. Qed.

Lemma str_app_assoc (a b c : string) : ((a ++ b) ++ c)%string = (a ++ b ++ c)%string.
Proof. induction a as [|x a IH]; simpl; [reflexivity|]. now rewrite IH. Qed.

Lemma str_app_nil_r (a : string) : (a ++ "")%string = a.
Proof. induction a as [|x a IH]; simpl; [reflexivity|]. now rewrite IH. Qed.

(** The index that the loop reads is within the bounds of the name. *)
Lemma trimTrailingSlashes_loop_in_bounds (name : string) (n : nat) :
  (S n <= String.length name)%nat -> String.get n name <> None.
Proof.
  intros Hn. destruct (get_in_bounds name n) as [c Hc]; [lia|]. congruence.
Qed.

Lemma trimTrailingSlashes_loop_S (name : string) (n : nat) :
  trimTrailingSlashes_loop name (S n)
  = match String.get n name with
    | Some c => if Ascii.eqb c "/" then trimTrailingSlashes_loop name n else S n
    | None => S n
    end.
Proof. reflexivity. Qed.

(** The loop steps over the separators that follow [r]. *)
Lemma trimTrailingSlashes_loop_slashes (r : string) (k j : nat) :
  (j <= k)%nat ->
  trimTrailingSlashes_loop (r ++ slashes k) (String.length r + j)
  = trimTrailingSlashes_loop (r ++ slashes k) (String.length r).
Proof.
  induction j as [|j IH]; intros Hj; [now rewrite Nat.add_0_r|].
  replace (String.length r + S j)%nat with (S (String.length r + j)) by lia.
  rewrite trimTrailingSlashes_loop_S, get_app_right, get_slashes by lia.
  simpl. apply IH. lia.
Qed.

(** It stops at a byte that is not a separator. *)
Lemma trimTrailingSlashes_loop_stops (r t : string) :
  (forall u, r <> (u ++ "/")%string) ->
  trimTrailingSlashes_loop (r ++ t) (String.length r) = String.length r.
Proof.
  intros Hr.
  assert (Hlast : forall (s : string) (a : ascii),
            exists u c, String a s = (u ++ String c "")%string /\
                        String.length u = String.length s).
  { induction s as [|b s IH]; intros a.
    - exists "", a. split; reflexivity.
    - destruct (IH b) as (u & c & Hu & Hl).
      exists (String a u), c. simpl. rewrite <- Hu. split; [reflexivity|].
      simpl. now rewrite Hl. }
  destruct r as [|a s]; [reflexivity|].
  destruct (Hlast s a) as (u & c & Hu & Hl).
  change (String.length (String a s)) with (S (String.length s)).
  rewrite trimTrailingSlashes_loop_S.
  rewrite get_app_left by (simpl; lia).
  rewrite Hu, <- Hl.
  replace (String.length u) with (String.length u + 0)%nat at 1 by lia.
  rewrite get_app_right. simpl.
  destruct (Ascii.eqb c "/") eqn:Hc; [|reflexivity].
  apply Ascii.eqb_eq in Hc. subst c. exfalso. apply (Hr u). exact Hu.
Qed.

(** Every name is a string that does not end in a separator, followed by
    separators. *)
Lemma trailing_slashes_split (s : string) :
  exists r k, s = (r ++ slashes k)%string /\ forall u, r <> (u ++ "/")%string.
Proof.
  induction s as [|a s (r & k & Hs & Hr)].
  - exists "", O. split; [reflexivity|]. intros [|x u]; discriminate.
  - destruct r as [|b r].
    + destruct (Ascii.eqb a "/") eqn:Ha.
      * apply Ascii.eqb_eq in Ha. subst a. exists "", (S k).
        split; [simpl in *; now rewrite Hs|]. intros [|x u]; discriminate.
      * exists (String a ""), k. split; [simpl in *; now rewrite Hs|].
        intros [|x [|y u]] E; simpl in E; try discriminate.
        injection E as ->. rewrite Ascii.eqb_refl in Ha. discriminate.
    + exists (String a (String b r)), k. split; [simpl in *; now rewrite Hs|].
      intros [|x u] E; simpl in E; [discriminate|].
      injection E as _ E. exact (Hr u E).
Qed.

Lemma trimTrailingSlashes_app_slashes (r : string) (k : nat) :
  (forall u, r <> (u ++ "/")%string) ->
  trimTrailingSlashes (r ++ slashes k) = r.
Proof.
  intros Hr. unfold trimTrailingSlashes, slice_to.
  rewrite length_str_app, length_slashes.
  rewrite trimTrailingSlashes_loop_slashes by lia.
  rewrite trimTrailingSlashes_loop_stops by exact Hr.
  rewrite Nat2Z.id. apply str_take_app.
Qed.

(** ** [IsPathSeparatorWindows] *)

Lemma IsPathSeparatorWindows_true (b : byte) :
  IsPathSeparatorWindows b = true <-> b = Byte.x2f \/ b = Byte.x5c.
Proof.
  unfold IsPathSeparatorWindows. split.
  - intros H. apply orb_prop in H.
    destruct H as [H|H]; [left|right]; destruct b; try discriminate H; reflexivity.
  - intros [-> | ->]; reflexivity.
Qed.

(** ** The walk reads a path one non-empty component at a time *)

Lemma comps_app (a b : string) :
  comps (a ++ "/" ++ b) = (comps a ++ comps b)%list.
Proof. unfold comps. rewrite split_slash_app. apply List.filter_app. Qed.

Lemma comps_slash (s : string) : comps (String "/" s) = comps s.
Proof. reflexivity. Qed.

Lemma comps_slashes (k : nat) : comps (slashes k) = [].
Proof. induction k as [|k IH]; [reflexivity|]. simpl slashes. now rewrite comps_slash. Qed.

Lemma comps_app_slashes (r : string) (k : nat) : comps (r ++ slashes k) = comps r.
Proof.
  destruct k as [|k]; [now rewrite str_app_nil_r|].
  change (slashes (S k)) with ("/" ++ slashes k)%string.
  rewrite comps_app, comps_slashes. apply app_nil_r.
Qed.

Lemma IndexByte_head (a : ascii) (s : string) :
  Ascii.eqb a "/" = false -> IndexByte (String a s) "/" <> 0.
Proof.
  intros Ha. simpl. rewrite Ha.
  pose proof (IndexByte_range s "/") as Hr.
  destruct (IndexByte s "/" <? 0) eqn:Hi; [lia|]. apply Z.ltb_ge in Hi. lia.
Qed.

(** A path that does not start with a separator starts with a component. *)
Lemma comps_first (a : ascii) (s : string) :
  Ascii.eqb a "/" = false ->
  first_comp (String a s) <> "" /\
  comps (String a s) = first_comp (String a s) :: comps (after_first (String a s)).
Proof.
  intros Ha. unfold first_comp, after_first.
  pose proof (IndexByte_head a s Ha) as H0.
  destruct (IndexByte (String a s) "/" <? 0) eqn:Hi.
  - apply Z.ltb_lt in Hi. split; [discriminate|].
    unfold comps. rewrite split_slash_no_slash by exact Hi. reflexivity.
  - apply Z.ltb_ge in Hi.
    assert (Hne : slice_to (String a s) (IndexByte (String a s) "/") <> "").
    { unfold slice_to.
      destruct (Z.to_nat (IndexByte (String a s) "/")) as [|k] eqn:Hk; [lia|].
      discriminate. }
    split; [exact Hne|].
    unfold comps. rewrite split_slash_at_slash by exact Hi.
    set (c := slice_to _ _) in *. set (r := slice_from _ _).
    cbn [List.filter]. destruct c; [congruence|]. reflexivity.
Qed.

Section WalkComps.

Variable h : store.

Lemma injectedFault_nameRem (f : findHelper) (s : string) :
  findHelper_injectedFault h (set_nameRem f s) = findHelper_injectedFault h f.
Proof. reflexivity. Qed.

Lemma getChildN_nameRem (f : findHelper) (s c : string) :
  findHelper_getChildN h (set_nameRem f s) c = findHelper_getChildN h f c.
Proof. reflexivity. Qed.

Lemma getNameComp_first (f : findHelper) :
  findHelper_getNameComp f (IndexByte (f_nameRem f) "/") = first_comp (f_nameRem f).
Proof. reflexivity. Qed.

Lemma updateNameRem_after (f : findHelper) :
  findHelper_updateNameRemFromSlashPos f (IndexByte (f_nameRem f) "/")
  = set_nameRem f (after_first (f_nameRem f)).
Proof.
  unfold findHelper_updateNameRemFromSlashPos, after_first.
  destruct (_ <? 0); reflexivity.
Qed.

(** What is left of the path after the component only ever follows what
    [updateFromChildN] puts in front of it. *)
Lemma updateFromChildN_rest (f : findHelper) (r2 : string) (c : ptr) :
  match findHelper_updateFromChildN h f c with
  | Ret (g, Some e) =>
      findHelper_updateFromChildN h (set_nameRem f r2) c
      = Ret (set_nameRem g r2, Some e)
  | Ret (g, None) =>
      (f_nameRem g = f_nameRem f /\
       findHelper_updateFromChildN h (set_nameRem f r2) c
       = Ret (set_nameRem g r2, None)) \/
      (exists t, f_nameRem g = (t ++ "/" ++ f_nameRem f)%string /\
                 findHelper_updateFromChildN h (set_nameRem f r2) c
                 = Ret (set_nameRem g (t ++ "/" ++ r2), None))
  | Panicked v => findHelper_updateFromChildN h (set_nameRem f r2) c = Panicked v
  | OutOfFuel => True
  end.
Proof.
  unfold findHelper_updateFromChildN.
  destruct (deref h c) as [nd| |]; simpl; auto.
  destruct (negb _); [|left; split; reflexivity].
  change (f_resolveSymlinks (set_nameRem f r2)) with (f_resolveSymlinks f).
  destruct (f_resolveSymlinks f); [|left; split; reflexivity].
  cbn [set_links set_nameRem f_links f_nameRem f_fs f_n f_resolveSymlinks
       f_ignoreInjectedFaults].
  destruct (f_links f + 1 >? 255); [reflexivity|].
  destruct (node_extra nd) as [[|b t]|dir]; simpl; auto.
  - right. exists (slice_from (string_of_list_byte []) 0). split; reflexivity.
  - destruct (Byte.eqb b Byte.x2f); right;
      eexists; split; reflexivity.
Qed.

Lemma body_after_first (f : findHelper) (s2 : string) :
  first_comp s2 = first_comp (f_nameRem f) ->
  match findHelper_run_body h f with
  | Ret (g, Some e) =>
      exists s', findHelper_run_body h (set_nameRem f s2)
                 = Ret (set_nameRem g s', Some e)
  | Ret (g, None) =>
      (f_nameRem g = after_first (f_nameRem f) /\
       findHelper_run_body h (set_nameRem f s2)
       = Ret (set_nameRem g (after_first s2), None)) \/
      (exists t, f_nameRem g = (t ++ "/" ++ after_first (f_nameRem f))%string /\
                 findHelper_run_body h (set_nameRem f s2)
                 = Ret (set_nameRem g (t ++ "/" ++ after_first s2), None))
  | Panicked v => findHelper_run_body h (set_nameRem f s2) = Panicked v
  | OutOfFuel => True
  end.
Proof.
  intros Hc. unfold findHelper_run_body.
  rewrite injectedFault_nameRem.
  destruct (findHelper_injectedFault h f) as [[e|]| |]; simpl; auto.
  { exists s2. reflexivity. }
  rewrite !getNameComp_first, !updateNameRem_after.
  cbn [set_nameRem f_nameRem f_fs f_n f_links f_resolveSymlinks
       f_ignoreInjectedFaults].
  rewrite Hc, getChildN_nameRem.
  destruct (findHelper_getChildN h f _) as [[childN [e|]]| |]; simpl; auto.
  { exists s2. reflexivity. }
  destruct childN as [c|]; [|left; split; reflexivity].
  pose proof (updateFromChildN_rest (set_nameRem f (after_first (f_nameRem f)))
                (after_first s2) c) as H.
  cbn [set_nameRem f_nameRem f_fs f_n f_links f_resolveSymlinks
       f_ignoreInjectedFaults] in H.
  destruct (findHelper_updateFromChildN h _ c) as [[g [e|]]| |] eqn:Hu in H |- *;
    auto.
  exists (after_first s2). exact H.
Qed.

Lemma run_fault_some (f : findHelper) (e : error) :
  findHelper_injectedFault h f = Ret (Some e) ->
  findHelper_run h f = Ret (f, Some e).
Proof.
  intros Hf. rewrite run_unfold.
  unfold findHelper_run_exit, findHelper_run_body. rewrite Hf. simpl.
  destruct (str_is_empty (f_nameRem f)); reflexivity.
Qed.

Lemma run_fault_panic (f : findHelper) (v : panic_value) :
  findHelper_injectedFault h f = Panicked v ->
  findHelper_run h f = Panicked v.
Proof.
  intros Hf. rewrite run_unfold.
  unfold findHelper_run_exit, findHelper_run_body. rewrite Hf. simpl.
  destruct (str_is_empty (f_nameRem f)); reflexivity.
Qed.

(** An empty component is stepped over. *)
Lemma run_skip_slash (f : findHelper) (rest : string) :
  f_nameRem f = String "/" rest ->
  run_result (findHelper_run h f)
  = run_result (findHelper_run h (set_nameRem f rest)).
Proof.
  intros Hn.
  destruct (findHelper_injectedFault h f) as [[e|]| |] eqn:Hf.
  - rewrite (run_fault_some f e Hf).
    rewrite (run_fault_some (set_nameRem f rest) e) by exact Hf. reflexivity.
  - rewrite (run_unfold h f), Hn. simpl str_is_empty. cbv iota.
    rewrite (body_empty_comp h f rest Hn Hf). reflexivity.
  - rewrite (run_fault_panic f v Hf).
    rewrite (run_fault_panic (set_nameRem f rest) v) by exact Hf. reflexivity.
  - exfalso. exact (injectedFault_fueled h f Hf).
Qed.

Lemma set_nameRem_same (f : findHelper) : set_nameRem f (f_nameRem f) = f.
Proof. destruct f; reflexivity. Qed.

Lemma run_fuel_tail (f : findHelper) (a : ascii) (s : string) :
  (run_fuel h (set_nameRem f s) < run_fuel h (set_nameRem f (String a s)))%nat.
Proof.
  unfold run_fuel. cbn [set_nameRem f_links f_nameRem String.length].
  set (K := (Z.to_nat _ * _)%nat). clearbody K. lia.
Qed.

Lemma run_fuel_pos (f : findHelper) : (0 < run_fuel h f)%nat.
Proof. unfold run_fuel. set (K := (Z.to_nat _ * _)%nat). clearbody K. lia. Qed.

Lemma run_comps_aux (n : nat) :
  forall (f : findHelper) (s2 : string),
    (run_fuel h f + run_fuel h (set_nameRem f s2) <= n)%nat ->
    comps s2 = comps (f_nameRem f) ->
    run_result (findHelper_run h (set_nameRem f s2))
    = run_result (findHelper_run h f).
Proof.
  induction n as [|n IH]; intros f s2 Hn Hc.
  { pose proof (run_fuel_pos f). lia. }
  destruct (f_nameRem f) as [|a s] eqn:Hs.
  - destruct s2 as [|b s2].
    + rewrite <- Hs, set_nameRem_same. reflexivity.
    + destruct (Ascii.eqb b "/") eqn:Hb.
      * apply Ascii.eqb_eq in Hb. subst b.
        rewrite (run_skip_slash (set_nameRem f (String "/" s2)) s2 eq_refl).
        change (set_nameRem (set_nameRem f (String "/" s2)) s2)
          with (set_nameRem f s2).
        apply IH; [|rewrite Hs; exact Hc].
        pose proof (run_fuel_tail f "/" s2). lia.
      * destruct (comps_first b s2 Hb) as [_ H1]. rewrite H1 in Hc. discriminate.
  - destruct (Ascii.eqb a "/") eqn:Ha.
    + apply Ascii.eqb_eq in Ha. subst a.
      rewrite (run_skip_slash f s Hs).
      change (set_nameRem f s2) with (set_nameRem (set_nameRem f s) s2).
      apply IH; [|exact Hc].
      pose proof (run_fuel_tail f "/" s) as H1.
      rewrite <- Hs, set_nameRem_same in H1.
      change (set_nameRem (set_nameRem f s) s2) with (set_nameRem f s2). lia.
    + destruct (comps_first a s Ha) as [_ H1]. rewrite H1 in Hc.
      destruct s2 as [|b s2]; [discriminate|].
      destruct (Ascii.eqb b "/") eqn:Hb.
      * apply Ascii.eqb_eq in Hb. subst b.
        rewrite (run_skip_slash (set_nameRem f (String "/" s2)) s2 eq_refl).
        change (set_nameRem (set_nameRem f (String "/" s2)) s2)
          with (set_nameRem f s2).
        apply IH; [|rewrite Hs, H1; exact Hc].
        pose proof (run_fuel_tail f "/" s2). lia.
      * destruct (comps_first b s2 Hb) as [_ H2]. rewrite H2 in Hc.
        injection Hc as Hfirst Hrest.
        rewrite <- Hs in Hfirst, Hrest.
        pose proof (body_after_first f (String b s2) Hfirst) as HB.
        assert (Hne : f_nameRem f <> "") by (rewrite Hs; discriminate).
        rewrite (run_unfold h f), (run_unfold h (set_nameRem f (String b s2))).
        rewrite Hs. cbn [set_nameRem f_nameRem str_is_empty].
        destruct (findHelper_run_body h f) as [[g [e|]]| |] eqn:Hbody.
        -- destruct HB as [s' HB]. rewrite HB. reflexivity.
        -- pose proof (run_fuel_decreases h f g Hne Hbody) as Hd1.
           destruct HB as [[Hg HB]|[t [Hg HB]]]; rewrite HB;
             pose proof (run_fuel_decreases h (set_nameRem f (String b s2)) _
                           ltac:(cbn; discriminate) HB) as Hd2;
             cbn [go_bind]; apply IH; try lia; rewrite Hg.
           ++ exact Hrest.
           ++ rewrite !comps_app. now rewrite Hrest.
        -- rewrite HB. reflexivity.
        -- exfalso. exact (run_body_fueled h f Hbody).
Qed.

(** The outcome of [run] depends on the path left to resolve only through
    its non-empty components. *)
Lemma run_comps (f : findHelper) (s2 : string) :
  comps s2 = comps (f_nameRem f) ->
  run_result (findHelper_run h (set_nameRem f s2))
  = run_result (findHelper_run h f).
Proof. intros Hc. eapply run_comps_aux; [reflexivity|exact Hc]. Qed.

(** *** Resolving a path and then what follows it *)

Lemma run_exit_ok (f g : findHelper) :
  findHelper_run_exit h f = Ret (g, None) ->
  g = f /\ findHelper_injectedFault h f = Ret None.
Proof.
  unfold findHelper_run_exit.
  destruct (findHelper_injectedFault h f) as [[e|]| |]; simpl; try discriminate.
  intros H. injection H as <-. auto.
Qed.

Lemma run_step_ok (f g : findHelper) :
  str_is_empty (f_nameRem f) = false ->
  findHelper_run h f = Ret (g, None) ->
  exists f1, findHelper_run_body h f = Ret (f1, None) /\
             findHelper_run h f1 = Ret (g, None).
Proof.
  intros He. rewrite run_unfold, He.
  destruct (findHelper_run_body h f) as [[f1 [e|]]| |]; simpl; try discriminate.
  intros H. eauto.
Qed.

Lemma body_ok_fault (f f1 : findHelper) :
  findHelper_run_body h f = Ret (f1, None) ->
  findHelper_injectedFault h f = Ret None.
Proof.
  unfold findHelper_run_body.
  destruct (findHelper_injectedFault h f) as [[e0|]| |]; simpl; try discriminate.
  reflexivity.
Qed.

(** A walk that succeeds has used up the path and stands on a node without
    injected error (or ignores injected errors). *)
Lemma run_ok_end (n : nat) :
  forall f g : findHelper,
    (run_fuel h f <= n)%nat ->
    findHelper_run h f = Ret (g, None) ->
    f_nameRem g = "" /\ findHelper_injectedFault h g = Ret None /\
    same_policy f g.
Proof.
  induction n as [|n IH]; intros f g Hn Hr.
  { pose proof (run_fuel_pos f). lia. }
  destruct (str_is_empty (f_nameRem f)) eqn:He.
  - rewrite run_unfold, He in Hr. apply run_exit_ok in Hr as [-> Hf].
    apply str_is_empty_true in He. repeat split; auto.
  - destruct (run_step_ok f g He Hr) as (f1 & Hb & Hr1).
    pose proof (run_fuel_decreases h f f1 (nonempty_of_is_empty _ He) Hb).
    destruct (IH f1 g ltac:(lia) Hr1) as (H1 & H2 & H3).
    split; [exact H1|]. split; [exact H2|].
    pose proof (body_frame h f f1 None Hb) as H4.
    unfold same_policy in *. destruct H3 as (-> & -> & ->). exact H4.
Qed.

Lemma run_compose_aux (q : string) (n : nat) :
  forall (f g : findHelper) (s2 : string),
    (run_fuel h f + run_fuel h (set_nameRem f s2) <= n)%nat ->
    comps s2 = (comps (f_nameRem f) ++ comps q)%list ->
    findHelper_run h f = Ret (g, None) ->
    run_result (findHelper_run h (set_nameRem f s2))
    = run_result (findHelper_run h (set_nameRem g q)).
Proof.
  induction n as [|n IH]; intros f g s2 Hn Hc Hr.
  { pose proof (run_fuel_pos f). lia. }
  assert (Hskip : forall t, s2 = String "/" t ->
            run_result (findHelper_run h (set_nameRem f s2))
            = run_result (findHelper_run h (set_nameRem g q))).
  { intros t ->.
    rewrite (run_skip_slash (set_nameRem f (String "/" t)) t eq_refl).
    change (set_nameRem (set_nameRem f (String "/" t)) t) with (set_nameRem f t).
    apply IH; [|exact Hc|exact Hr].
    pose proof (run_fuel_tail f "/" t). lia. }
  destruct (f_nameRem f) as [|a s] eqn:Hs.
  - rewrite run_unfold, Hs in Hr. apply run_exit_ok in Hr as [-> _].
    change (set_nameRem f s2) with (set_nameRem (set_nameRem f q) s2).
    apply run_comps. exact Hc.
  - assert (He : str_is_empty (f_nameRem f) = false) by now rewrite Hs.
    destruct (run_step_ok f g He Hr) as (f1 & Hb & Hr1).
    pose proof (run_fuel_decreases h f f1 (nonempty_of_is_empty _ He) Hb) as Hd1.
    destruct (Ascii.eqb a "/") eqn:Ha.
    + apply Ascii.eqb_eq in Ha. subst a.
      rewrite (body_empty_comp h f s Hs (body_ok_fault f f1 Hb)) in Hb.
      injection Hb as <-.
      change (set_nameRem f s2) with (set_nameRem (set_nameRem f s) s2).
      apply IH; [|exact Hc|exact Hr1].
      change (set_nameRem (set_nameRem f s) s2) with (set_nameRem f s2). lia.
    + destruct (comps_first a s Ha) as [_ H1]. rewrite H1 in Hc.
      destruct s2 as [|b s2]; [discriminate|].
      destruct (Ascii.eqb b "/") eqn:Hb2.
      { apply Ascii.eqb_eq in Hb2. subst b. apply (Hskip s2 eq_refl). }
      destruct (comps_first b s2 Hb2) as [_ H2]. rewrite H2 in Hc.
      injection Hc as Hfirst Hrest.
      rewrite <- Hs in Hfirst, Hrest.
      pose proof (body_after_first f (String b s2) Hfirst) as HB.
      rewrite Hb in HB.
      rewrite (run_unfold h (set_nameRem f (String b s2))).
      cbn [set_nameRem f_nameRem str_is_empty].
      destruct HB as [[Hg HB]|[t [Hg HB]]]; rewrite HB;
        pose proof (run_fuel_decreases h (set_nameRem f (String b s2)) _
                      ltac:(cbn; discriminate) HB) as Hd2;
        cbn [go_bind]; apply IH; try lia; try exact Hr1; rewrite Hg.
      * exact Hrest.
      * rewrite !comps_app, Hrest. now rewrite <- app_assoc.
Qed.

(** If the walk of a path succeeds, the walk of that path followed by [q]
    is the walk of [q] from where the first walk ended. *)
Lemma run_compose (f g : findHelper) (q : string) :
  findHelper_run h f = Ret (g, None) ->
  run_result (findHelper_run h (set_nameRem f (f_nameRem f ++ "/" ++ q)))
  = run_result (findHelper_run h (set_nameRem g q)).
Proof.
  intros Hr. eapply run_compose_aux; [reflexivity|apply comps_app|exact Hr].
Qed.

Lemma run_compose_comps (f g : findHelper) (s2 q : string) :
  comps s2 = (comps (f_nameRem f) ++ comps q)%list ->
  findHelper_run h f = Ret (g, None) ->
  run_result (findHelper_run h (set_nameRem f s2))
  = run_result (findHelper_run h (set_nameRem g q)).
Proof. intros Hc Hr. eapply run_compose_aux; [reflexivity|exact Hc|exact Hr]. Qed.

End WalkComps.

(** ** [Stat] and [Open] through the components of a name *)

Lemma abs_comps (fs : VirtualFileSystem) (name : string) :
  cwd fs = "/" ->
  exists nameRem,
    slice_from_checked (VirtualFileSystem_abs fs name) 1 = Ret nameRem /\
    comps nameRem = comps name.
Proof.
  intros Hcwd. unfold VirtualFileSystem_abs. rewrite Hcwd.
  destruct name as [|c t].
  - exists "". split; reflexivity.
  - destruct (Ascii.eqb c "/") eqn:Hc.
    + apply Ascii.eqb_eq in Hc. subst c. exists t.
      split; [apply slice_from_checked_1|reflexivity].
    + exists (String c t). split; [apply slice_from_checked_1|reflexivity].
Qed.

Lemma Stat_run (h : store) (fs : VirtualFileSystem) (name x : string) :
  slice_from_checked (VirtualFileSystem_abs fs name) 1 = Ret x ->
  VirtualFileSystem_Stat h fs name
  = Stat_of (run_result (findHelper_run h (find_start fs x false true))).
Proof.
  intros Hx. unfold VirtualFileSystem_Stat, VirtualFileSystem_find.
  rewrite Hx. cbn [go_bind].
  destruct (findHelper_run h _) as [[g e]| |]; reflexivity.
Qed.

Lemma Open_run (h : store) (fs : VirtualFileSystem) (name x : string) :
  slice_from_checked (VirtualFileSystem_abs fs name) 1 = Ret x ->
  VirtualFileSystem_Open h fs name
  = Open_of (run_result (findHelper_run h (find_start fs x false true))).
Proof.
  intros Hx. unfold VirtualFileSystem_Open, VirtualFileSystem_find.
  rewrite Hx. cbn [go_bind].
  destruct (findHelper_run h _) as [[g e]| |]; reflexivity.
Qed.

Lemma find_start_nameRem (fs : VirtualFileSystem) (x y : string) (ign res : bool) :
  set_nameRem (find_start fs x ign res) y = find_start fs y ign res.
Proof. reflexivity. Qed.

Lemma find_comps (h : store) (fs : VirtualFileSystem) (x y : string)
    (ign res : bool) :
  comps y = comps x ->
  run_result (findHelper_run h (find_start fs y ign res))
  = run_result (findHelper_run h (find_start fs x ign res)).
Proof.
  intros Hc. rewrite <- (find_start_nameRem fs x y). apply run_comps. exact Hc.
Qed.

(** X1.  The outcome of [Stat] and of [Open] depends on the name only
    through the sequence of its non-empty components: two names with the
    same sequence (a leading separator more or less, separators repeated or
    at the end) give the same node, the same error or the same panic, on any
    store. *)
Theorem Stat_Open_same_components (h : store) (fs : VirtualFileSystem)
    (name name' : string) :
  cwd fs = "/" ->
  comps name' = comps name ->
  VirtualFileSystem_Stat h fs name' = VirtualFileSystem_Stat h fs name /\
  VirtualFileSystem_Open h fs name' = VirtualFileSystem_Open h fs name.
Proof.
  intros Hcwd Hc.
  destruct (abs_comps fs name Hcwd) as (x & Hx & Hcx).
  destruct (abs_comps fs name' Hcwd) as (y & Hy & Hcy).
  rewrite (Stat_run h fs name x Hx), (Stat_run h fs name' y Hy).
  rewrite (Open_run h fs name x Hx), (Open_run h fs name' y Hy).
  rewrite (find_comps h fs x y false true) by congruence.
  split; reflexivity.
Qed.

Lemma Stat_Open_same_components_witness :
  cwd fs0 = "/" /\
  comps "a//b/" = comps "/a/b" /\
  VirtualFileSystem_Stat (file_a_b [] 0 None) fs0 "a//b/"
  = VirtualFileSystem_Stat (file_a_b [] 0 None) fs0 "/a/b" /\
  VirtualFileSystem_Open (file_a_b [] 0 None) fs0 "a//b/"
  = VirtualFileSystem_Open (file_a_b [] 0 None) fs0 "/a/b".
Proof.
  split; [reflexivity|]. split; [reflexivity|].
  apply (Stat_Open_same_components (file_a_b [] 0 None) fs0 "/a/b" "a//b/");
    reflexivity.
Defined.

(** X2.  [trimTrailingSlashes] never changes what a name resolves to:
    [Stat] and [Open] give the same outcome for a name and for the name with
    its trailing separators removed. *)
Theorem Stat_Open_trimTrailingSlashes (h : store) (fs : VirtualFileSystem)
    (name : string) :
  cwd fs = "/" ->
  VirtualFileSystem_Stat h fs (trimTrailingSlashes name)
  = VirtualFileSystem_Stat h fs name /\
  VirtualFileSystem_Open h fs (trimTrailingSlashes name)
  = VirtualFileSystem_Open h fs name.
Proof.
  intros Hcwd.
  destruct (trailing_slashes_split name) as (r & k & -> & Hr).
  rewrite (trimTrailingSlashes_app_slashes r k Hr).
  destruct (abs_comps fs r Hcwd) as (x & Hx & Hcx).
  destruct (abs_comps fs (r ++ slashes k) Hcwd) as (y & Hy & Hcy).
  rewrite (Stat_run h fs r x Hx), (Stat_run h fs _ y Hy).
  rewrite (Open_run h fs r x Hx), (Open_run h fs _ y Hy).
  rewrite (find_comps h fs x y false true)
    by (rewrite Hcy, Hcx; apply comps_app_slashes).
  split; reflexivity.
Qed.

Lemma Stat_Open_trimTrailingSlashes_witness :
  cwd fs0 = "/" /\
  VirtualFileSystem_Stat (file_a_b [] 0 None) fs0 (trimTrailingSlashes "/a/b//")
  = VirtualFileSystem_Stat (file_a_b [] 0 None) fs0 "/a/b//" /\
  VirtualFileSystem_Open (file_a_b [] 0 None) fs0 (trimTrailingSlashes "/a/b//")
  = VirtualFileSystem_Open (file_a_b [] 0 None) fs0 "/a/b//".
Proof.
  split; [reflexivity|].
  apply (Stat_Open_trimTrailingSlashes (file_a_b [] 0 None) fs0 "/a/b//").
  reflexivity.
Defined.

(** ** What [trimTrailingSlashes] returns *)

(** X3.  [trimTrailingSlashes] splits a name into the result and the
    separators it removed: the name is the result followed by separators
    only, and the result does not end in a separator.  Applying the function
    to its own result changes nothing. *)
Theorem trimTrailingSlashes_splits (name : string) :
  (trimTrailingSlashes name
   ++ slashes (String.length name - String.length (trimTrailingSlashes name)))%string
  = name /\
  (forall u, trimTrailingSlashes name <> (u ++ "/")%string) /\
  trimTrailingSlashes (trimTrailingSlashes name) = trimTrailingSlashes name.
Proof.
  destruct (trailing_slashes_split name) as (r & k & -> & Hr).
  rewrite (trimTrailingSlashes_app_slashes r k Hr).
  rewrite length_str_app, length_slashes.
  replace (String.length r + k - String.length r)%nat with k by lia.
  split; [reflexivity|]. split; [exact Hr|].
  pose proof (trimTrailingSlashes_app_slashes r O Hr) as H.
  simpl slashes in H. now rewrite str_app_nil_r in H.
Qed.

(** X4.  [trimTrailingSlashes] undoes the appending of separators: a name
    that does not end in a separator is the result for itself and for itself
    followed by any number of separators. *)
Theorem trimTrailingSlashes_undoes_slashes (r : string) (k : nat) :
  (forall u, r <> (u ++ "/")%string) ->
  trimTrailingSlashes (r ++ slashes k) = r /\
  trimTrailingSlashes r = r.
Proof.
  intros Hr.
  pose proof (trimTrailingSlashes_app_slashes r k Hr) as H1.
  pose proof (trimTrailingSlashes_app_slashes r O Hr) as H2.
  simpl slashes in H2. rewrite str_app_nil_r in H2.
  rewrite H1, H2. auto.
Qed.

Lemma trimTrailingSlashes_undoes_slashes_witness :
  (forall u, "/a/b" <> (u ++ "/")%string) /\
  trimTrailingSlashes ("/a/b" ++ slashes 3) = "/a/b" /\
  trimTrailingSlashes "/a/b" = "/a/b".
Proof.
  assert (H : forall u, "/a/b" <> (u ++ "/")%string).
  { intros [|a [|b [|c [|d [|e u]]]]] E; simpl in E; discriminate. }
  split; [exact H|].
  apply (trimTrailingSlashes_undoes_slashes "/a/b" 3 H).
Defined.

(** ** One more component below a name that resolves *)

Section WalkHead.

Variable h : store.

(** The walk steps over the separators in front of the first component. *)
Lemma run_skip_slashes (s : string) :
  forall (f : findHelper) (c : string) (cs : list string),
    f_nameRem f = s ->
    comps s = c :: cs ->
    exists (a : ascii) (t : string),
      Ascii.eqb a "/" = false /\
      first_comp (String a t) = c /\
      comps (after_first (String a t)) = cs /\
      run_result (findHelper_run h f)
      = run_result (findHelper_run h (set_nameRem f (String a t))).
Proof.
  induction s as [|a s IH]; intros f c cs Hs Hc; [discriminate|].
  destruct (Ascii.eqb a "/") eqn:Ha.
  - apply Ascii.eqb_eq in Ha. subst a.
    destruct (IH (set_nameRem f s) c cs eq_refl Hc) as (a & t & H1 & H2 & H3 & H4).
    exists a, t. repeat split; auto.
    rewrite (run_skip_slash h f s Hs). exact H4.
  - exists a, s. destruct (comps_first a s Ha) as [_ H1].
    rewrite H1 in Hc. injection Hc as H2 H3.
    repeat split; auto. rewrite <- Hs, set_nameRem_same. reflexivity.
Qed.

(** One iteration on a component that passes [validateNameComp], at a node
    that is allocated and whose injected error does not stop the walk. *)
Lemma body_head (f : findHelper) (nd : node) :
  findHelper_injectedFault h f = Ret None ->
  h !! f_n f = Some nd ->
  str_is_empty (first_comp (f_nameRem f)) = false ->
  is_dot_comp (first_comp (f_nameRem f)) = false ->
  findHelper_run_body h f =
  if Z.land (node_mode nd) ModeDir =? 0 then Ret (f, Some ENOTDIR)
  else go_bind (dirLookup h nd (first_comp (f_nameRem f))) (fun childN =>
         match childN with
         | None => Ret (f, Some ErrNotExist)
         | Some k =>
             findHelper_updateFromChildN h
               (set_nameRem f (after_first (f_nameRem f))) k
         end).
Proof.
  intros Hf Hn Hne Hdot. unfold findHelper_run_body.
  rewrite Hf. cbn [go_bind]. rewrite getNameComp_first, updateNameRem_after.
  unfold findHelper_getChildN, validateNameComp, deref.
  rewrite Hne, Hdot, Hn. cbn [go_bind].
  destruct (Z.land (node_mode nd) ModeDir =? 0); [reflexivity|].
  destruct (dirLookup h nd _) as [[k|]| |]; reflexivity.
Qed.

End WalkHead.

Section StatBelow.

Variables (h : store) (fs : VirtualFileSystem).
Variables (p q c : string) (cs : list string) (n : ptr).

Hypothesis Hcwd : cwd fs = "/".
Hypothesis Hstat : VirtualFileSystem_Stat h fs p = Ret (Some n, None).
Hypothesis Hq : comps q = c :: cs.

(** The walk of [p/q] comes to stand on the node of [p], in front of the
    first component of [q]. *)
Lemma Stat_below_head :
  exists (g : findHelper) (a : ascii) (t : string),
    f_n g = n /\ f_ignoreInjectedFaults g = false /\
    f_resolveSymlinks g = true /\
    str_is_empty c = false /\
    first_comp (String a t) = c /\
    comps (after_first (String a t)) = cs /\
    f_nameRem g = String a t /\
    findHelper_injectedFault h g = Ret None /\
    VirtualFileSystem_Stat h fs (p ++ "/" ++ q)
    = Stat_of (run_result (findHelper_run h g)) /\
    VirtualFileSystem_Open h fs (p ++ "/" ++ q)
    = Open_of (run_result (findHelper_run h g)).
Proof using Hcwd Hstat Hq.
  destruct (abs_comps fs p Hcwd) as (x & Hx & Hcx).
  destruct (abs_comps fs (p ++ "/" ++ q) Hcwd) as (y & Hy & Hcy).
  rewrite (Stat_run h fs p x Hx) in Hstat.
  rewrite (Stat_run h fs _ y Hy), (Open_run h fs _ y Hy).
  destruct (findHelper_run h (find_start fs x false true)) as [[g0 [e|]]| |] eqn:Hr;
    try discriminate.
  injection Hstat as Hg0.
  destruct (run_ok_end h _ _ g0 (Nat.le_refl _) Hr) as (Hend & Hfault & Hpol).
  rewrite comps_app, <- Hcx in Hcy.
  rewrite <- (find_start_nameRem fs x y).
  rewrite (run_compose_comps h (find_start fs x false true) g0 y q Hcy Hr).
  destruct (run_skip_slashes h q (set_nameRem g0 q) c cs eq_refl Hq)
    as (a & t & H1 & H2 & H3 & H4).
  rewrite H4.
  exists (set_nameRem g0 (String a t)), a, t.
  destruct Hpol as (_ & Hign & Hres).
  destruct (comps_first a t H1) as [Hne _]. rewrite H2 in Hne.
  repeat split; auto.
  destruct c; [congruence|reflexivity].
Qed.

End StatBelow.

(** X5.  A name below a node that is not a directory does not resolve: if
    [p] resolves to a node without the directory bit, then for every [q]
    with a first non-empty component that is neither [.] nor [..], [Stat]
    and [Open] of [p/q] fail with [ENOTDIR]. *)
Theorem Stat_below_non_directory (h : store) (fs : VirtualFileSystem)
    (p q c : string) (cs : list string) (n : ptr) (nd : node) :
  cwd fs = "/" ->
  VirtualFileSystem_Stat h fs p = Ret (Some n, None) ->
  h !! n = Some nd ->
  Z.land (node_mode nd) ModeDir = 0 ->
  comps q = c :: cs ->
  is_dot_comp c = false ->
  VirtualFileSystem_Stat h fs (p ++ "/" ++ q) = Ret (None, Some ENOTDIR) /\
  VirtualFileSystem_Open h fs (p ++ "/" ++ q) = Ret (None, Some ENOTDIR).
Proof.
  intros Hcwd Hstat Hn Hmode Hq Hdot.
  destruct (Stat_below_head h fs p q c cs n Hcwd Hstat Hq)
    as (g & a & t & Hgn & _ & _ & Hne & Hc & _ & Hs & Hf & -> & ->).
  rewrite run_unfold, Hs. cbn [str_is_empty].
  rewrite (body_head h g nd Hf); rewrite ?Hs, ?Hc, ?Hgn; auto.
  apply Z.eqb_eq in Hmode. rewrite Hmode. split; reflexivity.
Qed.

Lemma Stat_below_non_directory_witness :
  let h := file_a_b (bytes "data") 0 None in
  cwd fs0 = "/" /\
  VirtualFileSystem_Stat h fs0 "/a/b" = Ret (Some 2%nat, None) /\
  VirtualFileSystem_Stat h fs0 ("/a/b" ++ "/" ++ "c/d") = Ret (None, Some ENOTDIR) /\
  VirtualFileSystem_Open h fs0 ("/a/b" ++ "/" ++ "c/d") = Ret (None, Some ENOTDIR).
Proof.
  intros h. split; [reflexivity|]. split; [reflexivity|].
  apply (Stat_below_non_directory h fs0 "/a/b" "c/d" "c" ["d"] 2%nat
           {| node_err := None; node_extra := ExtraBytes (bytes "data");
              node_mode := 0; node_name := "b" |}); reflexivity.
Defined.

(** X6.  A name that a directory does not hold does not resolve: if [p]
    resolves to a directory none of whose children is named [c], a
    component other than [.] and [..], then [Stat] and [Open] of [p/q] fail
    with [os.ErrNotExist] for every [q] whose first non-empty component is
    [c]. *)
Theorem Stat_missing_child (h : store) (fs : VirtualFileSystem)
    (p q c : string) (cs : list string) (n : ptr) (nd : node) (dir : list ptr) :
  cwd fs = "/" ->
  VirtualFileSystem_Stat h fs p = Ret (Some n, None) ->
  h !! n = Some nd ->
  Z.land (node_mode nd) ModeDir <> 0 ->
  node_extra nd = ExtraDir dir ->
  dirLookup_children h dir c = Ret None ->
  comps q = c :: cs ->
  is_dot_comp c = false ->
  VirtualFileSystem_Stat h fs (p ++ "/" ++ q) = Ret (None, Some ErrNotExist) /\
  VirtualFileSystem_Open h fs (p ++ "/" ++ q) = Ret (None, Some ErrNotExist).
Proof.
  intros Hcwd Hstat Hn Hmode Hx Hl Hq Hdot.
  destruct (Stat_below_head h fs p q c cs n Hcwd Hstat Hq)
    as (g & a & t & Hgn & _ & _ & Hne & Hc & _ & Hs & Hf & -> & ->).
  rewrite run_unfold, Hs. cbn [str_is_empty].
  rewrite (body_head h g nd Hf); rewrite ?Hs, ?Hc, ?Hgn; auto.
  apply Z.eqb_neq in Hmode. rewrite Hmode.
  unfold dirLookup. rewrite Hx. cbn [assert_dir go_bind]. rewrite Hl.
  split; reflexivity.
Qed.

Lemma Stat_missing_child_witness :
  let h := file_a_b (bytes "data") 0 None in
  cwd fs0 = "/" /\
  VirtualFileSystem_Stat h fs0 "/a" = Ret (Some 1%nat, None) /\
  VirtualFileSystem_Stat h fs0 ("/a" ++ "/" ++ "x/y") = Ret (None, Some ErrNotExist) /\
  VirtualFileSystem_Open h fs0 ("/a" ++ "/" ++ "x/y") = Ret (None, Some ErrNotExist).
Proof.
  intros h. split; [reflexivity|]. split; [reflexivity|].
  apply (Stat_missing_child h fs0 "/a" "x/y" "x" ["y"] 1%nat
           {| node_err := None; node_extra := ExtraDir [2%nat];
              node_mode := ModeDir; node_name := "a" |} [2%nat]);
    try reflexivity.
  discriminate.
Defined.

(** X7.  The last step of a lookup: if [p] resolves to a directory whose
    first child named [c] is not a symlink, then [Stat] and [Open] of [p/c]
    (and of any name with the same components) give that child, or, when it
    carries an injected error, that error. *)
Theorem Stat_child (h : store) (fs : VirtualFileSystem)
    (p q c : string) (n k : ptr) (nd child : node) (dir : list ptr) :
  cwd fs = "/" ->
  VirtualFileSystem_Stat h fs p = Ret (Some n, None) ->
  h !! n = Some nd ->
  Z.land (node_mode nd) ModeDir <> 0 ->
  node_extra nd = ExtraDir dir ->
  dirLookup_children h dir c = Ret (Some k) ->
  h !! k = Some child ->
  Z.land (node_mode child) ModeSymlink = 0 ->
  comps q = [c] ->
  is_dot_comp c = false ->
  VirtualFileSystem_Stat h fs (p ++ "/" ++ q)
  = Ret (match node_err child with
         | Some e => (None, Some e)
         | None => (Some k, None)
         end) /\
  VirtualFileSystem_Open h fs (p ++ "/" ++ q)
  = Ret (match node_err child with
         | Some e => (None, Some e)
         | None => (Some {| fd_node := k; fd_readPos := 0 |}, None)
         end).
Proof.
  intros Hcwd Hstat Hn Hmode Hx Hl Hk Hsym Hq Hdot.
  destruct (Stat_below_head h fs p q c [] n Hcwd Hstat Hq)
    as (g & a & t & Hgn & Hign & _ & Hne & Hc & Hrest & Hs & Hf & -> & ->).
  rewrite run_unfold, Hs. cbn [str_is_empty].
  rewrite (body_head h g nd Hf); rewrite ?Hs, ?Hc, ?Hgn; auto.
  apply Z.eqb_neq in Hmode. rewrite Hmode.
  unfold dirLookup. rewrite Hx. cbn [assert_dir go_bind]. rewrite Hl.
  cbn [go_bind].
  unfold findHelper_updateFromChildN, deref. rewrite Hk. cbn [go_bind].
  apply Z.eqb_eq in Hsym. rewrite Hsym. cbn [negb go_bind].
  set (g1 := set_n (set_nameRem g (after_first (String a t))) k).
  pose proof (run_comps h (set_nameRem g1 "") (after_first (String a t))) as H.
  rewrite Hrest in H. specialize (H eq_refl).
  change (set_nameRem (set_nameRem g1 "") (after_first (String a t))) with g1 in H.
  rewrite H, run_unfold. cbn [set_nameRem f_nameRem str_is_empty].
  unfold findHelper_run_exit, findHelper_injectedFault.
  cbn [set_nameRem set_n g1 f_ignoreInjectedFaults f_n].
  rewrite Hign. unfold deref. rewrite Hk. cbn.
  destruct (node_err child); split; reflexivity.
Qed.

Lemma Stat_child_witness :
  let h := file_a_b (bytes "data") 0 None in
  cwd fs0 = "/" /\
  VirtualFileSystem_Stat h fs0 "/a" = Ret (Some 1%nat, None) /\
  VirtualFileSystem_Stat h fs0 ("/a" ++ "/" ++ "b/") = Ret (Some 2%nat, None) /\
  VirtualFileSystem_Open h fs0 ("/a" ++ "/" ++ "b/")
  = Ret (Some {| fd_node := 2%nat; fd_readPos := 0 |}, None).
Proof.
  intros h. split; [reflexivity|]. split; [reflexivity|].
  apply (Stat_child h fs0 "/a" "b/" "b" 1%nat 2%nat
           {| node_err := None; node_extra := ExtraDir [2%nat];
              node_mode := ModeDir; node_name := "a" |}
           {| node_err := None; node_extra := ExtraBytes (bytes "data");
              node_mode := 0; node_name := "b" |} [2%nat]);
    try reflexivity.
  discriminate.
Defined.

(** ** The lookup that [Set] makes *)

Section SetLookup.

Variable h : store.

(** With injected errors ignored and links not followed, an iteration fails
    only in [getChildN], and leaves the helper as it was. *)
Lemma body_lookup (f g : findHelper) (e : error) :
  f_resolveSymlinks f = false ->
  findHelper_run_body h f = Ret (g, Some e) ->
  f_ignoreInjectedFaults f = true ->
  g = f /\
  exists nd, h !! f_n f = Some nd /\
    ((e = ENOTDIR /\ Z.land (node_mode nd) ModeDir = 0) \/
     (e = ErrNotExist /\ Z.land (node_mode nd) ModeDir <> 0 /\
      exists dir, node_extra nd = ExtraDir dir /\
                  dirLookup_children h dir (first_comp (f_nameRem f)) = Ret None)).
Proof.
  intros Hres Hb Hign. unfold findHelper_run_body in Hb.
  unfold findHelper_injectedFault in Hb. rewrite Hign in Hb. cbn [go_bind] in Hb.
  rewrite getNameComp_first, updateNameRem_after in Hb.
  unfold findHelper_getChildN in Hb.
  destruct (str_is_empty (first_comp (f_nameRem f))).
  { cbn [go_bind] in Hb. discriminate. }
  destruct (validateNameComp _); cbn [go_bind] in Hb; try discriminate.
  unfold deref in Hb.
  destruct (h !! f_n f) as [nd|] eqn:Hn; cbn [go_bind] in Hb; try discriminate.
  destruct (Z.land (node_mode nd) ModeDir =? 0) eqn:Hm.
  - cbn [go_bind] in Hb. injection Hb as <- <-. split; [reflexivity|].
    exists nd. split; [reflexivity|]. left. split; [reflexivity|].
    now apply Z.eqb_eq.
  - unfold dirLookup in Hb.
    destruct (node_extra nd) as [b|dir] eqn:Hx; cbn [assert_dir go_bind] in Hb;
      try discriminate.
    destruct (dirLookup_children h dir _) as [[k|]| |] eqn:Hl;
      cbn [go_bind] in Hb; try discriminate.
    + unfold findHelper_updateFromChildN in Hb.
      destruct (deref h k) as [c| |]; cbn [go_bind] in Hb; try discriminate.
      cbn [set_nameRem f_resolveSymlinks] in Hb. rewrite Hres in Hb.
      destruct (negb _); discriminate.
    + injection Hb as <- <-. split; [reflexivity|].
      exists nd. split; [reflexivity|]. right. split; [reflexivity|].
      split; [now apply Z.eqb_neq|]. exists dir. auto.
Qed.

Lemma run_loop_lookup (fuel : nat) :
  forall (f g : findHelper) (e : option error),
    f_ignoreInjectedFaults f = true ->
    f_resolveSymlinks f = false ->
    findHelper_run_loop fuel h f = Ret (g, e) ->
    match e with
    | None => f_nameRem g = ""
    | Some e =>
        f_nameRem g <> "" /\
        exists nd, h !! f_n g = Some nd /\
          ((e = ENOTDIR /\ Z.land (node_mode nd) ModeDir = 0) \/
           (e = ErrNotExist /\ Z.land (node_mode nd) ModeDir <> 0 /\
            exists dir, node_extra nd = ExtraDir dir /\
                        dirLookup_children h dir (first_comp (f_nameRem g))
                        = Ret None))
    end.
Proof.
  induction fuel as [|fuel IH]; intros f g e Hign Hres Hr; [discriminate|].
  simpl in Hr.
  destruct (str_is_empty (f_nameRem f)) eqn:He.
  - unfold findHelper_run_exit, findHelper_injectedFault in Hr.
    rewrite Hign in Hr. cbn [go_bind] in Hr. injection Hr as <- <-.
    now apply str_is_empty_true.
  - destruct (findHelper_run_body h f) as [[f1 [e1|]]| |] eqn:Hb;
      cbn [go_bind] in Hr; try discriminate.
    + injection Hr as <- <-.
      destruct (body_lookup f f1 e1 Hres Hb Hign) as (-> & H).
      split; [now apply nonempty_of_is_empty|exact H].
    + destruct (body_frame h f f1 None Hb) as (_ & H1 & H2).
      apply (IH f1 g e); congruence.
Qed.

End SetLookup.

(** The lookup that [Set] makes ([find] with injected errors ignored
    and links not followed) ends in one of three ways, on any store: with no
    error and the whole path used up; with [ENOTDIR], at a node that is not
    a directory; or with [os.ErrNotExist], at a directory that holds no
    child with the name of the first component of the path that is left.
    In the last two cases the path that is left is not empty. *)
Lemma find_lookup_outcomes (h : store) (fs : VirtualFileSystem)
    (name nameRem : string) (n : ptr) (err : option error) :
  VirtualFileSystem_find h fs name true false = Ret (n, nameRem, err) ->
  match err with
  | None => nameRem = ""
  | Some e =>
      nameRem <> "" /\
      exists nd, h !! n = Some nd /\
        ((e = ENOTDIR /\ Z.land (node_mode nd) ModeDir = 0) \/
         (e = ErrNotExist /\ Z.land (node_mode nd) ModeDir <> 0 /\
          exists dir, node_extra nd = ExtraDir dir /\
                      dirLookup_children h dir (first_comp nameRem) = Ret None))
  end.
Proof.
  unfold VirtualFileSystem_find. intros H.
  destruct (slice_from_checked _ 1) as [x| |]; cbn [go_bind] in H; try discriminate.
  destruct (findHelper_run h _) as [[g e]| |] eqn:Hr; cbn [go_bind] in H;
    try discriminate.
  injection H as <- <- <-.
  apply (run_loop_lookup h _ (find_start fs x true false) g e eq_refl eq_refl Hr).
Qed.

(** X8.  The lookup that [Set] makes ([find] with injected errors ignored
    and links not followed) ends in one of three ways, on any store: with no
    error and the whole path used up; with [ENOTDIR], at a node that is not
    a directory; or with [os.ErrNotExist], at a directory that holds no
    child with the name of the first component of the path that is left.
    In the last two cases the path that is left is not empty. *)
Theorem Set_lookup_outcomes (h : store) (fs : VirtualFileSystem)
    (name nameRem : string) (n : ptr) (err : option error) :
  VirtualFileSystem_find h fs name true false = Ret (n, nameRem, err) ->
  match err with
  | None => nameRem = ""
  | Some e =>
      nameRem <> "" /\
      exists nd, h !! n = Some nd /\
        ((e = ENOTDIR /\ Z.land (node_mode nd) ModeDir = 0) \/
         (e = ErrNotExist /\ Z.land (node_mode nd) ModeDir <> 0 /\
          exists dir, node_extra nd = ExtraDir dir /\
                      dirLookup_children h dir (first_comp nameRem) = Ret None))
  end.
Proof. apply find_lookup_outcomes. Qed.

Lemma Set_lookup_outcomes_witness :
  let h := file_a_b (bytes "data") 0 None in
  VirtualFileSystem_find h fs0 "/a/b/c" true false = Ret (2%nat, "c", Some ENOTDIR) /\
  "c" <> "" /\
  exists nd, h !! 2%nat = Some nd /\
    ((ENOTDIR = ENOTDIR /\ Z.land (node_mode nd) ModeDir = 0) \/
     (ENOTDIR = ErrNotExist /\ Z.land (node_mode nd) ModeDir <> 0 /\
      exists dir, node_extra nd = ExtraDir dir /\
                  dirLookup_children h dir (first_comp "c") = Ret None)).
Proof.
  intros h. split; [reflexivity|].
  apply (Set_lookup_outcomes h fs0 "/a/b/c" "c" 2%nat (Some ENOTDIR)).
  reflexivity.
Defined.

(** ** Well-formed stores *)

Lemma mode_ok_dir_not_symlink (vfile : VirtualFile) :
  Set_mode_ok vfile = true ->
  Z.land (Mode vfile) ModeDir <> 0 ->
  Z.land (Mode vfile) ModeSymlink = 0.
Proof.
  unfold Set_mode_ok, Set_flag, FileMode_IsDir. intros H Hd.
  apply Z.eqb_neq in Hd. rewrite Hd in H. cbn [negb] in H.
  apply Z.eqb_eq in H.
  apply Z.bits_inj'. intros k Hk. rewrite Z.land_spec, Z.bits_0.
  assert (Hb : Z.testbit (Z.land (Mode vfile) (Z.ldiff ModeType ModeDir)) k = false)
    by (rewrite H; apply Z.bits_0).
  rewrite Z.land_spec in Hb.
  destruct (Z.testbit ModeSymlink k) eqn:Ed; [|apply andb_false_r].
  assert (Et : Z.testbit (Z.ldiff ModeType ModeDir) k = true).
  { destruct (Z.eq_dec k 27) as [->|Hne]; [reflexivity|].
    unfold ModeSymlink in Ed. rewrite Z.pow2_bits_eqb in Ed by lia.
    apply Z.eqb_eq in Ed. lia. }
  rewrite Et, andb_true_r in Hb. rewrite Hb. reflexivity.
Qed.

Lemma wf_node_mono (len len' : nat) (nd : node) :
  (len <= len')%nat -> wf_node len nd -> wf_node len' nd.
Proof.
  unfold wf_node. intros Hl H.
  destruct (Z.land (node_mode nd) ModeDir =? 0); [exact H|].
  destruct H as (Hs & dir & Hx & Hd). split; [exact Hs|].
  exists dir. split; [exact Hx|].
  eapply Forall_impl; [exact Hd|]. intros c Hc. simpl in Hc. lia.
Qed.

(** A well-formed node with a list of children is a directory. *)
Lemma wf_node_dir (len : nat) (nd : node) (dir : list ptr) :
  wf_node len nd ->
  node_extra nd = ExtraDir dir ->
  (Z.land (node_mode nd) ModeDir =? 0) = false /\
  Z.land (node_mode nd) ModeSymlink = 0 /\
  Forall (fun c : ptr => (c < len)%nat) dir.
Proof.
  unfold wf_node. intros H Hx.
  destruct (Z.land (node_mode nd) ModeDir =? 0).
  - destruct H as [b Hb]. congruence.
  - destruct H as (Hs & dir' & Hx' & Hd). rewrite Hx in Hx'.
    injection Hx' as <-. auto.
Qed.

Lemma wf_node_newDirNode (len : nat) (c : string) :
  wf_node len (newDirNode ModeDir c).
Proof.
  unfold wf_node. cbn [newDirNode node_mode node_extra].
  change (Z.land (Z.lor ModeDir ModeDir) ModeDir =? 0) with false. cbv iota.
  split; [reflexivity|]. exists []. split; [reflexivity|constructor].
Qed.

Lemma wf_node_leaf (len : nat) (c : string) (vfile : VirtualFile) :
  Set_mode_ok vfile = true -> wf_node len (leaf_node c vfile).
Proof.
  intros Hok. unfold wf_node. cbn [leaf_node node_mode node_extra].
  destruct (Z.land (Mode vfile) ModeDir =? 0) eqn:Hm; [eauto|].
  split; [apply mode_ok_dir_not_symlink; [exact Hok|now apply Z.eqb_neq]|].
  exists []. split; [reflexivity|constructor].
Qed.

Lemma wf_store_lookup (fs : VirtualFileSystem) (h : store) (p : ptr) (nd : node) :
  wf_store fs h -> h !! p = Some nd -> wf_node (length h) nd.
Proof.
  intros (_ & _ & H) Hp. rewrite Forall_lookup in H. exact (H p nd Hp).
Qed.

(** A new node and its entry in the list of an existing directory. *)
Lemma wf_store_append (fs : VirtualFileSystem) (h : store) (n : ptr)
    (nd x : node) (dir : list ptr) :
  wf_store fs h ->
  h !! n = Some nd ->
  node_extra nd = ExtraDir dir ->
  wf_node (S (length h)) x ->
  wf_store fs (<[n := with_child nd dir (length h)]> (h ++ [x])%list).
Proof.
  intros Hwf Hn Hx Hwx.
  pose proof (wf_store_lookup fs h n nd Hwf Hn) as Hnd.
  destruct (wf_node_dir _ nd dir Hnd Hx) as (Hm & Hs & Hd).
  destruct Hwf as (Hcwd & (r & Hr & Hrd) & Hall).
  assert (Hlen : (n < length h)%nat) by (apply lookup_lt_is_Some; eauto).
  split; [exact Hcwd|]. split.
  - destruct (Nat.eq_dec (root fs) n) as [E|E].
    + exists (with_child nd dir (length h)). split.
      * rewrite E. apply list_lookup_insert_eq. rewrite length_app. simpl. lia.
      * rewrite E, Hn in Hr. injection Hr as <-. exact Hrd.
    + exists r. split; [|exact Hrd].
      rewrite list_lookup_insert_ne by congruence.
      rewrite lookup_app_l by (apply lookup_lt_is_Some; eauto). exact Hr.
  - rewrite length_insert, length_app. simpl length.
    replace (length h + 1)%nat with (S (length h)) by lia.
    apply Forall_insert.
    + apply Forall_app. split.
      * eapply Forall_impl; [exact Hall|]. intros y Hy.
        apply (wf_node_mono (length h)); [lia|exact Hy].
      * constructor; [exact Hwx|constructor].
    + unfold wf_node. cbn [with_child node_mode node_extra]. rewrite Hm.
      split; [exact Hs|]. eexists. split; [reflexivity|].
      apply Forall_app. split.
      * eapply Forall_impl; [exact Hd|]. intros c Hc. simpl in Hc. lia.
      * constructor; [lia|constructor].
Qed.

Section WalkWf.

Variables (fs : VirtualFileSystem) (h : store).
Hypothesis Hwf : wf_store fs h.

Lemma wf_root_lt : (root fs < length h)%nat.
Proof using Hwf.
  destruct Hwf as (_ & (r & Hr & _) & _). apply lookup_lt_is_Some. eauto.
Qed.

Lemma deref_wf (p : ptr) :
  (p < length h)%nat -> exists nd, h !! p = Some nd /\ deref h p = Ret nd.
Proof.
  intros Hp. destruct (lookup_lt_is_Some_2 h p Hp) as [nd Hnd].
  exists nd. unfold deref. rewrite Hnd. auto.
Qed.

Lemma dirLookup_children_wf (dir : list ptr) (c : string) :
  Forall (fun k : ptr => (k < length h)%nat) dir ->
  exists r, dirLookup_children h dir c = Ret r /\
            forall k, r = Some k -> (k < length h)%nat.
Proof.
  induction dir as [|k dir IH]; intros Hd.
  - exists None. split; [reflexivity|discriminate].
  - inversion Hd as [|? ? Hk Hd']; subst.
    destruct (deref_wf k Hk) as (nd & _ & Hnd). simpl. rewrite Hnd. simpl.
    destruct (String.eqb (node_name nd) c).
    + exists (Some k). split; [reflexivity|]. intros ? [= <-]. exact Hk.
    + apply IH. exact Hd'.
Qed.

Lemma updateFromChildN_wf (f : findHelper) (k : ptr) :
  f_fs f = fs ->
  (f_n f < length h)%nat ->
  (k < length h)%nat ->
  exists g e, findHelper_updateFromChildN h f k = Ret (g, e) /\
              (f_n g < length h)%nat.
Proof using Hwf.
  intros Hfs Hn Hk. unfold findHelper_updateFromChildN.
  destruct (deref_wf k Hk) as (child & Hc & ->). cbn [go_bind].
  destruct (Z.land (node_mode child) ModeSymlink =? 0) eqn:Hs; cbn [negb].
  { eexists _, _. split; [reflexivity|exact Hk]. }
  destruct (f_resolveSymlinks f).
  2:{ eexists _, _. split; [reflexivity|exact Hn]. }
  cbn [set_links f_links].
  destruct (f_links f + 1 >? 255).
  { eexists _, _. split; [reflexivity|exact Hn]. }
  pose proof (wf_store_lookup fs h k child Hwf Hc) as Hw. unfold wf_node in Hw.
  destruct (Z.land (node_mode child) ModeDir =? 0).
  - destruct Hw as [b Hb]. rewrite Hb. cbn [assert_bytes go_bind].
    destruct b as [|b0 b]; [eexists _, _; split; [reflexivity|exact Hn]|].
    destruct (Byte.eqb b0 Byte.x2f); eexists _, _; (split; [reflexivity|]);
      cbn [set_nameRem set_n set_links f_n f_fs]; [|exact Hn].
    rewrite Hfs. exact wf_root_lt.
  - destruct Hw as [Hw _]. apply Z.eqb_neq in Hs. contradiction.
Qed.

Lemma body_wf (f : findHelper) :
  f_fs f = fs ->
  (f_n f < length h)%nat ->
  match findHelper_run_body h f with
  | Ret (g, e) => (f_n g < length h)%nat
  | Panicked v => v = PanicError errNameComp
  | OutOfFuel => False
  end.
Proof using Hwf.
  intros Hfs Hn. unfold findHelper_run_body.
  destruct (deref_wf (f_n f) Hn) as (cur & Hc & Hd).
  unfold findHelper_injectedFault. rewrite Hd.
  assert (Hcont :
    match
      (r <- findHelper_getChildN h f (findHelper_getNameComp f (IndexByte (f_nameRem f) "/"));;
       (let '(childN, err) := r in
        match err with
        | Some e => Ret (f, Some e)
        | None =>
            match childN with
            | Some c =>
                findHelper_updateFromChildN h
                  (findHelper_updateNameRemFromSlashPos f (IndexByte (f_nameRem f) "/")) c
            | None =>
                Ret (findHelper_updateNameRemFromSlashPos f (IndexByte (f_nameRem f) "/"), None)
            end
        end))%go
    with
    | Ret (g, _) => (f_n g < length h)%nat
    | Panicked v => v = PanicError errNameComp
    | OutOfFuel => False
    end).
  { rewrite getNameComp_first, updateNameRem_after.
    unfold findHelper_getChildN.
    destruct (str_is_empty _); [cbn [go_bind]; exact Hn|].
    unfold validateNameComp. destruct (is_dot_comp _); [reflexivity|].
    cbn [go_bind]. rewrite Hd. cbn [go_bind].
    destruct (Z.land (node_mode cur) ModeDir =? 0) eqn:Hm; [exact Hn|].
    pose proof (wf_store_lookup fs h _ cur Hwf Hc) as Hw. unfold wf_node in Hw.
    rewrite Hm in Hw. destruct Hw as (_ & dir & Hx & Hdir).
    unfold dirLookup. rewrite Hx. cbn [assert_dir go_bind].
    destruct (dirLookup_children_wf dir (first_comp (f_nameRem f)) Hdir)
      as (r & -> & Hr).
    cbn [go_bind]. destruct r as [k|]; cbn [go_bind]; [|exact Hn].
    destruct (updateFromChildN_wf (set_nameRem f (after_first (f_nameRem f))) k
                Hfs Hn (Hr k eq_refl)) as (g & e & -> & Hg).
    exact Hg. }
  destruct (f_ignoreInjectedFaults f); cbn [go_bind]; [exact Hcont|].
  destruct (node_err cur); [exact Hn|exact Hcont].
Qed.

Lemma run_loop_wf (fuel : nat) :
  forall f : findHelper,
    f_fs f = fs ->
    (f_n f < length h)%nat ->
    match findHelper_run_loop fuel h f with
    | Ret (g, e) => (f_n g < length h)%nat
    | Panicked v => v = PanicError errNameComp
    | OutOfFuel => True
    end.
Proof using Hwf.
  induction fuel as [|fuel IH]; intros f Hfs Hn; [exact I|].
  simpl. destruct (str_is_empty (f_nameRem f)).
  - unfold findHelper_run_exit, findHelper_injectedFault.
    destruct (deref_wf (f_n f) Hn) as (cur & _ & ->).
    destruct (f_ignoreInjectedFaults f); exact Hn.
  - pose proof (body_wf f Hfs Hn) as Hb. revert Hb.
    destruct (findHelper_run_body h f) as [[g [e|]]| |] eqn:Hbody;
      cbn [go_bind]; auto.
    intros Hg.
    destruct (body_frame h f g None Hbody) as (Hg' & _).
    apply IH; congruence.
Qed.

Lemma find_wf (name : string) (ign res : bool) :
  match VirtualFileSystem_find h fs name ign res with
  | Ret (n, _, _) => (n < length h)%nat
  | Panicked v => v = PanicError errNameComp
  | OutOfFuel => False
  end.
Proof using Hwf.
  unfold VirtualFileSystem_find.
  destruct (abs_comps fs name (proj1 Hwf)) as (x & -> & _).
  cbn [go_bind].
  pose proof (run_loop_wf (run_fuel h (find_start fs x ign res))
                (find_start fs x ign res) eq_refl wf_root_lt) as Hr.
  fold (findHelper_run h (find_start fs x ign res)) in Hr.
  pose proof (run_fueled h (find_start fs x ign res)) as Hfuel.
  revert Hr Hfuel.
  destruct (findHelper_run h _) as [[g e]| |]; cbn [go_bind]; auto.
Qed.

End WalkWf.

(** *** [dirAppend] and [createChildren], one step at a time *)

Lemma dirAppend_cases (n c : ptr) (h : store) :
  dirAppend n c h =
  match h !! n with
  | None => (h, Panicked (PanicRuntime NilDereference))
  | Some nd =>
      match node_extra nd with
      | ExtraDir dir => (<[n := with_child nd dir c]> h, Ret tt)
      | ExtraBytes _ => (h, Panicked (PanicRuntime TypeAssertion))
      end
  end.
Proof.
  unfold dirAppend, st_bind, st_lift, st_write, deref.
  destruct (h !! n) as [nd|]; [|reflexivity]. cbn [go_bind].
  destruct (node_extra nd); reflexivity.
Qed.

Lemma createChildren_step (fuel : nat) (n : ptr) (nameRem : string)
    (vfile : VirtualFile) (h : store) :
  createChildren_loop (S fuel) n nameRem vfile h =
  if str_is_empty (first_comp nameRem) then
    if IndexByte nameRem "/" <? 0 then (h, Ret tt)
    else createChildren_loop fuel n (after_first nameRem) vfile h
  else if is_dot_comp (first_comp nameRem) then
    (h, Panicked (PanicError errNameComp))
  else if IndexByte nameRem "/" <? 0 then
    dirAppend n (length h) (h ++ [leaf_node (first_comp nameRem) vfile])%list
  else
    match dirAppend n (length h)
            (h ++ [newDirNode ModeDir (first_comp nameRem)])%list with
    | (h1, Ret _) =>
        createChildren_loop fuel (length h) (after_first nameRem) vfile h1
    | (h1, Panicked v) => (h1, Panicked v)
    | (h1, OutOfFuel) => (h1, OutOfFuel)
    end.
Proof.
  cbn [createChildren_loop]. unfold first_comp, after_first.
  destruct (IndexByte nameRem "/" <? 0);
    (destruct (str_is_empty _); cbn [negb]; [reflexivity|]);
    unfold st_bind at 1; unfold st_lift at 1; unfold validateNameComp;
    (destruct (is_dot_comp _); [reflexivity|]).
  - reflexivity.
  - unfold st_bind at 1. unfold st_new at 1. unfold st_bind at 1.
    destruct (dirAppend _ _ _) as [h1 [[]|v|]]; reflexivity.
Qed.

Lemma after_first_length (s : string) :
  0 <= IndexByte s "/" ->
  (String.length (after_first s) < String.length s)%nat.
Proof.
  intros Hp. unfold after_first.
  replace (IndexByte s "/" <? 0) with false by (symmetry; apply Z.ltb_ge; exact Hp).
  unfold slice_from. rewrite length_str_drop.
  destruct s as [|a s]; [simpl in Hp; lia|].
  pose proof (IndexByte_lt (String a s) "/"%char ltac:(discriminate)). lia.
Qed.

(** [createChildren] keeps a store well formed, and in a well-formed store
    it panics only on a component that [validateNameComp] refuses. *)
Lemma createChildren_wf (fs : VirtualFileSystem) (vfile : VirtualFile)
    (fuel : nat) :
  Set_mode_ok vfile = true ->
  forall (n : ptr) (nameRem : string) (h : store) (nd : node) (dir : list ptr),
    wf_store fs h ->
    h !! n = Some nd ->
    node_extra nd = ExtraDir dir ->
    wf_store fs (fst (createChildren_loop fuel n nameRem vfile h)) /\
    (snd (createChildren_loop fuel n nameRem vfile h) = Ret tt \/
     snd (createChildren_loop fuel n nameRem vfile h)
     = Panicked (PanicError errNameComp) \/
     snd (createChildren_loop fuel n nameRem vfile h) = OutOfFuel).
Proof.
  intros Hok.
  induction fuel as [|fuel IH]; intros n nameRem h nd dir Hwf Hn Hx.
  { simpl. auto. }
  rewrite createChildren_step.
  destruct (str_is_empty _).
  { destruct (IndexByte nameRem "/" <? 0); [simpl; auto|].
    apply (IH n _ h nd dir); auto. }
  destruct (is_dot_comp _); [simpl; auto|].
  destruct (IndexByte nameRem "/" <? 0).
  - rewrite (dirAppend_new h n nd _ dir Hn Hx). cbn [fst snd].
    split; [|auto].
    rewrite <- insert_app_l by (eapply lookup_lt_Some; eauto).
    apply wf_store_append; auto. apply wf_node_leaf. exact Hok.
  - rewrite (dirAppend_new h n nd _ dir Hn Hx).
    set (h2 := (<[n := with_child nd dir (length h)]> h ++ [_])%list).
    apply (IH (length h) _ h2 (newDirNode ModeDir (first_comp nameRem)) []).
    + unfold h2. rewrite <- insert_app_l by (eapply lookup_lt_Some; eauto).
      apply wf_store_append; auto. apply wf_node_newDirNode.
    + unfold h2. rewrite lookup_app_r by (rewrite length_insert; lia).
      rewrite length_insert, Nat.sub_diag. reflexivity.
    + reflexivity.
Qed.

Lemma wf_store_update (fs : VirtualFileSystem) (h : store) (n : ptr)
    (cur : node) (vfile : VirtualFile) :
  wf_store fs h ->
  Set_mode_ok vfile = true ->
  h !! n = Some cur ->
  (Z.land (node_mode cur) ModeDir =? 0) = (Z.land (Mode vfile) ModeDir =? 0) ->
  wf_store fs
    (<[n := {| node_err := Error vfile;
               node_extra := if negb (negb (Z.land (Mode vfile) ModeDir =? 0))
                             then ExtraBytes (Content vfile)
                             else node_extra cur;
               node_mode := Mode vfile;
               node_name := node_name cur |}]> h).
Proof.
  intros Hwf Hok Hn Hagree.
  pose proof (wf_store_lookup fs h n cur Hwf Hn) as Hcur.
  destruct Hwf as (Hcwd & (r & Hr & Hrd) & Hall).
  assert (Hlen : (n < length h)%nat) by (apply lookup_lt_is_Some; eauto).
  split; [exact Hcwd|]. split.
  - destruct (Nat.eq_dec (root fs) n) as [E|E].
    + eexists. split; [rewrite E; apply list_lookup_insert_eq; exact Hlen|].
      rewrite E, Hn in Hr. injection Hr as <-.
      unfold FileMode_IsDir in *. cbn [node_mode]. now rewrite <- Hagree.
    + exists r. split; [|exact Hrd]. now rewrite list_lookup_insert_ne by congruence.
  - rewrite length_insert. apply Forall_insert; [exact Hall|].
    unfold wf_node in *. cbn [node_mode node_extra].
    rewrite Hagree in Hcur.
    destruct (Z.land (Mode vfile) ModeDir =? 0) eqn:Hm; cbn [negb]; [eauto|].
    split; [|apply Hcur].
    apply mode_ok_dir_not_symlink; [exact Hok|now apply Z.eqb_neq].
Qed.

(** [Set] with the store written out. *)
Lemma Set_unfold (fs : VirtualFileSystem) (name : string) (vfile : VirtualFile)
    (h : store) :
  VirtualFileSystem_Set fs name vfile h =
  if negb (Set_mode_ok vfile) then (h, Panicked (PanicError errBadMode))
  else
    match VirtualFileSystem_find h fs name true false with
    | Ret (n, nameRem, err) =>
        if error_is err ENOTDIR
        then (h, Panicked (PanicError errIsDirDisagreement))
        else if negb (str_is_empty nameRem)
        then VirtualFileSystem_createChildren fs n nameRem vfile h
        else
          match h !! n with
          | None => (h, Panicked (PanicRuntime NilDereference))
          | Some cur =>
              if negb (Bool.eqb (negb (Z.land (node_mode cur) ModeDir =? 0))
                                (negb (Z.land (Mode vfile) ModeDir =? 0)))
              then (h, Panicked (PanicError errIsDirDisagreement))
              else
                (<[n := {| node_err := Error vfile;
                           node_extra :=
                             if negb (negb (Z.land (Mode vfile) ModeDir =? 0))
                             then ExtraBytes (Content vfile)
                             else node_extra cur;
                           node_mode := Mode vfile;
                           node_name := node_name cur |}]> h,
                 Ret tt)
          end
    | Panicked v => (h, Panicked v)
    | OutOfFuel => (h, OutOfFuel)
    end.
Proof.
  unfold VirtualFileSystem_Set.
  destruct (negb (Set_mode_ok vfile)); [reflexivity|].
  unfold st_bind at 1. unfold st_lift at 1.
  destruct (VirtualFileSystem_find h fs name true false)
    as [[[n nameRem] err]|v|]; try reflexivity.
  destruct (error_is err ENOTDIR); [reflexivity|].
  destruct (negb (str_is_empty nameRem)); [reflexivity|].
  unfold st_bind, st_lift, st_panic, st_write, deref.
  destruct (h !! n) as [cur|]; [|reflexivity]. cbn [go_bind].
  destruct (negb _); reflexivity.
Qed.

(** [Set] keeps a store well formed, and in a well-formed store it panics
    only with one of its three errors. *)
Lemma Set_wf (fs : VirtualFileSystem) (name : string) (vfile : VirtualFile)
    (h : store) :
  wf_store fs h ->
  wf_store fs (fst (VirtualFileSystem_Set fs name vfile h)) /\
  forall v, snd (VirtualFileSystem_Set fs name vfile h) = Panicked v ->
            v = PanicError errBadMode \/
            v = PanicError errIsDirDisagreement \/
            v = PanicError errNameComp.
Proof.
  intros Hwf. rewrite Set_unfold.
  destruct (Set_mode_ok vfile) eqn:Hok; cbn [negb].
  2:{ split; [exact Hwf|]. intros v [= <-]. auto. }
  pose proof (find_wf fs h Hwf name true false) as Hfind.
  pose proof (find_lookup_outcomes h fs name) as Hout.
  revert Hfind Hout.
  destruct (VirtualFileSystem_find h fs name true false)
    as [[[n nameRem] err]|v|]; intros Hfind Hout; [| |contradiction].
  2:{ subst v. split; [exact Hwf|]. intros v [= <-]. auto. }
  specialize (Hout nameRem n err eq_refl).
  destruct err as [e|].
  - destruct Hout as (Hne & nd & Hn & [[-> Hm]|(-> & Hm & dir & Hx & Hl)]).
    + cbn [error_is error_eqb fst snd]. split; [exact Hwf|].
      intros v [= <-]. auto.
    + cbn [error_is error_eqb].
      destruct nameRem as [|a s]; [congruence|]. cbn [str_is_empty negb].
      unfold VirtualFileSystem_createChildren.
      destruct (createChildren_wf fs vfile (S (String.length (String a s))) Hok
                  n (String a s) h nd dir Hwf Hn Hx) as [H1 H2].
      split; [exact H1|].
      intros v Hv. rewrite Hv in H2.
      destruct H2 as [H2|[H2|H2]]; try discriminate. injection H2 as ->. auto.
  - subst nameRem. cbn [error_is str_is_empty negb].
    destruct (deref_wf h n Hfind) as (cur & Hn & _). rewrite Hn.
    destruct (Bool.eqb _ _) eqn:Hagree; cbn [negb fst snd].
    + split; [|discriminate].
      apply wf_store_update; auto.
      apply Bool.eqb_prop in Hagree.
      destruct (Z.land (node_mode cur) ModeDir =? 0),
               (Z.land (Mode vfile) ModeDir =? 0); simpl in Hagree; congruence.
    + split; [exact Hwf|]. intros v [= <-]. auto.
Qed.

Lemma wf_new_store : wf_store fs0 new_store.
Proof.
  split; [reflexivity|]. split.
  - eexists. split; reflexivity.
  - constructor; [|constructor]. unfold wf_node. simpl.
    split; [reflexivity|]. exists []. split; [reflexivity|constructor].
Qed.

Lemma Set_all_wf (fs : VirtualFileSystem) (data : list (string * VirtualFile)) :
  forall h : store,
    wf_store fs h ->
    wf_store fs (fst (Set_all fs data h)) /\
    snd (Set_all fs data h) <> OutOfFuel /\
    forall v, snd (Set_all fs data h) = Panicked v ->
              v = PanicError errBadMode \/
              v = PanicError errIsDirDisagreement \/
              v = PanicError errNameComp.
Proof.
  induction data as [|[name vfile] data IH]; intros h Hwf.
  - simpl. split; [exact Hwf|]. split; discriminate.
  - cbn [Set_all]. unfold st_bind.
    destruct (Set_wf fs name vfile h Hwf) as [H1 H2].
    pose proof (Set_terminates fs name vfile h) as H3.
    destruct (VirtualFileSystem_Set fs name vfile h) as [h1 [[]|v|]];
      cbn [fst snd] in *.
    + apply IH. exact H1.
    + split; [exact H1|]. split; [discriminate|].
      intros v' [= <-]. apply H2. reflexivity.
    + congruence.
Qed.

(** X9.  [Set] keeps the store well formed, whatever the name and the
    descriptor and whether it returns or panics: directories hold lists of
    allocated children and are not symlinks, the other nodes hold bytes, and
    the root stays a directory. *)
Theorem Set_keeps_store_well_formed (fs : VirtualFileSystem) (name : string)
    (vfile : VirtualFile) (h : store) :
  wf_store fs h ->
  wf_store fs (fst (VirtualFileSystem_Set fs name vfile h)).
Proof. intros Hwf. apply Set_wf. exact Hwf. Qed.

Lemma Set_keeps_store_well_formed_witness :
  wf_store fs0 new_store /\
  wf_store fs0 (fst (VirtualFileSystem_Set fs0 "/a/b" (regular_file "x") new_store)).
Proof.
  split; [exact wf_new_store|].
  apply (Set_keeps_store_well_formed fs0 "/a/b" (regular_file "x") new_store).
  exact wf_new_store.
Defined.

(** X10.  In a well-formed store [Set] panics only with one of the three
    errors of fs.go (bad mode, directory disagreement, refused name
    component): no type assertion fails, no nil node is dereferenced and no
    slice is cut out of bounds. *)
Theorem Set_panics_only_with_its_errors (fs : VirtualFileSystem) (name : string)
    (vfile : VirtualFile) (h : store) (v : panic_value) :
  wf_store fs h ->
  snd (VirtualFileSystem_Set fs name vfile h) = Panicked v ->
  v = PanicError errBadMode \/
  v = PanicError errIsDirDisagreement \/
  v = PanicError errNameComp.
Proof. intros Hwf. apply Set_wf. exact Hwf. Qed.

Lemma Set_panics_only_with_its_errors_witness :
  wf_store fs0 new_store /\
  snd (VirtualFileSystem_Set fs0 "/a/../b" (regular_file "x") new_store)
  = Panicked (PanicError errNameComp) /\
  (PanicError errNameComp = PanicError errBadMode \/
   PanicError errNameComp = PanicError errIsDirDisagreement \/
   PanicError errNameComp = PanicError errNameComp).
Proof.
  split; [exact wf_new_store|]. split; [reflexivity|].
  apply (Set_panics_only_with_its_errors fs0 "/a/../b" (regular_file "x")
           new_store (PanicError errNameComp) wf_new_store).
  reflexivity.
Defined.

(** X11.  Whatever the entries and the order in which they are visited,
    [NewVirtualFileSystem] leaves a well-formed store; it returns the file
    system with working directory [/] and the root at the first address, or
    panics with one of the three errors of [Set]. *)
Theorem NewVirtualFileSystem_well_formed (data : list (string * VirtualFile)) :
  wf_store fs0 (fst (built data)) /\
  (snd (built data) = Ret fs0 \/
   snd (built data) = Panicked (PanicError errBadMode) \/
   snd (built data) = Panicked (PanicError errIsDirDisagreement) \/
   snd (built data) = Panicked (PanicError errNameComp)).
Proof.
  unfold built, NewVirtualFileSystem, st_bind, st_new, st_ret.
  cbn [length app]. fold new_store. fold fs0.
  destruct (Set_all_wf fs0 data new_store wf_new_store) as (H1 & H2 & H3).
  destruct (Set_all fs0 data new_store) as [h1 [[]|v|]]; cbn [fst snd] in *.
  - auto.
  - split; [exact H1|]. right.
    destruct (H3 v eq_refl) as [-> | [-> | ->]]; auto.
  - congruence.
Qed.

(** X12.  In a well-formed store [Stat] and [Open] never fail with a panic
    of the Go runtime: they return, or panic with the error of
    [validateNameComp]; a node that [Stat] returns, and the node of a
    descriptor that [Open] returns, is allocated. *)
Theorem Stat_Open_well_formed (h : store) (fs : VirtualFileSystem)
    (name : string) :
  wf_store fs h ->
  (exists n nd, VirtualFileSystem_Stat h fs name = Ret (Some n, None) /\
                VirtualFileSystem_Open h fs name
                = Ret (Some {| fd_node := n; fd_readPos := 0 |}, None) /\
                h !! n = Some nd) \/
  (exists e, VirtualFileSystem_Stat h fs name = Ret (None, Some e) /\
             VirtualFileSystem_Open h fs name = Ret (None, Some e)) \/
  (VirtualFileSystem_Stat h fs name = Panicked (PanicError errNameComp) /\
   VirtualFileSystem_Open h fs name = Panicked (PanicError errNameComp)).
Proof.
  intros Hwf. pose proof (find_wf fs h Hwf name false true) as Hfind.
  unfold VirtualFileSystem_Stat, VirtualFileSystem_Open. revert Hfind.
  destruct (VirtualFileSystem_find h fs name false true)
    as [[[n nameRem] [e| ]]|v| ]; cbn [go_bind]; intros Hfind.
  - right. left. eauto.
  - left. destruct (lookup_lt_is_Some_2 h n Hfind) as [nd Hnd]. eauto.
  - subst v. auto.
  - contradiction.
Qed.

Lemma Stat_Open_well_formed_witness :
  wf_store fs0 new_store /\
  ((exists n nd, VirtualFileSystem_Stat new_store fs0 "/" = Ret (Some n, None) /\
                 VirtualFileSystem_Open new_store fs0 "/"
                 = Ret (Some {| fd_node := n; fd_readPos := 0 |}, None) /\
                 new_store !! n = Some nd) \/
   (exists e, VirtualFileSystem_Stat new_store fs0 "/" = Ret (None, Some e) /\
              VirtualFileSystem_Open new_store fs0 "/" = Ret (None, Some e)) \/
   (VirtualFileSystem_Stat new_store fs0 "/" = Panicked (PanicError errNameComp) /\
    VirtualFileSystem_Open new_store fs0 "/" = Panicked (PanicError errNameComp))).
Proof.
  split; [exact wf_new_store|].
  apply (Stat_Open_well_formed new_store fs0 "/" wf_new_store).
Defined.

(** ** What [Set] leaves in place *)

Lemma node_extends_refl (nd : node) : node_extends nd nd.
Proof.
  split; [reflexivity|]. split; [reflexivity|].
  intros dir Hx _. exists []. now rewrite app_nil_r.
Qed.

Lemma node_extends_trans (a b c : node) :
  node_extends a b -> node_extends b c -> node_extends a c.
Proof.
  intros (H1 & H2 & H3) (H4 & H5 & H6).
  split; [congruence|]. split; [congruence|].
  intros dir Hx Hd. destruct (H3 dir Hx Hd) as [more Hb].
  destruct (H6 _ Hb ltac:(congruence)) as [more' Hc].
  exists (more ++ more')%list. now rewrite app_assoc.
Qed.

Lemma store_extends_refl (h : store) : store_extends h h.
Proof. intros p nd Hp. exists nd. split; [exact Hp|apply node_extends_refl]. Qed.

Lemma store_extends_trans (h1 h2 h3 : store) :
  store_extends h1 h2 -> store_extends h2 h3 -> store_extends h1 h3.
Proof.
  intros H12 H23 p nd Hp.
  destruct (H12 p nd Hp) as (nd2 & Hp2 & He2).
  destruct (H23 p nd2 Hp2) as (nd3 & Hp3 & He3).
  exists nd3. split; [exact Hp3|]. eapply node_extends_trans; eauto.
Qed.

Lemma store_extends_insert (h : store) (n : ptr) (cur new : node) :
  h !! n = Some cur ->
  node_extends cur new ->
  store_extends h (<[n := new]> h).
Proof.
  intros Hn He p nd Hp.
  destruct (Nat.eq_dec p n) as [->|Hne].
  - exists new. split.
    + apply list_lookup_insert_eq. eapply lookup_lt_Some; eauto.
    + rewrite Hn in Hp. injection Hp as <-. exact He.
  - exists nd. split; [|apply node_extends_refl].
    rewrite list_lookup_insert_ne by congruence. exact Hp.
Qed.

Lemma store_extends_app (h : store) (l : list node) :
  store_extends h (h ++ l)%list.
Proof.
  intros p nd Hp. exists nd. split; [|apply node_extends_refl].
  now apply lookup_app_l_Some.
Qed.

Lemma node_extends_with_child (nd : node) (dir : list ptr) (c : ptr) :
  node_extra nd = ExtraDir dir -> node_extends nd (with_child nd dir c).
Proof.
  intros Hx. split; [reflexivity|]. split; [reflexivity|].
  intros dir' Hx' _. rewrite Hx in Hx'. injection Hx' as <-.
  exists [c]. reflexivity.
Qed.

Lemma dirAppend_extends (n c : ptr) (h : store) :
  store_extends h (fst (dirAppend n c h)).
Proof.
  rewrite dirAppend_cases.
  destruct (h !! n) as [nd|] eqn:Hn; [|apply store_extends_refl].
  destruct (node_extra nd) as [b|dir] eqn:Hx; [apply store_extends_refl|].
  cbn [fst]. apply (store_extends_insert h n nd); auto.
  now apply node_extends_with_child.
Qed.

Lemma dirAppend_panic (n c : ptr) (h : store) (v : panic_value) :
  snd (dirAppend n c h) = Panicked v -> exists r, v = PanicRuntime r.
Proof.
  rewrite dirAppend_cases.
  destruct (h !! n) as [nd|]; [destruct (node_extra nd)|]; cbn [snd];
    intros [= <-]; eauto.
Qed.

(** [createChildren] leaves in place what exists, and of the errors of
    fs.go it panics only with the one of [validateNameComp]. *)
Lemma createChildren_extends (vfile : VirtualFile) (fuel : nat) :
  forall (n : ptr) (nameRem : string) (h : store),
    store_extends h (fst (createChildren_loop fuel n nameRem vfile h)) /\
    forall e, snd (createChildren_loop fuel n nameRem vfile h)
              = Panicked (PanicError e) -> e = errNameComp.
Proof.
  induction fuel as [|fuel IH]; intros n nameRem h.
  { simpl. split; [apply store_extends_refl|discriminate]. }
  rewrite createChildren_step.
  destruct (str_is_empty _).
  { destruct (IndexByte nameRem "/" <? 0); [|apply IH].
    split; [apply store_extends_refl|discriminate]. }
  destruct (is_dot_comp _).
  { split; [apply store_extends_refl|]. intros e [= <-]. reflexivity. }
  destruct (IndexByte nameRem "/" <? 0).
  - split.
    + eapply store_extends_trans; [apply store_extends_app|].
      apply dirAppend_extends.
    + intros e He. apply dirAppend_panic in He as [r Hr]. discriminate.
  - pose proof (dirAppend_extends n (length h)
                  (h ++ [newDirNode ModeDir (first_comp nameRem)])%list) as He.
    pose proof (dirAppend_panic n (length h)
                  (h ++ [newDirNode ModeDir (first_comp nameRem)])%list) as Hp.
    revert He Hp.
    destruct (dirAppend _ _ _) as [h1 [[]|v|]]; cbn [fst snd]; intros He Hp.
    + destruct (IH (length h) (after_first nameRem) h1) as [H1 H2].
      split; [|exact H2].
      eapply store_extends_trans; [apply store_extends_app|].
      eapply store_extends_trans; [exact He|exact H1].
    + split.
      * eapply store_extends_trans; [apply store_extends_app|exact He].
      * intros e [= ->]. destruct (Hp _ eq_refl) as [r Hr]. discriminate.
    + split; [|discriminate].
      eapply store_extends_trans; [apply store_extends_app|exact He].
Qed.

(** X13.  [Set] never removes or renames anything, on any store and
    whether it returns or panics: every node that exists keeps its address,
    its name and its being a directory or not, and a directory keeps its
    children in their order, new ones coming after them. *)
Theorem Set_extends_store (fs : VirtualFileSystem) (name : string)
    (vfile : VirtualFile) (h : store) :
  store_extends h (fst (VirtualFileSystem_Set fs name vfile h)).
Proof.
  rewrite Set_unfold.
  destruct (negb (Set_mode_ok vfile)); [apply store_extends_refl|].
  destruct (VirtualFileSystem_find h fs name true false)
    as [[[n nameRem] err]|v| ]; try apply store_extends_refl.
  destruct (error_is err ENOTDIR); [apply store_extends_refl|].
  destruct (negb (str_is_empty nameRem)).
  { apply createChildren_extends. }
  destruct (h !! n) as [cur|] eqn:Hn; [|apply store_extends_refl].
  destruct (Bool.eqb _ _) eqn:Hagree; cbn [negb fst];
    [|apply store_extends_refl].
  apply (store_extends_insert h n cur); [exact Hn|].
  apply Bool.eqb_prop in Hagree.
  split; [reflexivity|]. unfold FileMode_IsDir. cbn [node_mode node_extra].
  split; [now rewrite Hagree|].
  intros dir Hx Hd. rewrite Hd in Hagree. rewrite <- Hagree. cbn [negb].
  exists []. now rewrite app_nil_r.
Qed.

(** X14.  A call of [Set] that panics with the bad-mode error or with the
    directory-disagreement error has changed nothing: the store is the one
    before the call, on any store, for any name and descriptor. *)
Theorem Set_panic_leaves_store (fs : VirtualFileSystem) (name : string)
    (vfile : VirtualFile) (h : store) (e : error) :
  snd (VirtualFileSystem_Set fs name vfile h) = Panicked (PanicError e) ->
  e = errBadMode \/ e = errIsDirDisagreement ->
  fst (VirtualFileSystem_Set fs name vfile h) = h.
Proof.
  rewrite Set_unfold.
  destruct (negb (Set_mode_ok vfile)); [reflexivity|].
  destruct (VirtualFileSystem_find h fs name true false)
    as [[[n nameRem] err]|v| ]; try reflexivity.
  destruct (error_is err ENOTDIR); [reflexivity|].
  destruct (negb (str_is_empty nameRem)).
  { intros Hp He. unfold VirtualFileSystem_createChildren in Hp.
    apply createChildren_extends in Hp. subst e. destruct He; discriminate. }
  destruct (h !! n) as [cur|]; [|reflexivity].
  destruct (negb _); [reflexivity|discriminate].
Qed.

Lemma Set_panic_leaves_store_witness :
  let h := file_a_b (bytes "data") 0 None in
  snd (VirtualFileSystem_Set fs0 "/a/b/c" (regular_file "x") h)
  = Panicked (PanicError errIsDirDisagreement) /\
  (errIsDirDisagreement = errBadMode \/
   errIsDirDisagreement = errIsDirDisagreement) /\
  fst (VirtualFileSystem_Set fs0 "/a/b/c" (regular_file "x") h) = h.
Proof.
  intros h. split; [reflexivity|]. split; [right; reflexivity|].
  apply (Set_panic_leaves_store fs0 "/a/b/c" (regular_file "x") h
           errIsDirDisagreement); [reflexivity|right; reflexivity].
Defined.

(** ** Cutting the path at the first separator *)

Lemma IndexByte_cut (s : string) :
  0 <= IndexByte s "/" ->
  s = (slice_to s (IndexByte s "/") ++ "/"
       ++ slice_from s (IndexByte s "/" + 1))%string /\
  IndexByte (slice_to s (IndexByte s "/")) "/" < 0.
Proof.
  unfold slice_to, slice_from.
  induction s as [|a s IH]; intros Hp; [simpl in Hp; lia|].
  simpl in Hp |- *.
  destruct (Ascii.eqb a "/") eqn:Ha.
  - apply Ascii.eqb_eq in Ha. subst a. simpl. split; [reflexivity|lia].
  - destruct (IndexByte s "/" <? 0) eqn:Hi; [lia|].
    apply Z.ltb_ge in Hi. destruct (IH Hi) as [H1 H2].
    replace (Z.to_nat (IndexByte s "/" + 1)) with (S (Z.to_nat (IndexByte s "/")))
      by lia.
    replace (Z.to_nat (IndexByte s "/" + 1 + 1))
      with (S (Z.to_nat (IndexByte s "/" + 1))) by lia.
    cbn [str_take str_drop]. split.
    + simpl. f_equal. exact H1.
    + simpl. rewrite Ha.
      destruct (IndexByte (str_take (Z.to_nat (IndexByte s "/")) s) "/" <? 0) eqn:Hj;
        [lia|]. apply Z.ltb_ge in Hj. lia.
Qed.

(** X15.  [getNameComp] and [updateNameRemFromSlashPos] cut the path at its
    first separator and lose nothing: the component holds no separator, and
    the path is the component alone (no separator: nothing is left) or the
    component, one separator and what is left.  The other fields of the
    helper are not touched. *)
Theorem nameComp_and_rest_rebuild_path (f : findHelper) :
  let slashPos := IndexByte (f_nameRem f) "/" in
  let nameComp := findHelper_getNameComp f slashPos in
  let f' := findHelper_updateNameRemFromSlashPos f slashPos in
  IndexByte nameComp "/" < 0 /\
  f_nameRem f = (if slashPos <? 0 then nameComp
                 else (nameComp ++ "/" ++ f_nameRem f')%string) /\
  (slashPos < 0 -> f_nameRem f' = "") /\
  f' = set_nameRem f (f_nameRem f').
Proof.
  intros slashPos nameComp f'.
  unfold nameComp, f', findHelper_getNameComp, findHelper_updateNameRemFromSlashPos.
  fold slashPos.
  destruct (slashPos <? 0) eqn:Hs.
  - apply Z.ltb_lt in Hs. repeat split; auto.
  - apply Z.ltb_ge in Hs. destruct (IndexByte_cut (f_nameRem f) Hs) as [H1 H2].
    split; [exact H2|]. split; [exact H1|]. split; [lia|reflexivity].
Qed.

(** ** What [Read] promises to any caller *)

(** X16.  [Read] keeps the contract of [io.Reader] on any store, for any
    descriptor and buffer: when it returns, the count [n] is between 0 and
    the length of the buffer, the buffer keeps its length and its bytes
    from [n] on, the position has moved forward by exactly [n] on the same
    node, a non-nil error comes with [n = 0], and the first [n] bytes of the
    buffer are the bytes of the content from the old position on. *)
Theorem Read_io_contract (h : store) (r r' : virtualFileDescriptor)
    (p p' : list byte) (n : Z) (err : option error) :
  virtualFileDescriptor_Read h r p = Ret (r', p', n, err) ->
  0 <= n <= Z.of_nat (length p) /\
  length p' = length p /\
  drop (Z.to_nat n) p' = drop (Z.to_nat n) p /\
  fd_node r' = fd_node r /\
  fd_readPos r' = fd_readPos r + n /\
  (err <> None -> n = 0) /\
  forall nd C, h !! fd_node r = Some nd -> node_extra nd = ExtraBytes C ->
               take (Z.to_nat n) p'
               = take (Z.to_nat n) (drop (Z.to_nat (fd_readPos r)) C).
Proof.
  unfold virtualFileDescriptor_Read, deref.
  destruct (h !! fd_node r) as [nd|] eqn:Hn; cbn [go_bind]; [|discriminate].
  assert (Hnone : Ret (r, p, 0, @None error) = Ret (r', p', n, err) \/
                  Ret (r, p, 0, Some errBadMode) = Ret (r', p', n, err) ->
          0 <= n <= Z.of_nat (length p) /\
          length p' = length p /\
          drop (Z.to_nat n) p' = drop (Z.to_nat n) p /\
          fd_node r' = fd_node r /\
          fd_readPos r' = fd_readPos r + n /\
          (err <> None -> n = 0) /\
          forall nd0 C, Some nd = Some nd0 -> node_extra nd0 = ExtraBytes C ->
                        take (Z.to_nat n) p'
                        = take (Z.to_nat n) (drop (Z.to_nat (fd_readPos r)) C)).
  { intros [H|H]; injection H as <- <- <- <-;
      (repeat split; auto; try lia). }
  destruct (negb (FileMode_IsRegular (node_mode nd))); [auto|].
  destruct (Z.of_nat (length p) >? 0); [|auto]. clear Hnone.
  destruct (node_extra nd) as [C|dir] eqn:Hx; cbn [assert_bytes go_bind];
    [|discriminate].
  destruct ((0 <=? fd_readPos r) && (fd_readPos r <=? Z.of_nat (length C)));
    [|discriminate].
  unfold copy.
  set (src := drop (Z.to_nat (fd_readPos r)) C).
  set (k := Nat.min (length p) (length src)).
  intros H. injection H as <- <- <- <-.
  rewrite Nat2Z.id.
  assert (Hk : length (take k src) = k).
  { rewrite length_take. unfold k. lia. }
  split; [unfold k; lia|].
  split; [rewrite length_app, Hk, length_drop; unfold k; lia|].
  split; [rewrite drop_app_length'; [reflexivity|symmetry; exact Hk]|].
  split; [reflexivity|]. split; [reflexivity|]. split.
  - destruct (Z.of_nat k =? 0) eqn:Hz; [intros _; now apply Z.eqb_eq|congruence].
  - intros nd0 C0 [= <-] HC. rewrite Hx in HC. injection HC as <-.
    rewrite take_app_length'; [|symmetry; exact Hk]. reflexivity.
Qed.

Lemma Read_io_contract_witness :
  let h := file_a_b (bytes "data") 0 None in
  let r := {| fd_node := 2%nat; fd_readPos := 1 |} in
  let r' := {| fd_node := 2%nat; fd_readPos := 3 |} in
  virtualFileDescriptor_Read h r (bytes "xy") = Ret (r', bytes "at", 2, None) /\
  0 <= 2 <= Z.of_nat (length (bytes "xy")) /\
  length (bytes "at") = length (bytes "xy") /\
  drop (Z.to_nat 2) (bytes "at") = drop (Z.to_nat 2) (bytes "xy") /\
  fd_node r' = fd_node r /\
  fd_readPos r' = fd_readPos r + 2 /\
  (@None error <> None -> 2 = 0) /\
  forall nd C, h !! fd_node r = Some nd -> node_extra nd = ExtraBytes C ->
               take (Z.to_nat 2) (bytes "at")
               = take (Z.to_nat 2) (drop (Z.to_nat (fd_readPos r)) C).
Proof.
  intros h r r'. split; [reflexivity|].
  apply (Read_io_contract h r r' (bytes "xy") (bytes "at") 2 None).
  reflexivity.
Defined.

(** ** A descriptor and a later [Set] of its node *)

(** X17.  A descriptor reads what the latest [Set] has put in its node:
    after [Set] has updated the node of an open descriptor with a
    regular-file descriptor, [Read] with a non-empty buffer transfers the
    bytes of the new content from the position the descriptor had reached,
    and panics (slice bounds out of range) when that position lies beyond
    the end of the new content. *)
Theorem Read_after_Set (h : store) (fs : VirtualFileSystem) (name : string)
    (vfile : VirtualFile) (r : virtualFileDescriptor) (cur : node)
    (p : list byte) :
  FileMode_IsRegular (Mode vfile) = true ->
  VirtualFileSystem_find h fs name true false = Ret (fd_node r, "", None) ->
  h !! fd_node r = Some cur ->
  FileMode_IsDir (node_mode cur) = false ->
  p <> [] ->
  0 <= fd_readPos r ->
  exists h',
    VirtualFileSystem_Set fs name vfile h = (h', Ret tt) /\
    virtualFileDescriptor_Read h' r p =
    if fd_readPos r <=? Z.of_nat (length (Content vfile)) then
      let k := Nat.min (length p)
                 (length (Content vfile) - Z.to_nat (fd_readPos r)) in
      Ret ({| fd_node := fd_node r; fd_readPos := fd_readPos r + Z.of_nat k |},
           (take k (drop (Z.to_nat (fd_readPos r)) (Content vfile))
            ++ drop k p)%list,
           Z.of_nat k,
           if Z.of_nat k =? 0 then Some EOF else None)
    else Panicked (PanicRuntime SliceBounds).
Proof.
  intros Hreg Hfind Hcur Hdir Hp Hpos.
  assert (Hok : Set_mode_ok vfile = true).
  { destruct vfile as [C m E]. apply mode_ok_regular. exact Hreg. }
  pose proof (regular_not_dir _ Hreg) as Hvd.
  eexists. split.
  { apply (Set_updates_found_node fs name vfile h (fd_node r) cur Hok Hfind Hcur).
    congruence. }
  rewrite Hvd.
  set (nd := {| node_err := Error vfile; node_extra := ExtraBytes (Content vfile);
                node_mode := Mode vfile; node_name := node_name cur |}).
  assert (Hn : <[fd_node r := nd]> h !! fd_node r = Some nd).
  { apply list_lookup_insert_eq. eapply lookup_lt_Some; eauto. }
  destruct (fd_readPos r <=? Z.of_nat (length (Content vfile))) eqn:Hle.
  - apply Z.leb_le in Hle.
    apply (Read_regular _ nd (Content vfile) Hreg eq_refl r p Hn Hp). lia.
  - unfold virtualFileDescriptor_Read, deref. rewrite Hn. cbn [go_bind].
    change (node_mode nd) with (Mode vfile). rewrite Hreg. cbn [negb].
    replace (Z.of_nat (length p) >? 0) with true.
    2:{ symmetry. apply Z.gtb_lt. destruct p; [congruence|simpl; lia]. }
    cbn [nd node_extra assert_bytes go_bind]. rewrite Hle, andb_false_r.
    reflexivity.
Qed.

Lemma Read_after_Set_witness :
  let h := file_a_b (bytes "0123456789") 0 None in
  let r := {| fd_node := 2%nat; fd_readPos := 10 |} in
  FileMode_IsRegular (Mode (regular_file "abc")) = true /\
  VirtualFileSystem_find h fs0 "/a/b" true false = Ret (fd_node r, "", None) /\
  exists h',
    VirtualFileSystem_Set fs0 "/a/b" (regular_file "abc") h = (h', Ret tt) /\
    virtualFileDescriptor_Read h' r (bytes "xy")
    = Panicked (PanicRuntime SliceBounds).
Proof.
  intros h r. split; [reflexivity|]. split; [reflexivity|].
  apply (Read_after_Set h fs0 "/a/b" (regular_file "abc") r
           {| node_err := None; node_extra := ExtraBytes (bytes "0123456789");
              node_mode := 0; node_name := "b" |} (bytes "xy"));
    try reflexivity; [discriminate|unfold r; simpl; lia].
Defined.

(** ** The errors that a lookup returns *)

Section ErrorKinds.

Variable h : store.

Lemma body_error_kinds (f g : findHelper) (e : error) :
  findHelper_run_body h f = Ret (g, Some e) ->
  f_n g = f_n f /\
  (e = ENOTDIR \/ e = ErrNotExist \/ e = errTooManyLinks \/
   (f_ignoreInjectedFaults f = false /\
    exists nd, h !! f_n f = Some nd /\ node_err nd = Some e)).
Proof.
  unfold findHelper_run_body, findHelper_injectedFault, deref.
  destruct (f_ignoreInjectedFaults f) eqn:Hign; cbn [go_bind].
  2:{ destruct (h !! f_n f) as [cur|] eqn:Hn; cbn [go_bind]; [|discriminate].
      destruct (node_err cur) as [e0|] eqn:He.
      { intros [= <- <-]. split; [reflexivity|]. right. right. right. eauto. }
      revert Hn He. generalize cur. clear cur. intros cur Hn He.
      rewrite getNameComp_first, updateNameRem_after.
      unfold findHelper_getChildN.
      destruct (str_is_empty _); cbn [go_bind]; [discriminate|].
      destruct (validateNameComp _); cbn [go_bind]; try discriminate.
      unfold deref. rewrite Hn. cbn [go_bind].
      destruct (Z.land (node_mode cur) ModeDir =? 0).
      { intros [= <- <-]. auto. }
      destruct (dirLookup h cur _) as [[k|]| |]; cbn [go_bind]; try discriminate.
      2:{ intros [= <- <-]. auto. }
      unfold findHelper_updateFromChildN.
      destruct (deref h k) as [c| |]; cbn [go_bind]; try discriminate.
      destruct (negb _); [|discriminate].
      destruct (f_resolveSymlinks _); [|discriminate].
      cbn [set_links f_links].
      destruct (_ >? 255); [intros [= <- <-]; auto|].
      destruct (assert_bytes _) as [[|b t]| |]; cbn [go_bind]; try discriminate.
      destruct (Byte.eqb b Byte.x2f); discriminate. }
  rewrite getNameComp_first, updateNameRem_after.
  unfold findHelper_getChildN.
  destruct (str_is_empty _); cbn [go_bind]; [discriminate|].
  destruct (validateNameComp _); cbn [go_bind]; try discriminate.
  unfold deref.
  destruct (h !! f_n f) as [cur|] eqn:Hn; cbn [go_bind]; [|discriminate].
  destruct (Z.land (node_mode cur) ModeDir =? 0).
  { intros [= <- <-]. auto. }
  destruct (dirLookup h cur _) as [[k|]| |]; cbn [go_bind]; try discriminate.
  2:{ intros [= <- <-]. auto. }
  unfold findHelper_updateFromChildN.
  destruct (deref h k) as [c| |]; cbn [go_bind]; try discriminate.
  destruct (negb _); [|discriminate].
  destruct (f_resolveSymlinks _); [|discriminate].
  cbn [set_links f_links].
  destruct (_ >? 255); [intros [= <- <-]; auto|].
  destruct (assert_bytes _) as [[|b t]| |]; cbn [go_bind]; try discriminate.
  destruct (Byte.eqb b Byte.x2f); discriminate.
Qed.

Lemma run_loop_error_kinds (fuel : nat) :
  forall (f g : findHelper) (e : error),
    findHelper_run_loop fuel h f = Ret (g, Some e) ->
    e = ENOTDIR \/ e = ErrNotExist \/ e = errTooManyLinks \/
    (f_ignoreInjectedFaults f = false /\
     exists nd, h !! f_n g = Some nd /\ node_err nd = Some e).
Proof.
  induction fuel as [|fuel IH]; intros f g e Hr; [discriminate|].
  simpl in Hr. destruct (str_is_empty (f_nameRem f)).
  - unfold findHelper_run_exit, findHelper_injectedFault, deref in Hr.
    destruct (f_ignoreInjectedFaults f); cbn [go_bind] in Hr; [discriminate|].
    destruct (h !! f_n f) as [cur|] eqn:Hn; cbn [go_bind] in Hr; [|discriminate].
    injection Hr as <- He. right. right. right. eauto.
  - destruct (findHelper_run_body h f) as [[f1 [e1|]]| |] eqn:Hb;
      cbn [go_bind] in Hr; try discriminate.
    + injection Hr as <- <-.
      destruct (body_error_kinds f f1 e1 Hb) as [Hn H]. rewrite Hn. exact H.
    + destruct (body_frame h f f1 None Hb) as (_ & Hi & _).
      rewrite <- Hi. apply (IH f1 g e Hr).
Qed.

End ErrorKinds.

(** X18.  The errors of [Stat] and [Open]: when [Stat] returns an error it
    returns no node, [Open] returns the same error and no descriptor, and
    the error is [ENOTDIR], [os.ErrNotExist], the too-many-links error or
    the injected error of a node of the store. *)
Theorem Stat_Open_errors (h : store) (fs : VirtualFileSystem) (name : string)
    (x : option ptr) (e : error) :
  VirtualFileSystem_Stat h fs name = Ret (x, Some e) ->
  x = None /\
  VirtualFileSystem_Open h fs name = Ret (None, Some e) /\
  (e = ENOTDIR \/ e = ErrNotExist \/ e = errTooManyLinks \/
   exists n nd, h !! n = Some nd /\ node_err nd = Some e).
Proof.
  unfold VirtualFileSystem_Stat, VirtualFileSystem_Open, VirtualFileSystem_find.
  destruct (slice_from_checked _ 1) as [s| |]; cbn [go_bind]; try discriminate.
  destruct (findHelper_run h _) as [[g [e0|]]| |] eqn:Hr; cbn [go_bind];
    try discriminate.
  intros [= <- <-]. split; [reflexivity|]. split; [reflexivity|].
  destruct (run_loop_error_kinds h _ _ g e0 Hr) as [H|[H|[H|(_ & nd & H)]]];
    auto.
  right. right. right. eauto.
Qed.

Lemma Stat_Open_errors_witness :
  let h := file_a_b (bytes "data") 0 (Some (Custom "boom")) in
  VirtualFileSystem_Stat h fs0 "/a/b" = Ret (None, Some (Custom "boom")) /\
  @None ptr = None /\
  VirtualFileSystem_Open h fs0 "/a/b" = Ret (None, Some (Custom "boom")) /\
  (Custom "boom" = ENOTDIR \/ Custom "boom" = ErrNotExist \/
   Custom "boom" = errTooManyLinks \/
   exists n nd, h !! n = Some nd /\ node_err nd = Some (Custom "boom")).
Proof.
  intros h. split; [reflexivity|].
  apply (Stat_Open_errors h fs0 "/a/b" None (Custom "boom")). reflexivity.
Defined.

(** ** Every call ends *)

(** X19.  The resolver ends on every store, cyclic or ill-formed ones
    included: the loop of [run] is over after at most [run_fuel] iterations
    (more fuel changes nothing), so that [find], [Stat] and [Open] always
    return or panic. *)
Theorem resolver_always_ends (h : store) (fs : VirtualFileSystem)
    (name : string) (ign res : bool) (f : findHelper) (fuel : nat) :
  findHelper_run h f <> OutOfFuel /\
  findHelper_run_loop (run_fuel h f + fuel) h f = findHelper_run h f /\
  VirtualFileSystem_find h fs name ign res <> OutOfFuel /\
  VirtualFileSystem_Stat h fs name <> OutOfFuel /\
  VirtualFileSystem_Open h fs name <> OutOfFuel.
Proof.
  split; [apply run_fueled|].
  split; [apply run_loop_mono; [lia|apply run_fueled]|].
  split; [apply find_fueled|].
  pose proof (find_fueled h fs name false true) as H.
  unfold VirtualFileSystem_Stat, VirtualFileSystem_Open.
  destruct (VirtualFileSystem_find h fs name false true)
    as [[[n s] [e| ]]|v| ]; cbn [go_bind]; split; congruence.
Qed.

Lemma Set_all_fueled (fs : VirtualFileSystem) (data : list (string * VirtualFile)) :
  forall h : store, snd (Set_all fs data h) <> OutOfFuel.
Proof.
  induction data as [|[name vfile] data IH]; intros h; [discriminate|].
  cbn [Set_all]. unfold st_bind.
  pose proof (Set_terminates fs name vfile h) as H.
  destruct (VirtualFileSystem_Set fs name vfile h) as [h1 [[]|v| ]];
    cbn [snd] in *; [apply IH|discriminate|congruence].
Qed.

(** X20.  The calls that build the tree end on every store: the loop of
    [createChildren] is over after at most one iteration per byte of the
    path and one more, and [Set] and [NewVirtualFileSystem] always return
    or panic. *)
Theorem Set_always_ends (fs : VirtualFileSystem) (name : string)
    (vfile : VirtualFile) (n : ptr) (data : list (string * VirtualFile))
    (h : store) :
  snd (VirtualFileSystem_createChildren fs n name vfile h) <> OutOfFuel /\
  snd (VirtualFileSystem_Set fs name vfile h) <> OutOfFuel /\
  snd (NewVirtualFileSystem data h) <> OutOfFuel.
Proof.
  split; [apply createChildren_fueled; lia|].
  split; [apply Set_terminates|].
  unfold NewVirtualFileSystem, st_bind, st_new, st_ret.
  pose proof (Set_all_fueled {| cwd := "/"; root := length h |} data
                (h ++ [newDirNode 0 "/"])%list) as H.
  destruct (Set_all _ data _) as [h1 [[]|v| ]]; cbn [snd] in *; congruence.
Qed.

(** ** A panic of [Set] after a directory has been made *)

Lemma first_comp_app (c r : string) :
  IndexByte c "/" < 0 ->
  first_comp (c ++ "/" ++ r) = c /\ after_first (c ++ "/" ++ r) = r /\
  (IndexByte (c ++ "/" ++ r) "/" <? 0) = false.
Proof.
  intros Hc. unfold first_comp, after_first.
  rewrite (IndexByte_app_slash c r Hc).
  replace (Z.of_nat (String.length c) <? 0) with false by (symmetry; apply Z.ltb_ge; lia).
  split; [apply slice_to_app_slash|]. split; [apply slice_from_app_slash|reflexivity].
Qed.

Lemma first_comp_alone (c : string) :
  IndexByte c "/" < 0 ->
  first_comp c = c /\ after_first c = "" /\ (IndexByte c "/" <? 0) = true.
Proof.
  intros Hc. unfold first_comp, after_first.
  replace (IndexByte c "/" <? 0) with true by (symmetry; apply Z.ltb_lt; exact Hc).
  auto.
Qed.

(** X21.  A panic of [Set] can leave a part of its work behind: for a name
    made of an ordinary component [c] followed by [.] or [..], [Set] on a
    new file system makes the directory [c] and then panics in
    [validateNameComp]; [Stat] of [/c], which failed before the call,
    succeeds after it. *)
Theorem Set_dot_panic_keeps_directory (c d : string) (vfile : VirtualFile) :
  valid_comp c ->
  is_dot_comp d = true ->
  Set_mode_ok vfile = true ->
  let h' := [with_child (newDirNode 0 "/") [] 1; newDirNode ModeDir c] in
  VirtualFileSystem_Set fs0 (String "/" (c ++ "/" ++ d)) vfile new_store
  = (h', Panicked (PanicError errNameComp)) /\
  VirtualFileSystem_Stat new_store fs0 (String "/" c)
  = Ret (None, Some ErrNotExist) /\
  VirtualFileSystem_Stat h' fs0 (String "/" c) = Ret (Some 1%nat, None).
Proof.
  intros (Hne & Hns & Hnd) Hd Hok h'.
  destruct (first_comp_app c d Hns) as (Hfc & Haf & Hlt).
  destruct (first_comp_alone c Hns) as (Hfc1 & _ & _).
  assert (Hcne : forall r, str_is_empty (c ++ r) = false).
  { intros r. destruct c; [discriminate Hne|reflexivity]. }
  assert (Hbody : forall (s : string) (ign res : bool),
            first_comp s = c -> str_is_empty s = false ->
            findHelper_run new_store (find_start fs0 s ign res)
            = Ret (find_start fs0 s ign res, Some ErrNotExist)).
  { intros s ign res Hs Hse. rewrite run_unfold.
    cbn [find_start f_nameRem]. rewrite Hse.
    rewrite (body_head new_store _ (newDirNode 0 "/"));
      cbn [find_start f_nameRem f_n fs0 root]; rewrite ?Hs; auto.
    unfold findHelper_injectedFault. destruct ign; reflexivity. }
  split; [|split].
  - rewrite Set_unfold, Hok. cbn [negb]. unfold VirtualFileSystem_find.
    change (VirtualFileSystem_abs fs0 (String "/" (c ++ "/" ++ d)))
      with (String "/" (c ++ "/" ++ d)).
    rewrite slice_from_checked_1. cbn [go_bind].
    rewrite (Hbody _ true false Hfc (Hcne _)).
    cbn [go_bind find_start f_n f_nameRem error_is error_eqb].
    rewrite (Hcne _). cbn [negb].
    unfold VirtualFileSystem_createChildren.
    rewrite createChildren_step, Hfc, Hne, Hnd, Hlt, Haf.
    rewrite dirAppend_cases. change (root fs0) with O.
    cbn [new_store app lookup list_lookup length].
    change (newDirNode 0 "/" :: [newDirNode ModeDir c]) with
      [newDirNode 0 "/"; newDirNode ModeDir c].
    cbn [newDirNode node_extra insert list_insert].
    rewrite length_str_app. cbn [String.length append].
    rewrite Nat.add_succ_r, createChildren_step.
    apply orb_prop in Hd.
    destruct Hd as [Hd|Hd]; apply String.eqb_eq in Hd; subst d; reflexivity.
  - unfold VirtualFileSystem_Stat, VirtualFileSystem_find.
    change (VirtualFileSystem_abs fs0 (String "/" c)) with (String "/" c).
    rewrite slice_from_checked_1. cbn [go_bind].
    rewrite (Hbody c false true Hfc1 Hne). reflexivity.
  - destruct (new_entry_resolves c [] (directory None)) as (_ & _ & Hfind).
    { constructor; [repeat split; auto|constructor]. }
    { reflexivity. }
    { reflexivity. }
    unfold VirtualFileSystem_Stat.
    specialize (Hfind false true). cbn [join_slash length chain_nodes] in Hfind.
    change (leaf_node c (directory None)) with (newDirNode ModeDir c) in Hfind.
    fold h' in Hfind. rewrite Hfind. reflexivity.
Qed.

Lemma Set_dot_panic_keeps_directory_witness :
  valid_comp "a" /\
  is_dot_comp ".." = true /\
  Set_mode_ok (regular_file "x") = true /\
  VirtualFileSystem_Set fs0 "/a/.." (regular_file "x") new_store
  = ([with_child (newDirNode 0 "/") [] 1; newDirNode ModeDir "a"],
     Panicked (PanicError errNameComp)) /\
  VirtualFileSystem_Stat new_store fs0 "/a" = Ret (None, Some ErrNotExist) /\
  VirtualFileSystem_Stat [with_child (newDirNode 0 "/") [] 1; newDirNode ModeDir "a"]
    fs0 "/a" = Ret (Some 1%nat, None).
Proof.
  assert (Hv : valid_comp "a") by (repeat split; reflexivity).
  split; [exact Hv|]. split; [reflexivity|]. split; [reflexivity|].
  apply (Set_dot_panic_keeps_directory "a" ".." (regular_file "x") Hv);
    reflexivity.
Defined.

(** ** The lookup after [Set] has made an entry *)

Section Grows.

Variables h h' : store.
Hypothesis Hg : store_grows h h'.

Lemma deref_grows (p : ptr) (nd : node) :
  deref h p = Ret nd -> exists nd', deref h' p = Ret nd' /\ node_grows nd nd'.
Proof using Hg.
  unfold deref. destruct (h !! p) as [x|] eqn:Hp; [|discriminate].
  intros [= <-]. destruct (Hg p x Hp) as (nd' & -> & H). eauto.
Qed.

Lemma dirLookup_children_grows_some (d more : list ptr) (c : string) (k : ptr) :
  dirLookup_children h d c = Ret (Some k) ->
  dirLookup_children h' (d ++ more) c = Ret (Some k).
Proof using Hg.
  induction d as [|k0 d IH]; [discriminate|].
  cbn [dirLookup_children app].
  destruct (deref h k0) as [x| |] eqn:Hx; cbn [go_bind]; try discriminate.
  destruct (deref_grows k0 x Hx) as (x' & -> & (Hn & _)). cbn [go_bind].
  rewrite Hn. destruct (String.eqb (node_name x) c); [auto|exact IH].
Qed.

Lemma dirLookup_children_grows_none (d more : list ptr) (c : string) :
  dirLookup_children h d c = Ret None ->
  dirLookup_children h' (d ++ more) c = dirLookup_children h' more c.
Proof using Hg.
  induction d as [|k0 d IH]; [reflexivity|].
  cbn [dirLookup_children app].
  destruct (deref h k0) as [x| |] eqn:Hx; cbn [go_bind]; try discriminate.
  destruct (deref_grows k0 x Hx) as (x' & -> & (Hn & _)). cbn [go_bind].
  rewrite Hn. destruct (String.eqb (node_name x) c); [discriminate|exact IH].
Qed.

Lemma injectedFault_grows (f : findHelper) (x : option error) :
  findHelper_injectedFault h f = Ret x ->
  findHelper_injectedFault h' f = Ret x.
Proof using Hg.
  unfold findHelper_injectedFault.
  destruct (f_ignoreInjectedFaults f); [auto|].
  destruct (deref h (f_n f)) as [cur| |] eqn:Hc; cbn [go_bind]; try discriminate.
  destruct (deref_grows _ cur Hc) as (cur' & -> & (_ & _ & He & _)).
  cbn [go_bind]. now rewrite He.
Qed.

Lemma getChildN_grows (f : findHelper) (c : string) (k : option ptr) :
  findHelper_getChildN h f c = Ret (k, None) ->
  findHelper_getChildN h' f c = Ret (k, None).
Proof using Hg.
  unfold findHelper_getChildN.
  destruct (str_is_empty c); [auto|].
  destruct (validateNameComp c); cbn [go_bind]; try discriminate.
  destruct (deref h (f_n f)) as [cur| |] eqn:Hc; cbn [go_bind]; try discriminate.
  destruct (deref_grows _ cur Hc) as (cur' & -> & (_ & Hm & _ & Hx)).
  cbn [go_bind]. rewrite Hm.
  destruct (Z.land (node_mode cur) ModeDir =? 0); [discriminate|].
  unfold dirLookup.
  destruct (node_extra cur) as [b|d]; cbn [assert_dir go_bind]; [discriminate|].
  destruct Hx as [more ->]. cbn [assert_dir go_bind].
  destruct (dirLookup_children h d c) as [[k0|]| |] eqn:Hl; cbn [go_bind];
    try discriminate.
  intros [= <-]. now rewrite (dirLookup_children_grows_some d more c k0 Hl).
Qed.

Lemma updateFromChildN_grows (f g : findHelper) (k : ptr) (e : option error) :
  findHelper_updateFromChildN h f k = Ret (g, e) ->
  findHelper_updateFromChildN h' f k = Ret (g, e).
Proof using Hg.
  unfold findHelper_updateFromChildN.
  destruct (deref h k) as [child| |] eqn:Hc; cbn [go_bind]; try discriminate.
  destruct (deref_grows _ child Hc) as (child' & -> & (_ & Hm & _ & Hx)).
  cbn [go_bind]. rewrite Hm.
  destruct (negb _); [|auto].
  destruct (f_resolveSymlinks f); [|auto].
  cbn [set_links f_links]. destruct (_ >? 255); [auto|].
  destruct (node_extra child) as [b|d]; cbn [assert_bytes go_bind]; [|discriminate].
  rewrite Hx. auto.
Qed.

Lemma body_grows (f g : findHelper) :
  findHelper_run_body h f = Ret (g, None) ->
  findHelper_run_body h' f = Ret (g, None).
Proof using Hg.
  unfold findHelper_run_body.
  destruct (findHelper_injectedFault h f) as [[e|]| |] eqn:Hf; cbn [go_bind];
    try discriminate.
  rewrite (injectedFault_grows f None Hf). cbn [go_bind].
  destruct (findHelper_getChildN h f _) as [[k [e|]]| |] eqn:Hc; cbn [go_bind];
    try discriminate.
  rewrite (getChildN_grows f _ k Hc). cbn [go_bind].
  destruct k as [k|]; [|auto].
  apply updateFromChildN_grows.
Qed.

Lemma run_reaches_grows (f g : findHelper) :
  run_reaches h f g -> run_reaches h' f g.
Proof using Hg.
  induction 1 as [f|f f1 f2 He Hb _ IH]; [constructor|].
  eapply run_reaches_step; [exact He|apply body_grows; exact Hb|exact IH].
Qed.

End Grows.

(** The lookup of [Set] stands, when it fails, at the head of the iteration
    that failed. *)
Lemma run_loop_lookup_reaches (h : store) (fuel : nat) :
  forall (f g : findHelper) (e : error),
    f_ignoreInjectedFaults f = true ->
    f_resolveSymlinks f = false ->
    findHelper_run_loop fuel h f = Ret (g, Some e) ->
    run_reaches h f g.
Proof.
  induction fuel as [|fuel IH]; intros f g e Hign Hres Hr; [discriminate|].
  simpl in Hr. destruct (str_is_empty (f_nameRem f)) eqn:He.
  - unfold findHelper_run_exit, findHelper_injectedFault in Hr.
    rewrite Hign in Hr. discriminate.
  - destruct (findHelper_run_body h f) as [[f1 [e1| ]]| |] eqn:Hb;
      cbn [go_bind] in Hr; try discriminate.
    + injection Hr as <- <-.
      destruct (body_lookup h f f1 e1 Hres Hb Hign) as (-> & _). constructor.
    + destruct (body_frame h f f1 None Hb) as (_ & H1 & H2).
      eapply run_reaches_step; [exact He|exact Hb|].
      apply (IH f1 g e); congruence.
Qed.

Lemma store_grows_append (h : store) (n : ptr) (nd : node) (dir : list ptr)
    (l : list node) :
  h !! n = Some nd ->
  node_extra nd = ExtraDir dir ->
  store_grows h (<[n := with_child nd dir (length h)]> h ++ l)%list.
Proof.
  intros Hn Hx p x Hp.
  assert (Hlt : (p < length h)%nat) by (eapply lookup_lt_Some; eauto).
  rewrite lookup_app_l by (rewrite length_insert; exact Hlt).
  destruct (Nat.eq_dec p n) as [->|Hne].
  - rewrite list_lookup_insert_eq by exact Hlt.
    eexists. split; [reflexivity|].
    rewrite Hn in Hp. injection Hp as <-.
    repeat split. rewrite Hx. cbn [with_child node_extra]. eauto.
  - rewrite list_lookup_insert_ne by congruence.
    exists x. split; [exact Hp|]. repeat split.
    destruct (node_extra x); [reflexivity|]. exists []. now rewrite app_nil_r.
Qed.


(** *** A new entry, and then [Stat] or another [Set] *)

Lemma body_error_state (h : store) (f g : findHelper) (e : error) :
  findHelper_run_body h f = Ret (g, Some e) ->
  e <> errTooManyLinks ->
  g = f.
Proof.
  unfold findHelper_run_body.
  destruct (findHelper_injectedFault h f) as [[e0| ]| |]; cbn [go_bind];
    try discriminate.
  { intros [= <- _] _. reflexivity. }
  destruct (findHelper_getChildN h f _) as [[k [e0| ]]| |]; cbn [go_bind];
    try discriminate.
  { intros [= <- _] _. reflexivity. }
  destruct k as [k| ]; [|discriminate].
  unfold findHelper_updateFromChildN.
  destruct (deref h k) as [c| |]; cbn [go_bind]; try discriminate.
  destruct (negb _); [|discriminate].
  destruct (f_resolveSymlinks _); [|discriminate].
  cbn [set_links f_links].
  destruct (_ >? 255); [intros [= _ <-] H; congruence|].
  destruct (assert_bytes _) as [[|b t]| |]; cbn [go_bind]; try discriminate.
  destruct (Byte.eqb b Byte.x2f); discriminate.
Qed.

(** A walk that fails with another error than the too-many-links error
    stands at the head of the iteration that failed. *)
Lemma run_loop_error_reaches (h : store) (fuel : nat) :
  forall (f g : findHelper) (e : error),
    e <> errTooManyLinks ->
    findHelper_run_loop fuel h f = Ret (g, Some e) ->
    run_reaches h f g.
Proof.
  induction fuel as [|fuel IH]; intros f g e Hne Hr; [discriminate|].
  simpl in Hr. destruct (str_is_empty (f_nameRem f)) eqn:He.
  - unfold findHelper_run_exit in Hr.
    destruct (findHelper_injectedFault h f) as [x| |]; cbn [go_bind] in Hr;
      try discriminate.
    injection Hr as <- _. constructor.
  - destruct (findHelper_run_body h f) as [[f1 [e1| ]]| |] eqn:Hb;
      cbn [go_bind] in Hr; try discriminate.
    + injection Hr as <- <-.
      rewrite (body_error_state h f f1 e1 Hb Hne). constructor.
    + eapply run_reaches_step; [exact He|exact Hb|].
      apply (IH f1 g e Hne Hr).
Qed.

Section NewEntry.

Variables (h : store) (fs : VirtualFileSystem) (name c : string)
          (cs : list string) (vfile : VirtualFile) (n : ptr).

Hypothesis Hok : Set_mode_ok vfile = true.
Hypothesis Hl : Z.land (Mode vfile) ModeSymlink = 0.
Hypothesis Hv : Forall valid_comp (c :: cs).
Hypothesis Hfind : VirtualFileSystem_find h fs name true false
                   = Ret (n, join_slash (c :: cs), Some ErrNotExist).

(** The store that [Set] leaves, and the walk of the same name in it. *)
Lemma new_entry_store :
  exists (nd : node) (dir : list ptr),
    let h' := (<[n := with_child nd dir (length h)]> h
               ++ chain_nodes (length h) (c :: cs) vfile)%list in
    h !! n = Some nd /\
    VirtualFileSystem_Set fs name vfile h = (h', Ret tt) /\
    h' !! (length h + length cs)%nat = Some (leaf_node (List.last cs c) vfile) /\
    forall (ign res : bool) (g : findHelper) (x : string),
      slice_from_checked (VirtualFileSystem_abs fs name) 1 = Ret x ->
      run_reaches h (find_start fs x ign res) g ->
      f_n g = n ->
      f_nameRem g = join_slash (c :: cs) ->
      ign = true \/ node_err nd = None ->
      VirtualFileSystem_find h' fs name ign res
      = Ret ((length h + length cs)%nat, "", if ign then None else Error vfile).
Proof using Hok Hl Hv Hfind.
  pose proof (find_lookup_outcomes h fs name _ n _ Hfind) as Hout.
  destruct Hout as (Hne & nd & Hn & [[Hc _]|(_ & Hm & dir & Hx & Hlook)]);
    [discriminate|].
  assert (Hfc : first_comp (join_slash (c :: cs)) = c).
  { pose proof (Forall_inv Hv) as Hvc.
    destruct (join_slash_cut c cs Hvc) as [H _]. exact H. }
  rewrite Hfc in Hlook.
  exists nd, dir. intros h'.
  assert (Hchain : forall i x, chain_nodes (length h) (c :: cs) vfile !! i = Some x ->
                               h' !! (length h + i)%nat = Some x).
  { intros i x Hi. unfold h'.
    rewrite lookup_app_r by (rewrite length_insert; lia).
    rewrite length_insert. replace (length h + i - length h)%nat with i by lia.
    exact Hi. }
  split; [exact Hn|]. split; [|split].
  - rewrite Set_unfold, Hok, Hfind. cbn [negb error_is error_eqb].
    destruct (join_slash (c :: cs)) as [|a s] eqn:Hj; [congruence|].
    cbn [str_is_empty negb]. rewrite <- Hj.
    unfold VirtualFileSystem_createChildren.
    apply (createChildren_chain vfile cs c _ n h nd dir Hv); auto.
  - apply Hchain. apply chain_nodes_last.
  - intros ign res g x Hx' Hreach Hgn Hgs Herr.
    unfold VirtualFileSystem_find. rewrite Hx'. cbn [go_bind].
    pose proof (store_grows_append h n nd dir
                  (chain_nodes (length h) (c :: cs) vfile) Hn Hx) as Hgrow.
    fold h' in Hgrow.
    rewrite (run_reaches_run h' _ g (run_reaches_grows h h' Hgrow _ g Hreach)).
    destruct (run_reaches_frame h _ g Hreach) as (_ & Hign & _).
    cbn [find_start f_ignoreInjectedFaults] in Hign.
    assert (Hn' : h' !! f_n g = Some (with_child nd dir (length h))).
    { rewrite Hgn. unfold h'.
      rewrite lookup_app_l by (rewrite length_insert; eapply lookup_lt_Some; eauto).
      apply list_lookup_insert_eq. eapply lookup_lt_Some; eauto. }
    rewrite (run_chain h' vfile Hl cs c (length h) g
               (with_child nd dir (length h)) (dir ++ [length h]) Hv Hgs).
    + rewrite Hign. reflexivity.
    + rewrite Hign. exact Herr.
    + exact Hn'.
    + cbn [with_child node_mode]. now apply Z.eqb_neq.
    + reflexivity.
    + rewrite (dirLookup_children_grows_none h h' Hgrow dir [length h] c Hlook).
      cbn [dirLookup_children]. unfold deref.
      destruct (chain_nodes_head (length h) c cs vfile) as (x0 & Hx0 & Hxn & _).
      pose proof (Hchain O x0 Hx0) as H0. rewrite Nat.add_0_r in H0.
      rewrite H0. cbn [go_bind]. rewrite Hxn, String.eqb_refl. reflexivity.
    + exact Hchain.
Qed.

End NewEntry.

Lemma length_chain_nodes (vfile : VirtualFile) (cs : list string) :
  forall (c : string) (k : nat),
    length (chain_nodes k (c :: cs) vfile) = S (length cs).
Proof.
  induction cs as [|c' cs IH]; intros c k; [reflexivity|].
  cbn [chain_nodes length]. f_equal. apply IH.
Qed.

Lemma find_reaches (h : store) (fs : VirtualFileSystem) (name nameRem : string)
    (ign res : bool) (n : ptr) (e : error) :
  e <> errTooManyLinks ->
  VirtualFileSystem_find h fs name ign res = Ret (n, nameRem, Some e) ->
  exists (x : string) (g : findHelper),
    slice_from_checked (VirtualFileSystem_abs fs name) 1 = Ret x /\
    run_reaches h (find_start fs x ign res) g /\
    f_n g = n /\ f_nameRem g = nameRem.
Proof.
  intros Hne. unfold VirtualFileSystem_find.
  destruct (slice_from_checked _ 1) as [x| |]; cbn [go_bind]; try discriminate.
  destruct (findHelper_run h _) as [[g e0]| |] eqn:Hr; cbn [go_bind];
    try discriminate.
  intros [= <- <- ->]. exists x, g. split; [reflexivity|].
  split; [|auto]. apply (run_loop_error_reaches h _ _ g e Hne Hr).
Qed.

(** X22.  When the lookup of [Set] stops, with [os.ErrNotExist], in front
    of a path of ordinary components, [Set] with a descriptor that is not a
    symlink returns after making one node per component, the entry itself
    last; the same lookup then finds the entry, and a second [Set] with the
    same arguments leaves the store as it is. *)
Theorem Set_creates_then_finds (h : store) (fs : VirtualFileSystem)
    (name c : string) (cs : list string) (vfile : VirtualFile) (n : ptr) :
  Set_mode_ok vfile = true ->
  Z.land (Mode vfile) ModeSymlink = 0 ->
  Forall valid_comp (c :: cs) ->
  VirtualFileSystem_find h fs name true false
  = Ret (n, join_slash (c :: cs), Some ErrNotExist) ->
  exists h',
    VirtualFileSystem_Set fs name vfile h = (h', Ret tt) /\
    length h' = (length h + S (length cs))%nat /\
    h' !! (length h + length cs)%nat = Some (leaf_node (List.last cs c) vfile) /\
    VirtualFileSystem_find h' fs name true false
    = Ret ((length h + length cs)%nat, "", None) /\
    VirtualFileSystem_Set fs name vfile h' = (h', Ret tt).
Proof.
  intros Hok Hl Hv Hfind.
  destruct (new_entry_store h fs name c cs vfile n Hok Hl Hv Hfind)
    as (nd & dir & Hn & Hset & Hleaf & Hwalk).
  destruct (find_reaches h fs name _ true false n ErrNotExist
              ltac:(discriminate) Hfind) as (x & g & Hx & Hreach & Hgn & Hgs).
  pose proof (Hwalk true false g x Hx Hreach Hgn Hgs (or_introl eq_refl)) as Hfind'.
  cbv iota in Hfind'.
  eexists. split; [exact Hset|]. split.
  { rewrite length_app, length_insert, length_chain_nodes. reflexivity. }
  split; [exact Hleaf|]. split; [exact Hfind'|].
  rewrite (Set_updates_found_node fs name vfile _ _
             (leaf_node (List.last cs c) vfile) Hok Hfind' Hleaf eq_refl).
  f_equal. apply list_insert_id. rewrite Hleaf. f_equal.
  unfold leaf_node, FileMode_IsDir. cbn [node_extra node_name].
  destruct (Z.land (Mode vfile) ModeDir =? 0); reflexivity.
Qed.

Lemma Set_creates_then_finds_witness :
  let h := file_a_b (bytes "data") 0 None in
  Set_mode_ok (regular_file "x") = true /\
  Z.land (Mode (regular_file "x")) ModeSymlink = 0 /\
  Forall valid_comp ["x"; "y"] /\
  VirtualFileSystem_find h fs0 "/a/x/y" true false
  = Ret (1%nat, join_slash ["x"; "y"], Some ErrNotExist) /\
  exists h',
    VirtualFileSystem_Set fs0 "/a/x/y" (regular_file "x") h = (h', Ret tt) /\
    length h' = (length h + S (length ["y"]))%nat /\
    h' !! (length h + length ["y"])%nat
    = Some (leaf_node (List.last ["y"] "x") (regular_file "x")) /\
    VirtualFileSystem_find h' fs0 "/a/x/y" true false
    = Ret ((length h + length ["y"])%nat, "", None) /\
    VirtualFileSystem_Set fs0 "/a/x/y" (regular_file "x") h' = (h', Ret tt).
Proof.
  intros h.
  assert (Hv : Forall valid_comp ["x"; "y"]).
  { repeat constructor. }
  split; [reflexivity|]. split; [reflexivity|]. split; [exact Hv|].
  split; [reflexivity|].
  apply (Set_creates_then_finds h fs0 "/a/x/y" "x" ["y"] (regular_file "x") 1%nat);
    try reflexivity. exact Hv.
Defined.

(** X23.  Creating an entry and then setting it again.  When the lookup
    of [Set] stops, with [os.ErrNotExist], in front of a path of ordinary
    components, and the descriptor passes the mode check and is not a
    symlink, [Set] returns after making the entry.  A second [Set] of that
    name, with any descriptor that passes the mode check, then replaces the
    mode, the injected error and, for a non-directory, the content of the
    entry (a directory keeps its empty child list), and keeps its name,
    when both descriptors are directories or both are not; otherwise it
    panics with the directory-disagreement error and changes nothing. *)
Theorem Set_creates_then_updates (h : store) (fs : VirtualFileSystem)
    (name c : string) (cs : list string) (vfile vfile' : VirtualFile) (n : ptr) :
  Set_mode_ok vfile = true ->
  Z.land (Mode vfile) ModeSymlink = 0 ->
  Forall valid_comp (c :: cs) ->
  VirtualFileSystem_find h fs name true false
  = Ret (n, join_slash (c :: cs), Some ErrNotExist) ->
  Set_mode_ok vfile' = true ->
  exists h',
    VirtualFileSystem_Set fs name vfile h = (h', Ret tt) /\
    VirtualFileSystem_Set fs name vfile' h' =
    if Bool.eqb (FileMode_IsDir (Mode vfile)) (FileMode_IsDir (Mode vfile'))
    then (<[(length h + length cs)%nat :=
              {| node_err := Error vfile';
                 node_extra := if FileMode_IsDir (Mode vfile') then ExtraDir []
                               else ExtraBytes (Content vfile');
                 node_mode := Mode vfile';
                 node_name := List.last cs c |}]> h',
          Ret tt)
    else (h', Panicked (PanicError errIsDirDisagreement)).
Proof.
  intros Hok Hl Hv Hfind Hok'.
  destruct (new_entry_store h fs name c cs vfile n Hok Hl Hv Hfind)
    as (nd & dir & Hn & Hset & Hleaf & Hwalk).
  destruct (find_reaches h fs name _ true false n ErrNotExist
              ltac:(discriminate) Hfind) as (x & g & Hx & Hreach & Hgn & Hgs).
  pose proof (Hwalk true false g x Hx Hreach Hgn Hgs (or_introl eq_refl)) as Hfind'.
  cbv iota in Hfind'.
  eexists. split; [exact Hset|].
  destruct (Bool.eqb _ _) eqn:Hagree.
  - apply Bool.eqb_prop in Hagree.
    rewrite (Set_updates_found_node fs name vfile' _ _
               (leaf_node (List.last cs c) vfile) Hok' Hfind' Hleaf Hagree).
    f_equal. f_equal. f_equal.
    unfold FileMode_IsDir in *. cbn [leaf_node node_extra node_name].
    destruct (Z.land (Mode vfile') ModeDir =? 0); cbn [negb] in *; [reflexivity|].
    destruct (Z.land (Mode vfile) ModeDir =? 0); [discriminate|reflexivity].
  - apply (Set_type_conflict fs name vfile' _ _
             (leaf_node (List.last cs c) vfile) Hok' Hfind' Hleaf).
    cbn [leaf_node node_mode]. intros E. rewrite E in Hagree.
    now rewrite Bool.eqb_reflx in Hagree.
Qed.

Lemma Set_creates_then_updates_witness :
  let h := file_a_b (bytes "data") 0 None in
  Set_mode_ok (regular_file "x") = true /\
  Forall valid_comp ["x"; "y"] /\
  VirtualFileSystem_find h fs0 "/a/x/y" true false
  = Ret (1%nat, join_slash ["x"; "y"], Some ErrNotExist) /\
  Set_mode_ok (directory None) = true /\
  exists h',
    VirtualFileSystem_Set fs0 "/a/x/y" (regular_file "x") h = (h', Ret tt) /\
    VirtualFileSystem_Set fs0 "/a/x/y" (directory None) h'
    = (h', Panicked (PanicError errIsDirDisagreement)).
Proof.
  intros h.
  assert (Hv : Forall valid_comp ["x"; "y"]).
  { repeat constructor. }
  split; [reflexivity|]. split; [exact Hv|]. split; [reflexivity|].
  split; [reflexivity|].
  apply (Set_creates_then_updates h fs0 "/a/x/y" "x" ["y"] (regular_file "x")
           (directory None) 1%nat); try reflexivity. exact Hv.
Defined.

(** X24.  [Set] and then [Stat]: when the lookup of [Set] and the lookup
    of [Stat] both stop with [os.ErrNotExist] at the same directory, which
    carries no injected error, in front of the same path of ordinary
    components, then after [Set] with a descriptor that is not a symlink
    [Stat] and [Open] of the name give the new entry, or the error injected
    with the descriptor. *)
Theorem Stat_after_Set (h : store) (fs : VirtualFileSystem)
    (name c : string) (cs : list string) (vfile : VirtualFile) (n : ptr) :
  Set_mode_ok vfile = true ->
  Z.land (Mode vfile) ModeSymlink = 0 ->
  Forall valid_comp (c :: cs) ->
  VirtualFileSystem_find h fs name true false
  = Ret (n, join_slash (c :: cs), Some ErrNotExist) ->
  VirtualFileSystem_find h fs name false true
  = Ret (n, join_slash (c :: cs), Some ErrNotExist) ->
  (forall nd, h !! n = Some nd -> node_err nd = None) ->
  exists h',
    VirtualFileSystem_Set fs name vfile h = (h', Ret tt) /\
    VirtualFileSystem_Stat h' fs name
    = Ret (match Error vfile with
           | Some e => (None, Some e)
           | None => (Some (length h + length cs)%nat, None)
           end) /\
    VirtualFileSystem_Open h' fs name
    = Ret (match Error vfile with
           | Some e => (None, Some e)
           | None => (Some {| fd_node := (length h + length cs)%nat;
                              fd_readPos := 0 |}, None)
           end).
Proof.
  intros Hok Hl Hv Hfind Hstat Herr.
  destruct (new_entry_store h fs name c cs vfile n Hok Hl Hv Hfind)
    as (nd & dir & Hn & Hset & Hleaf & Hwalk).
  destruct (find_reaches h fs name _ false true n ErrNotExist
              ltac:(discriminate) Hstat) as (x & g & Hx & Hreach & Hgn & Hgs).
  pose proof (Hwalk false true g x Hx Hreach Hgn Hgs (or_intror (Herr nd Hn)))
    as Hfind'.
  cbv iota in Hfind'.
  eexists. split; [exact Hset|].
  unfold VirtualFileSystem_Stat, VirtualFileSystem_Open. rewrite Hfind'.
  cbn [go_bind]. destruct (Error vfile); split; reflexivity.
Qed.

Lemma Stat_after_Set_witness :
  let h := file_a_b (bytes "data") 0 None in
  Forall valid_comp ["x"; "y"] /\
  VirtualFileSystem_find h fs0 "/a/x/y" true false
  = Ret (1%nat, join_slash ["x"; "y"], Some ErrNotExist) /\
  VirtualFileSystem_find h fs0 "/a/x/y" false true
  = Ret (1%nat, join_slash ["x"; "y"], Some ErrNotExist) /\
  exists h',
    VirtualFileSystem_Set fs0 "/a/x/y" (regular_file "x") h = (h', Ret tt) /\
    VirtualFileSystem_Stat h' fs0 "/a/x/y"
    = Ret (Some (length h + length ["y"])%nat, None) /\
    VirtualFileSystem_Open h' fs0 "/a/x/y"
    = Ret (Some {| fd_node := (length h + length ["y"])%nat; fd_readPos := 0 |},
           None).
Proof.
  intros h.
  assert (Hv : Forall valid_comp ["x"; "y"]).
  { repeat constructor. }
  split; [exact Hv|]. split; [reflexivity|]. split; [reflexivity|].
  apply (Stat_after_Set h fs0 "/a/x/y" "x" ["y"] (regular_file "x") 1%nat);
    try reflexivity; [exact Hv|].
  intros nd [= <-]. reflexivity.
Defined.

(** ** Resolving through a symlink *)

Section Shift.

Variable h : store.

Lemma updateNameRem_shift (f : findHelper) (d i : Z) :
  findHelper_updateNameRemFromSlashPos (shift_links d f) i
  = shift_links d (findHelper_updateNameRemFromSlashPos f i).
Proof.
  unfold findHelper_updateNameRemFromSlashPos. destruct (i <? 0); reflexivity.
Qed.

(** With more links followed beforehand, [updateFromChildN] does the same,
    or fails with the too-many-links error. *)
Lemma updateFromChildN_shift (f : findHelper) (k : ptr) (d : Z) :
  0 <= d ->
  (exists g', findHelper_updateFromChildN h (shift_links d f) k
              = Ret (g', Some errTooManyLinks)) \/
  match findHelper_updateFromChildN h f k with
  | Ret (g, e) =>
      findHelper_updateFromChildN h (shift_links d f) k = Ret (shift_links d g, e)
  | Panicked v => findHelper_updateFromChildN h (shift_links d f) k = Panicked v
  | OutOfFuel => True
  end.
Proof.
  intros Hd. unfold findHelper_updateFromChildN.
  destruct (deref h k) as [child| |]; cbn [go_bind]; auto.
  destruct (negb _); [|right; reflexivity].
  change (f_resolveSymlinks (shift_links d f)) with (f_resolveSymlinks f).
  destruct (f_resolveSymlinks f); [|right; reflexivity].
  cbn [set_links shift_links f_links].
  destruct (f_links f + d + 1 >? 255) eqn:Hb'; [left; eauto|].
  right.
  replace (f_links f + 1 >? 255) with false.
  2:{ symmetry. rewrite Z.gtb_ltb in *. apply Z.ltb_ge. apply Z.ltb_ge in Hb'. lia. }
  destruct (assert_bytes _) as [target| |]; cbn [go_bind]; auto.
  replace (f_links f + d + 1) with (f_links f + 1 + d) by lia.
  destruct target as [|b t]; [reflexivity|].
  destruct (Byte.eqb b Byte.x2f); reflexivity.
Qed.

Lemma body_shift_all (f : findHelper) (d : Z) :
  0 <= d ->
  (exists g', findHelper_run_body h (shift_links d f)
              = Ret (g', Some errTooManyLinks)) \/
  match findHelper_run_body h f with
  | Ret (g, e) => findHelper_run_body h (shift_links d f) = Ret (shift_links d g, e)
  | Panicked v => findHelper_run_body h (shift_links d f) = Panicked v
  | OutOfFuel => True
  end.
Proof.
  intros Hd. unfold findHelper_run_body.
  change (findHelper_injectedFault h (shift_links d f))
    with (findHelper_injectedFault h f).
  destruct (findHelper_injectedFault h f) as [[e|]| |]; cbn [go_bind]; auto.
  change (f_nameRem (shift_links d f)) with (f_nameRem f).
  change (findHelper_getNameComp (shift_links d f)) with (findHelper_getNameComp f).
  change (findHelper_getChildN h (shift_links d f)) with (findHelper_getChildN h f).
  destruct (findHelper_getChildN h f _) as [[k [e|]]| |]; cbn [go_bind]; auto.
  rewrite updateNameRem_shift.
  destruct k as [k|]; [|right; reflexivity].
  apply updateFromChildN_shift. exact Hd.
Qed.

Lemma Stat_of_shift_aux (d : Z) (n : nat) :
  0 <= d ->
  forall f : findHelper,
    (run_fuel h f <= n)%nat ->
    Stat_of (run_result (findHelper_run h (shift_links d f)))
    = Ret (None, Some errTooManyLinks) \/
    Stat_of (run_result (findHelper_run h (shift_links d f)))
    = Stat_of (run_result (findHelper_run h f)).
Proof.
  intros Hd. induction n as [|n IH]; intros f Hn.
  { pose proof (run_fuel_pos h f). lia. }
  rewrite (run_unfold h f), (run_unfold h (shift_links d f)).
  change (f_nameRem (shift_links d f)) with (f_nameRem f).
  destruct (str_is_empty (f_nameRem f)) eqn:He.
  - right. unfold findHelper_run_exit.
    change (findHelper_injectedFault h (shift_links d f))
      with (findHelper_injectedFault h f).
    destruct (findHelper_injectedFault h f) as [[e|]| |]; reflexivity.
  - destruct (body_shift_all f d Hd) as [[g' Hg]|H].
    { left. rewrite Hg. reflexivity. }
    destruct (findHelper_run_body h f) as [[g [e|]]| |] eqn:Hb.
    + right. rewrite H. reflexivity.
    + rewrite H. cbn [go_bind]. apply IH.
      pose proof (run_fuel_decreases h f g (nonempty_of_is_empty _ He) Hb). lia.
    + right. rewrite H. reflexivity.
    + exfalso. exact (run_body_fueled h f Hb).
Qed.

(** With more links followed beforehand the outcome of the walk is the
    same, or the too-many-links error. *)
Lemma Stat_of_shift (d : Z) (f : findHelper) :
  0 <= d ->
  Stat_of (run_result (findHelper_run h (shift_links d f)))
  = Ret (None, Some errTooManyLinks) \/
  Stat_of (run_result (findHelper_run h (shift_links d f)))
  = Stat_of (run_result (findHelper_run h f)).
Proof. intros Hd. apply (Stat_of_shift_aux d (run_fuel h f) Hd f). lia. Qed.

Lemma run_ok_links (n : nat) :
  forall f g : findHelper,
    (run_fuel h f <= n)%nat ->
    findHelper_run h f = Ret (g, None) ->
    f_links f <= f_links g.
Proof.
  induction n as [|n IH]; intros f g Hn Hr.
  { pose proof (run_fuel_pos h f). lia. }
  destruct (str_is_empty (f_nameRem f)) eqn:He.
  - rewrite run_unfold, He in Hr. apply run_exit_ok in Hr as [-> _]. lia.
  - destruct (run_step_ok h f g He Hr) as (f1 & Hb & Hr1).
    pose proof (run_fuel_decreases h f f1 (nonempty_of_is_empty _ He) Hb).
    pose proof (IH f1 g ltac:(lia) Hr1).
    destruct (body_links h f f1 He Hb) as [H1|[H1 _]]; lia.
Qed.

End Shift.

(** Where [Stat] of a name that resolves leaves the walk. *)
Lemma Stat_end (h : store) (fs : VirtualFileSystem) (p : string) (n : ptr) :
  cwd fs = "/" ->
  VirtualFileSystem_Stat h fs p = Ret (Some n, None) ->
  exists g0 : findHelper,
    g0 = {| f_fs := fs; f_ignoreInjectedFaults := false;
            f_links := f_links g0; f_nameRem := ""; f_n := n;
            f_resolveSymlinks := true |} /\
    0 <= f_links g0 /\
    findHelper_injectedFault h g0 = Ret None /\
    forall q, VirtualFileSystem_Stat h fs (p ++ "/" ++ q)
              = Stat_of (run_result (findHelper_run h (set_nameRem g0 q))).
Proof.
  intros Hcwd Hstat.
  destruct (abs_comps fs p Hcwd) as (x & Hx & Hcx).
  rewrite (Stat_run h fs p x Hx) in Hstat.
  destruct (findHelper_run h (find_start fs x false true)) as [[g0 [e| ]]| |] eqn:Hr;
    try discriminate.
  injection Hstat as Hg0.
  destruct (run_ok_end h _ _ g0 (Nat.le_refl _) Hr) as (Hend & Hfault & Hpol).
  pose proof (run_ok_links h _ _ g0 (Nat.le_refl _) Hr) as Hlinks.
  destruct Hpol as (Hfs & Hign & Hres).
  cbn [find_start f_fs f_ignoreInjectedFaults f_resolveSymlinks f_links]
    in Hfs, Hign, Hres, Hlinks.
  exists g0. split; [destruct g0; cbn in *; congruence|].
  split; [exact Hlinks|]. split; [exact Hfault|].
  intros q.
  destruct (abs_comps fs (p ++ "/" ++ q) Hcwd) as (y & Hy & Hcy).
  rewrite (Stat_run h fs _ y Hy).
  rewrite comps_app, <- Hcx in Hcy.
  rewrite <- (find_start_nameRem fs x y).
  rewrite (run_compose_comps h (find_start fs x false true) g0 y q Hcy Hr).
  reflexivity.
Qed.

Lemma Open_of_Stat_eq (h : store) (fs : VirtualFileSystem) (a b : string) :
  VirtualFileSystem_Stat h fs a = VirtualFileSystem_Stat h fs b ->
  VirtualFileSystem_Open h fs a = VirtualFileSystem_Open h fs b.
Proof.
  unfold VirtualFileSystem_Stat, VirtualFileSystem_Open.
  destruct (VirtualFileSystem_find h fs a false true) as [[[n s] [e| ]]|v| ];
    destruct (VirtualFileSystem_find h fs b false true) as [[[n' s'] [e'| ]]|v'| ];
    cbn [go_bind]; intros H; try discriminate; congruence.
Qed.

Lemma Open_of_Stat_error (h : store) (fs : VirtualFileSystem) (a : string)
    (e : error) :
  VirtualFileSystem_Stat h fs a = Ret (None, Some e) ->
  VirtualFileSystem_Open h fs a = Ret (None, Some e).
Proof.
  unfold VirtualFileSystem_Stat, VirtualFileSystem_Open.
  destruct (VirtualFileSystem_find h fs a false true) as [[[n s] [e0| ]]|v| ];
    cbn [go_bind]; intros H; try discriminate; congruence.
Qed.

Lemma string_of_absolute (b : byte) (t : list byte) :
  Byte.eqb b Byte.x2f = true ->
  string_of_list_byte (b :: t) = String "/" (string_of_list_byte t).
Proof.
  intros Hb. destruct b; try discriminate Hb. reflexivity.
Qed.

(** X25.  Resolving through a symlink is resolving its target: if [p]
    resolves to a directory whose first child named [c] is a symlink, then
    [Stat] and [Open] of [p/c/q] give what they give for the target
    followed by [q], the target being taken from the root when it starts
    with a separator and from [p] otherwise; or they fail with the
    too-many-links error. *)
Theorem Stat_through_symlink (h : store) (fs : VirtualFileSystem)
    (p c q : string) (n k : ptr) (nd child : node) (dir : list ptr)
    (target : list byte) :
  cwd fs = "/" ->
  VirtualFileSystem_Stat h fs p = Ret (Some n, None) ->
  h !! n = Some nd ->
  Z.land (node_mode nd) ModeDir <> 0 ->
  node_extra nd = ExtraDir dir ->
  valid_comp c ->
  dirLookup_children h dir c = Ret (Some k) ->
  h !! k = Some child ->
  Z.land (node_mode child) ModeSymlink <> 0 ->
  node_extra child = ExtraBytes target ->
  let t := string_of_list_byte target in
  let dest := match target with
              | b :: _ => if Byte.eqb b Byte.x2f then t else (p ++ "/" ++ t)%string
              | [] => (p ++ "/" ++ t)%string
              end in
  (VirtualFileSystem_Stat h fs (p ++ "/" ++ c ++ "/" ++ q)
   = VirtualFileSystem_Stat h fs (dest ++ "/" ++ q) /\
   VirtualFileSystem_Open h fs (p ++ "/" ++ c ++ "/" ++ q)
   = VirtualFileSystem_Open h fs (dest ++ "/" ++ q)) \/
  (VirtualFileSystem_Stat h fs (p ++ "/" ++ c ++ "/" ++ q)
   = Ret (None, Some errTooManyLinks) /\
   VirtualFileSystem_Open h fs (p ++ "/" ++ c ++ "/" ++ q)
   = Ret (None, Some errTooManyLinks)).
Proof.
  intros Hcwd Hstat Hn Hm Hx (Hne & Hns & Hnd) Hl Hk Hsym Hxc t dest.
  assert (Hgoal :
    VirtualFileSystem_Stat h fs (p ++ "/" ++ c ++ "/" ++ q)
    = VirtualFileSystem_Stat h fs (dest ++ "/" ++ q) \/
    VirtualFileSystem_Stat h fs (p ++ "/" ++ c ++ "/" ++ q)
    = Ret (None, Some errTooManyLinks)).
  2:{ destruct Hgoal as [H|H]; [left|right]; (split; [exact H|]).
      - apply Open_of_Stat_eq. exact H.
      - apply Open_of_Stat_error. exact H. }
  destruct (Stat_end h fs p n Hcwd Hstat) as (g0 & Hg0 & Hlinks & Hfault & Hbelow).
  rewrite (Hbelow (c ++ "/" ++ q)%string).
  destruct (first_comp_app c q Hns) as (Hfc & Haf & _).
  assert (Hse : str_is_empty (c ++ "/" ++ q) = false).
  { destruct c; [discriminate Hne|reflexivity]. }
  rewrite run_unfold. cbn [set_nameRem f_nameRem]. rewrite Hse.
  rewrite (body_head h _ nd); cbn [set_nameRem f_nameRem f_n]; rewrite ?Hfc; auto.
  2:{ rewrite Hg0. exact Hn. }
  apply Z.eqb_neq in Hm. rewrite Hm.
  unfold dirLookup. rewrite Hx. cbn [assert_dir go_bind]. rewrite Hl.
  cbn [go_bind]. rewrite Haf.
  unfold findHelper_updateFromChildN, deref. rewrite Hk. cbn [go_bind].
  apply Z.eqb_neq in Hsym. rewrite Hsym. cbn [negb].
  rewrite Hg0. cbn [set_nameRem set_links set_n f_resolveSymlinks f_links
                    f_nameRem f_fs f_n f_ignoreInjectedFaults].
  destruct (f_links g0 + 1 >? 255); [right; reflexivity|].
  rewrite Hxc. cbn [assert_bytes go_bind]. fold t.
  assert (Hrel :
    (p ++ "/" ++ t) = dest ->
    Stat_of (run_result (findHelper_run h
       {| f_fs := fs; f_ignoreInjectedFaults := false;
          f_links := f_links g0 + 1; f_nameRem := slice_from t 0 ++ "/" ++ q;
          f_n := n; f_resolveSymlinks := true |}))
    = VirtualFileSystem_Stat h fs (dest ++ "/" ++ q) \/
    Stat_of (run_result (findHelper_run h
       {| f_fs := fs; f_ignoreInjectedFaults := false;
          f_links := f_links g0 + 1; f_nameRem := slice_from t 0 ++ "/" ++ q;
          f_n := n; f_resolveSymlinks := true |}))
    = Ret (None, Some errTooManyLinks)).
  { intros <-. rewrite !str_app_assoc. change ("/" ++ t ++ "/" ++ q)%string
      with ("/" ++ (t ++ "/" ++ q))%string.
    rewrite (Hbelow (t ++ "/" ++ q)%string).
    destruct (Stat_of_shift h 1 (set_nameRem g0 (t ++ "/" ++ q)) ltac:(lia))
      as [H|H]; [right|left]; rewrite <- H; rewrite Hg0; reflexivity. }
  destruct target as [|b tl]; [apply Hrel; reflexivity|].
  destruct (Byte.eqb b Byte.x2f) eqn:Hb; [|apply Hrel; reflexivity].
  cbn [go_bind]. unfold dest, t.
  rewrite (string_of_absolute b tl Hb).
  rewrite (Stat_run h fs _ (string_of_list_byte tl ++ "/" ++ q)).
  2:{ unfold VirtualFileSystem_abs. cbn [append]. apply slice_from_checked_1. }
  destruct (Stat_of_shift h (f_links g0 + 1)
              (find_start fs (string_of_list_byte tl ++ "/" ++ q) false true)
              ltac:(lia)) as [H|H]; [right|left]; rewrite <- H; reflexivity.
Qed.

Lemma Stat_through_symlink_witness :
  let h := [ {| node_err := None; node_extra := ExtraDir [1%nat];
                node_mode := ModeDir; node_name := "/" |};
             {| node_err := None; node_extra := ExtraDir [2%nat; 3%nat];
                node_mode := ModeDir; node_name := "d" |};
             {| node_err := None; node_extra := ExtraBytes (bytes "data");
                node_mode := 0; node_name := "f" |};
             {| node_err := None; node_extra := ExtraBytes (bytes "f");
                node_mode := ModeSymlink; node_name := "l" |} ] in
  cwd fs0 = "/" /\
  VirtualFileSystem_Stat h fs0 "/d" = Ret (Some 1%nat, None) /\
  ((VirtualFileSystem_Stat h fs0 ("/d" ++ "/" ++ "l" ++ "/" ++ "")
    = VirtualFileSystem_Stat h fs0 (("/d" ++ "/" ++ "f") ++ "/" ++ "") /\
    VirtualFileSystem_Open h fs0 ("/d" ++ "/" ++ "l" ++ "/" ++ "")
    = VirtualFileSystem_Open h fs0 (("/d" ++ "/" ++ "f") ++ "/" ++ "")) \/
   (VirtualFileSystem_Stat h fs0 ("/d" ++ "/" ++ "l" ++ "/" ++ "")
    = Ret (None, Some errTooManyLinks) /\
    VirtualFileSystem_Open h fs0 ("/d" ++ "/" ++ "l" ++ "/" ++ "")
    = Ret (None, Some errTooManyLinks))).
Proof.
  intros h. split; [reflexivity|]. split; [reflexivity|].
  apply (Stat_through_symlink h fs0 "/d" "l" "" 1%nat 3%nat
           {| node_err := None; node_extra := ExtraDir [2%nat; 3%nat];
              node_mode := ModeDir; node_name := "d" |}
           {| node_err := None; node_extra := ExtraBytes (bytes "f");
              node_mode := ModeSymlink; node_name := "l" |}
           [2%nat; 3%nat] (bytes "f"));
    try reflexivity; try discriminate.
  repeat split.
Defined.

(** ** Descriptors on a well-formed store *)

(** X26.  In a well-formed store the descriptor that [Open] returns can be
    used: it stands at position 0 on an allocated node, [Read] returns for
    every buffer, [Readdir] returns for every count that is not positive,
    and [Close] returns no error. *)
Theorem Open_descriptor_well_formed (h : store) (fs : VirtualFileSystem)
    (name : string) (r : virtualFileDescriptor) :
  wf_store fs h ->
  VirtualFileSystem_Open h fs name = Ret (Some r, None) ->
  fd_readPos r = 0 /\
  (exists nd, h !! fd_node r = Some nd) /\
  (forall p, exists x, virtualFileDescriptor_Read h r p = Ret x) /\
  (forall m, m <= 0 -> exists x, virtualFileDescriptor_Readdir h r m = Ret x) /\
  virtualFileDescriptor_Close r = None.
Proof.
  intros Hwf Hopen.
  pose proof (find_wf fs h Hwf name false true) as Hfind.
  unfold VirtualFileSystem_Open in Hopen. revert Hfind Hopen.
  destruct (VirtualFileSystem_find h fs name false true)
    as [[[n s] [e| ]]|v| ]; cbn [go_bind]; intros Hfind Hopen; try discriminate.
  injection Hopen as <-. cbn [fd_node fd_readPos].
  destruct (lookup_lt_is_Some_2 h n Hfind) as [nd Hnd].
  pose proof (wf_store_lookup fs h n nd Hwf Hnd) as Hw. unfold wf_node in Hw.
  split; [reflexivity|]. split; [eauto|]. split; [|split; [|reflexivity]].
  - intros p. unfold virtualFileDescriptor_Read, deref. cbn [fd_node fd_readPos].
    rewrite Hnd. cbn [go_bind].
    destruct (FileMode_IsRegular (node_mode nd)) eqn:Hreg; cbn [negb]; [|eauto].
    destruct (Z.of_nat (length p) >? 0); [|eauto].
    pose proof (regular_not_dir _ Hreg) as Hd. unfold FileMode_IsDir in Hd.
    destruct (Z.land (node_mode nd) ModeDir =? 0); [|discriminate].
    destruct Hw as [b ->]. cbn [assert_bytes go_bind].
    replace (0 <=? Z.of_nat (length b)) with true by (symmetry; apply Z.leb_le; lia).
    cbn [Z.leb andb]. unfold copy. eauto.
  - intros m Hm. unfold virtualFileDescriptor_Readdir, deref. cbn [fd_node].
    rewrite Hnd. cbn [go_bind]. unfold FileMode_IsDir.
    destruct (Z.land (node_mode nd) ModeDir =? 0); cbn [negb]; [eauto|].
    replace (m >? 0) with false
      by (symmetry; rewrite Z.gtb_ltb; apply Z.ltb_ge; lia).
    destruct Hw as (_ & dir & -> & _). cbn [assert_dir go_bind].
    destruct (Nat.eqb (length dir) 0); eauto.
Qed.

Lemma Open_descriptor_well_formed_witness :
  let r := {| fd_node := O; fd_readPos := 0 |} in
  wf_store fs0 new_store /\
  VirtualFileSystem_Open new_store fs0 "/" = Ret (Some r, None) /\
  fd_readPos r = 0 /\
  (exists nd, new_store !! fd_node r = Some nd) /\
  (forall p, exists x, virtualFileDescriptor_Read new_store r p = Ret x) /\
  (forall m, m <= 0 ->
             exists x, virtualFileDescriptor_Readdir new_store r m = Ret x) /\
  virtualFileDescriptor_Close r = None.
Proof.
  intros r. split; [exact wf_new_store|]. split; [reflexivity|].
  apply (Open_descriptor_well_formed new_store fs0 "/" r wf_new_store).
  reflexivity.
Defined.

(** X27.  A new entry comes last in the listing of its directory: when the
    lookup of [Set] stops in a directory in front of one ordinary component
    that the directory does not hold, [Set] returns, and [Readdir] on a
    descriptor of that directory lists what it listed before the call
    followed by the new node, which bears the name of the component. *)
Theorem Readdir_after_Set (h : store) (fs : VirtualFileSystem)
    (name c : string) (vfile : VirtualFile) (r : virtualFileDescriptor) (m : Z) :
  Set_mode_ok vfile = true ->
  valid_comp c ->
  VirtualFileSystem_find h fs name true false
  = Ret (fd_node r, c, Some ErrNotExist) ->
  m <= 0 ->
  exists (dir : list ptr) (h' : store),
    virtualFileDescriptor_Readdir h r m = Ret (dir, None) /\
    VirtualFileSystem_Set fs name vfile h = (h', Ret tt) /\
    virtualFileDescriptor_Readdir h' r m = Ret ((dir ++ [length h])%list, None) /\
    node_Name h' (length h) = Ret c.
Proof.
  intros Hok Hv Hfind Hm.
  pose proof (find_lookup_outcomes h fs name _ _ _ Hfind) as Hout.
  destruct Hout as (Hne & nd & Hn & [[Hc _]|(_ & Hmode & dir & Hx & _)]);
    [discriminate|].
  assert (Hlt : (fd_node r < length h)%nat) by (eapply lookup_lt_Some; eauto).
  assert (Hm0 : (m >? 0) = false)
    by (rewrite Z.gtb_ltb; apply Z.ltb_ge; lia).
  apply Z.eqb_neq in Hmode.
  exists dir, (<[fd_node r := with_child nd dir (length h)]> h
               ++ [leaf_node c vfile])%list.
  split; [|split; [|split]].
  - unfold virtualFileDescriptor_Readdir, deref. rewrite Hn. cbn [go_bind].
    unfold FileMode_IsDir. rewrite Hmode, Hm0, Hx. cbn [negb assert_dir go_bind].
    destruct dir; reflexivity.
  - rewrite Set_unfold, Hok, Hfind. cbn [negb error_is error_eqb].
    destruct Hv as (Hce & Hcs & Hcd). rewrite Hce. cbn [negb].
    unfold VirtualFileSystem_createChildren.
    apply (createChildren_chain vfile [] c _ (fd_node r) h nd dir); auto.
    constructor; [repeat split; auto|constructor].
  - unfold virtualFileDescriptor_Readdir, deref.
    rewrite lookup_app_l by (rewrite length_insert; exact Hlt).
    rewrite list_lookup_insert_eq by exact Hlt. cbn [go_bind].
    unfold FileMode_IsDir. cbn [with_child node_mode node_extra].
    rewrite Hmode, Hm0. cbn [negb assert_dir go_bind].
    rewrite length_app. cbn [length].
    replace (length dir + 1 =? 0)%nat with false
      by (symmetry; apply Nat.eqb_neq; lia).
    reflexivity.
  - unfold node_Name, deref.
    rewrite lookup_app_r by (rewrite length_insert; lia).
    rewrite length_insert, Nat.sub_diag. reflexivity.
Qed.

Lemma Readdir_after_Set_witness :
  let h := file_a_b (bytes "data") 0 None in
  let r := {| fd_node := 1%nat; fd_readPos := 0 |} in
  Set_mode_ok (regular_file "x") = true /\
  valid_comp "c" /\
  VirtualFileSystem_find h fs0 "/a/c" true false
  = Ret (fd_node r, "c", Some ErrNotExist) /\
  exists (dir : list ptr) (h' : store),
    virtualFileDescriptor_Readdir h r 0 = Ret (dir, None) /\
    VirtualFileSystem_Set fs0 "/a/c" (regular_file "x") h = (h', Ret tt) /\
    virtualFileDescriptor_Readdir h' r 0 = Ret ((dir ++ [length h])%list, None) /\
    node_Name h' (length h) = Ret "c".
Proof.
  intros h r.
  assert (Hv : valid_comp "c") by (repeat split; reflexivity).
  split; [reflexivity|]. split; [exact Hv|]. split; [reflexivity|].
  apply (Readdir_after_Set h fs0 "/a/c" "c" (regular_file "x") r 0);
    [reflexivity|exact Hv|reflexivity|lia].
Defined.
(** ** Symlink cycles in which the path left to resolve grows *)

Section Cycles.

Variable h : store.




End Cycles.
(** ** Opening a regular file and reading it to the end *)

(** X28.  When [P] resolves, links followed and injected errors checked, to a
    regular file of content [C], [Open(P)] returns a descriptor on that node
    at offset zero.  Reading from it with non-empty buffers transfers the
    bytes of [C] in order from the start: after buffers of total length [t]
    the bytes transferred are the first [t] bytes of [C], hence all of [C]
    once [t] reaches its length.  From then on every [Read] with a non-empty
    buffer transfers nothing, returns 0 and [io.EOF], and leaves the
    descriptor as it is, so that the same holds for every later call.
    A path of valid components set to a regular file in a new file system
    does resolve that way, to a node that holds the content it was set to. *)
Theorem Open_read_to_completion (h : store) (fs : VirtualFileSystem)
    (P : string) (p0 : ptr) (rem : string) (nd : node) (C : list byte) :
  VirtualFileSystem_find h fs P false true = Ret (p0, rem, None) ->
  h !! p0 = Some nd ->
  FileMode_IsRegular (node_mode nd) = true ->
  node_extra nd = ExtraBytes C ->
  let r := {| fd_node := p0; fd_readPos := 0 |} in
  VirtualFileSystem_Open h fs P = Ret (Some r, None) /\
  (forall bufs : list (list byte),
     Forall (fun p => p <> []) bufs ->
     exists r',
       Read_each h r bufs = Ret (r', take (total_length bufs) C) /\
       ((length C <= total_length bufs)%nat ->
        take (total_length bufs) C = C /\
        forall p : list byte, p <> [] ->
          virtualFileDescriptor_Read h r' p = Ret (r', p, 0, Some EOF))) /\
  (forall (c : string) (cs : list string) (C' : list byte) (m : FileMode),
     Forall valid_comp (c :: cs) ->
     FileMode_IsRegular m = true ->
     let P' := String "/" (join_slash (c :: cs)) in
     exists h' nd',
       built [(P', {| Content := C'; Mode := m; Error := None |})] = (h', Ret fs0) /\
       VirtualFileSystem_find h' fs0 P' false true = Ret (S (length cs), "", None) /\
       h' !! S (length cs) = Some nd' /\
       FileMode_IsRegular (node_mode nd') = true /\
       node_extra nd' = ExtraBytes C').
Proof.
  intros Hf Hn Hm Hx r. split; [|split].
  - unfold VirtualFileSystem_Open. rewrite Hf. reflexivity.
  - intros bufs Hb.
    assert (Hpos : 0 <= fd_readPos r <= Z.of_nat (length C)) by (simpl; lia).
    pose proof (Read_each_regular h nd C Hm Hx bufs r Hn Hb Hpos) as Hr.
    simpl in Hr. eexists. split; [exact Hr|].
    intros Hlen. split; [apply take_ge; exact Hlen|].
    intros p Hp.
    apply (Read_at_end h nd C Hm Hx _ p); auto.
    simpl. rewrite Nat.min_r by exact Hlen. reflexivity.
  - intros c cs C' m Hv Hreg P'.
    destruct (new_entry_resolves c cs {| Content := C'; Mode := m; Error := None |}
                Hv (mode_ok_regular C' m None Hreg) (regular_not_symlink m Hreg))
      as (Hb & Hleaf & Hfind).
    cbv zeta in Hb, Hleaf, Hfind.
    eexists. eexists. split; [exact Hb|].
    split; [apply (Hfind false true)|].
    split; [exact Hleaf|].
    split; [exact Hreg|].
    pose proof (regular_not_dir m Hreg) as Hd. unfold FileMode_IsDir in Hd.
    apply negb_false_iff in Hd.
    unfold leaf_node. cbn [node_extra Mode Content]. rewrite Hd. reflexivity.
Qed.

Lemma Open_read_to_completion_witness :
  exists h,
    built [("/dir/file.txt", regular_file "hello")] = (h, Ret fs0) /\
    VirtualFileSystem_find h fs0 "/dir/file.txt" false true = Ret (2%nat, "", None) /\
    h !! 2%nat = Some {| node_err := None; node_extra := ExtraBytes (bytes "hello");
                          node_mode := 0; node_name := "file.txt" |} /\
    let r := {| fd_node := 2%nat; fd_readPos := 0 |} in
    VirtualFileSystem_Open h fs0 "/dir/file.txt" = Ret (Some r, None) /\
    forall bufs : list (list byte),
      Forall (fun p => p <> []) bufs ->
      exists r',
        Read_each h r bufs = Ret (r', take (total_length bufs) (bytes "hello")) /\
        ((length (bytes "hello") <= total_length bufs)%nat ->
         take (total_length bufs) (bytes "hello") = bytes "hello" /\
         forall p : list byte, p <> [] ->
           virtualFileDescriptor_Read h r' p = Ret (r', p, 0, Some EOF)).
Proof.
  exists (fst (built [("/dir/file.txt", regular_file "hello")])).
  split; [vm_compute; reflexivity|].
  split; [vm_compute; reflexivity|].
  split; [vm_compute; reflexivity|].
  intros r.
  destruct (Open_read_to_completion
              (fst (built [("/dir/file.txt", regular_file "hello")]))
              fs0 "/dir/file.txt" 2%nat ""
              {| node_err := None; node_extra := ExtraBytes (bytes "hello");
                 node_mode := 0; node_name := "file.txt" |}
              (bytes "hello"))
    as (Hopen & Hread & _).
  - vm_compute; reflexivity.
  - vm_compute; reflexivity.
  - reflexivity.
  - reflexivity.
  - split; [exact Hopen|exact Hread].
Defined.

(** * The claims *)

(** C1.  The claim asks that [Set] on an existing symlink, with a symlink
    or regular-file descriptor, update the node.  In the file system built
    from the single entry [/x -> /y], [Set("/x", ...)] with a symlink
    descriptor, and with a regular-file descriptor, panics with the
    directory-disagreement error and leaves the store, and so the target of
    [/x], as it was: the lookup that [Set] makes stands on the root
    directory, not on the symlink. *)
Theorem Set_on_existing_symlink_panics :
  exists h,
    built [("/x", symlink_to "/y")] = (h, Ret fs0) /\
    h !! 1%nat = Some {| node_err := None; node_extra := ExtraBytes (bytes "/y");
                          node_mode := ModeSymlink; node_name := "x" |} /\
    VirtualFileSystem_find h fs0 "/x" true false = Ret (O, "", None) /\
    VirtualFileSystem_Set fs0 "/x" (symlink_to "/z") h
    = (h, Panicked (PanicError errIsDirDisagreement)) /\
    VirtualFileSystem_Set fs0 "/x" (regular_file "data") h
    = (h, Panicked (PanicError errIsDirDisagreement)).
Proof.
  exists (fst (built [("/x", symlink_to "/y")])).
  split; [vm_compute; reflexivity|].
  split; [vm_compute; reflexivity|].
  split; [vm_compute; reflexivity|].
  split; vm_compute; reflexivity.
Qed.

(** C2.  The claim asks that the current node become the matched child
    whenever no redirection takes place.  In the file system built from the
    single entry [/x -> /y], the walk of [/x] without symlink resolution
    matches the component [x] with the child at address 1, a symlink;
    [updateFromChildN] redirects nothing and returns the helper unchanged,
    the current node still the root (address 0), and [find] returns the
    root for the path [/x]. *)
Theorem find_keeps_parent_at_symlink :
  exists h,
    built [("/x", symlink_to "/y")] = (h, Ret fs0) /\
    let f := find_start fs0 "x" true false in
    findHelper_getChildN h f "x" = Ret (Some 1%nat, None) /\
    f_resolveSymlinks f = false /\
    findHelper_updateFromChildN h (set_nameRem f "") 1%nat
    = Ret (set_nameRem f "", None) /\
    f_n (set_nameRem f "") = root fs0 /\
    root fs0 <> 1%nat /\
    VirtualFileSystem_find h fs0 "/x" true false = Ret (root fs0, "", None).
Proof.
  exists (fst (built [("/x", symlink_to "/y")])).
  split; [vm_compute; reflexivity|].
  intros f.
  split; [vm_compute; reflexivity|].
  split; [reflexivity|].
  split; [vm_compute; reflexivity|].
  split; [reflexivity|].
  split; [discriminate|].
  vm_compute; reflexivity.
Qed.

(** C3, as stated, fails.  [/a] is set as a directory with injected error
    E1, then [/a/b] as a file with injected error E2: the node of [/a/b]
    carries E2, and [Stat("/a/b")] and [Open("/a/b")] return E1, the error
    of the directory the walk comes to first. *)
Lemma ancestor_error_is_returned_first :
  exists h,
    after_sets [("/a", directory (Some (Custom "E1")));
                ("/a/b", {| Content := bytes "data"; Mode := 0;
                            Error := Some (Custom "E2") |})]
    = (h, Ret tt) /\
    h !! 2%nat = Some {| node_err := Some (Custom "E2");
                          node_extra := ExtraBytes (bytes "data");
                          node_mode := 0; node_name := "b" |} /\
    VirtualFileSystem_find h fs0 "/a/b" true false = Ret (2%nat, "", None) /\
    VirtualFileSystem_Stat h fs0 "/a/b" = Ret (None, Some (Custom "E1")) /\
    VirtualFileSystem_Open h fs0 "/a/b" = Ret (None, Some (Custom "E1")) /\
    VirtualFileSystem_Stat h fs0 "/a/b" <> Ret (None, Some (Custom "E2")) /\
    VirtualFileSystem_Open h fs0 "/a/b" <> Ret (None, Some (Custom "E2")).
Proof.
  exists (fst (after_sets [("/a", directory (Some (Custom "E1")));
                           ("/a/b", {| Content := bytes "data"; Mode := 0;
                                       Error := Some (Custom "E2") |})])).
  split; [vm_compute; reflexivity|].
  split; [vm_compute; reflexivity|].
  split; [vm_compute; reflexivity|].
  split; [vm_compute; reflexivity|].
  split; [vm_compute; reflexivity|].
  split; vm_compute; discriminate.
Qed.

(** C3, amended.  [Stat(P)] and [Open(P)] return the injected error of the
    first node that the walk of [P] stands on that carries one: when the
    walk of [P], links followed and injected errors checked, reaches, with
    no iteration before having failed, a state whose current node carries
    the injected error [E] (with path left to resolve, the node is an
    intermediate one; with none left, it is the terminal one), both
    operations fail and return exactly [E].  So they do for the one entry
    of a new file system, when its path is made of valid components and its
    descriptor, not a symlink, carries [E]. *)
Theorem injected_error_reached_is_returned (h : store)
    (fs : VirtualFileSystem) (P nameRem : string) (f' : findHelper)
    (nd : node) (E : error) :
  slice_from_checked (VirtualFileSystem_abs fs P) 1 = Ret nameRem ->
  run_reaches h (find_start fs nameRem false true) f' ->
  h !! f_n f' = Some nd ->
  node_err nd = Some E ->
  VirtualFileSystem_Stat h fs P = Ret (None, Some E) /\
  VirtualFileSystem_Open h fs P = Ret (None, Some E) /\
  (forall (c : string) (cs : list string) (vfile : VirtualFile) (E' : error),
     Forall valid_comp (c :: cs) ->
     Set_mode_ok vfile = true ->
     Z.land (Mode vfile) ModeSymlink = 0 ->
     Error vfile = Some E' ->
     let P' := String "/" (join_slash (c :: cs)) in
     exists h',
       built [(P', vfile)] = (h', Ret fs0) /\
       VirtualFileSystem_Stat h' fs0 P' = Ret (None, Some E') /\
       VirtualFileSystem_Open h' fs0 P' = Ret (None, Some E')).
Proof.
  intros Hs Hr Hn He.
  assert (Hf : VirtualFileSystem_find h fs P false true
               = Ret (f_n f', f_nameRem f', Some E)).
  { unfold VirtualFileSystem_find. rewrite Hs. cbn [go_bind].
    rewrite (run_reaches_fault h (find_start fs nameRem false true) f' nd E
               eq_refl Hr Hn He).
    reflexivity. }
  split; [|split].
  - unfold VirtualFileSystem_Stat. rewrite Hf. reflexivity.
  - unfold VirtualFileSystem_Open. rewrite Hf. reflexivity.
  - intros c cs vfile E' Hv Hok Hl HE P'.
    destruct (new_entry_resolves c cs vfile Hv Hok Hl) as (Hb & _ & Hfind).
    cbv zeta in Hb, Hfind. unfold P'. eexists. split; [exact Hb|].
    unfold VirtualFileSystem_Stat, VirtualFileSystem_Open.
    rewrite (Hfind false true), HE. split; reflexivity.
Qed.

Lemma injected_error_reached_is_returned_witness :
  let h := fst (after_sets [("/a", directory (Some (Custom "E1")));
                            ("/a/b", regular_file "data")]) in
  let f' := {| f_fs := fs0; f_ignoreInjectedFaults := false; f_links := 0;
               f_nameRem := "b"; f_n := 1%nat; f_resolveSymlinks := true |} in
  let nd := {| node_err := Some (Custom "E1"); node_extra := ExtraDir [2%nat];
               node_mode := ModeDir; node_name := "a" |} in
  slice_from_checked (VirtualFileSystem_abs fs0 "/a/b") 1 = Ret "a/b" /\
  run_reaches h (find_start fs0 "a/b" false true) f' /\
  h !! f_n f' = Some nd /\
  node_err nd = Some (Custom "E1") /\
  VirtualFileSystem_Stat h fs0 "/a/b" = Ret (None, Some (Custom "E1")) /\
  VirtualFileSystem_Open h fs0 "/a/b" = Ret (None, Some (Custom "E1")).
Proof.
  intros h f' nd.
  assert (H1 : slice_from_checked (VirtualFileSystem_abs fs0 "/a/b") 1 = Ret "a/b")
    by reflexivity.
  assert (H2 : run_reaches h (find_start fs0 "a/b" false true) f').
  { apply (run_reaches_step h _ f' f');
      [reflexivity|vm_compute; reflexivity|apply run_reaches_here]. }
  assert (H3 : h !! f_n f' = Some nd) by (vm_compute; reflexivity).
  assert (H4 : node_err nd = Some (Custom "E1")) by reflexivity.
  split; [exact H1|]. split; [exact H2|]. split; [exact H3|]. split; [exact H4|].
  destruct (injected_error_reached_is_returned h fs0 "/a/b" "a/b" f' nd
              (Custom "E1") H1 H2 H3 H4) as (Hstat & Hopen & _).
  split; [exact Hstat|exact Hopen].
Defined.



(** C5.  In a new file system in which [/a/b] has been set as a regular file
    (any content, any regular mode, any injected error), every call
    [Set("/a/b/c", d)] panics and leaves the store exactly as it was; the
    value panicked with is the directory-disagreement error for every
    descriptor [d] that passes the mode check of [Set] (the check comes
    first, so a descriptor that fails it is refused with the bad-mode
    error instead, the store untouched as well). *)
Theorem Set_below_regular_file_fails (C : list byte) (m : FileMode)
    (E : option error) :
  FileMode_IsRegular m = true ->
  built [] = (new_store, Ret fs0) /\
  exists h1,
    VirtualFileSystem_Set fs0 "/a/b" {| Content := C; Mode := m; Error := E |} new_store
    = (h1, Ret tt) /\
    forall d : VirtualFile, exists e,
      VirtualFileSystem_Set fs0 "/a/b/c" d h1 = (h1, Panicked (PanicError e)) /\
      (Set_mode_ok d = true -> e = errIsDirDisagreement).
Proof.
  intros Hm. split; [reflexivity|].
  exists (file_a_b C m E). split; [apply Set_a_b; exact Hm|].
  intros d. unfold VirtualFileSystem_Set.
  destruct (Set_mode_ok d); cbn [negb].
  - exists errIsDirDisagreement. split; [|reflexivity].
    unfold st_bind at 1. unfold st_lift at 1.
    rewrite (find_a_b_c C m E Hm). reflexivity.
  - exists errBadMode. split; [reflexivity|discriminate].
Qed.

Lemma Set_below_regular_file_fails_witness :
  FileMode_IsRegular 420 = true /\
  built [] = (new_store, Ret fs0) /\
  exists h1,
    VirtualFileSystem_Set fs0 "/a/b"
      {| Content := bytes "data"; Mode := 420; Error := None |} new_store
    = (h1, Ret tt) /\
    forall d : VirtualFile, exists e,
      VirtualFileSystem_Set fs0 "/a/b/c" d h1 = (h1, Panicked (PanicError e)) /\
      (Set_mode_ok d = true -> e = errIsDirDisagreement).
Proof.
  split; [reflexivity|].
  apply (Set_below_regular_file_fails (bytes "data") 420 None). reflexivity.
Defined.

(** C6.  The claim asks that a path set to regular-file content can be
    opened and read back.  For a path that ends in a separator
    [createChildren] makes the last named component with the defaults of an
    intermediate directory and leaves its loop on the empty component
    without ever applying the descriptor: in a new file system in which
    [/a/] has been set to a regular file of content [C], whatever [C] is,
    [/a] is an empty directory, [Open] of [/a/] (and of [/a]) returns a
    descriptor on it, and every [Read], whatever the buffer, transfers
    nothing and returns the bad-mode error; the content is nowhere in the
    store.  (Second instance: the lookup of [Set] stays on the
    parent when it meets a symlink; with [/d] a directory and [/l] a
    symlink to it, [Set] of [/l/f] returns after putting [f] in the root,
    and [Open] of [/l/f] fails with [os.ErrNotExist].) *)
Theorem Set_trailing_slash_drops_content (C p : list byte) :
  (exists h,
     built [("/a/", {| Content := C; Mode := 0; Error := None |})] = (h, Ret fs0) /\
     h = [ {| node_err := None; node_extra := ExtraDir [1%nat];
              node_mode := ModeDir; node_name := "/" |};
           newDirNode ModeDir "a" ] /\
     VirtualFileSystem_Open h fs0 "/a/"
     = Ret (Some {| fd_node := 1%nat; fd_readPos := 0 |}, None) /\
     VirtualFileSystem_Open h fs0 "/a"
     = Ret (Some {| fd_node := 1%nat; fd_readPos := 0 |}, None) /\
     virtualFileDescriptor_Read h {| fd_node := 1%nat; fd_readPos := 0 |} p
     = Ret ({| fd_node := 1%nat; fd_readPos := 0 |}, p, 0, Some errBadMode) /\
     Read_each h {| fd_node := 1%nat; fd_readPos := 0 |} [p]
     = Ret ({| fd_node := 1%nat; fd_readPos := 0 |}, [])) /\
  (exists h,
     after_sets [("/d/", directory None); ("/l", symlink_to "/d");
                 ("/l/f", {| Content := C; Mode := 0; Error := None |})]
     = (h, Ret tt) /\
     h !! 3%nat = Some {| node_err := None; node_extra := ExtraBytes C;
                          node_mode := 0; node_name := "f" |} /\
     h !! O = Some {| node_err := None; node_extra := ExtraDir [1%nat; 2%nat; 3%nat];
                      node_mode := ModeDir; node_name := "/" |} /\
     VirtualFileSystem_Open h fs0 "/l/f" = Ret (None, Some ErrNotExist) /\
     VirtualFileSystem_Open h fs0 "/f"
     = Ret (Some {| fd_node := 3%nat; fd_readPos := 0 |}, None)).
Proof.
  split.
  - exists (fst (built [("/a/", {| Content := C; Mode := 0; Error := None |})])).
    split; [vm_compute; reflexivity|].
    split; [vm_compute; reflexivity|].
    split; [vm_compute; reflexivity|].
    split; [vm_compute; reflexivity|].
    split; vm_compute; reflexivity.
  - set (h := [ {| node_err := None; node_extra := ExtraDir [1%nat; 2%nat; 3%nat];
                   node_mode := ModeDir; node_name := "/" |};
                newDirNode ModeDir "d";
                {| node_err := None; node_extra := ExtraBytes (bytes "/d");
                   node_mode := ModeSymlink; node_name := "l" |};
                {| node_err := None; node_extra := ExtraBytes C;
                   node_mode := 0; node_name := "f" |} ]).
    pose (st := fun (l : Z) (n : ptr) (s : string) =>
      {| f_fs := fs0; f_ignoreInjectedFaults := false; f_links := l;
         f_nameRem := s; f_n := n; f_resolveSymlinks := true |}).
    exists h.
    split; [vm_compute; reflexivity|].
    split; [reflexivity|]. split; [reflexivity|].
    split.
    + assert (R : findHelper_run h (st 0 O "l/f")
                  = Ret (st 1 1%nat "f", Some ErrNotExist)).
      { rewrite (run_reaches_run h _ (st 1 1%nat "f")).
        - assert (B : findHelper_run_body h (st 1 1%nat "f")
                      = Ret (st 1 1%nat "f", Some ErrNotExist))
            by (vm_compute; reflexivity).
          rewrite run_unfold.
          change (str_is_empty (f_nameRem (st 1 1%nat "f"))) with false.
          cbv iota. rewrite B. reflexivity.
        - apply (run_reaches_step h _ (st 1 O "d/f") _);
            [reflexivity|vm_compute; reflexivity|].
          apply (run_reaches_step h _ (st 1 1%nat "f") _);
            [reflexivity|vm_compute; reflexivity|apply run_reaches_here]. }
      assert (E : slice_from_checked (VirtualFileSystem_abs fs0 "/l/f") 1
                  = Ret "l/f") by reflexivity.
      unfold VirtualFileSystem_Open, VirtualFileSystem_find.
      rewrite E. cbn [go_bind].
      change (find_start fs0 "l/f" false true) with (st 0 O "l/f").
      rewrite R. reflexivity.
    + assert (R : findHelper_run h (st 0 O "f") = Ret (st 0 3%nat "", None)).
      { rewrite (run_reaches_run h _ (st 0 3%nat "")).
        - rewrite run_unfold. vm_compute. reflexivity.
        - apply (run_reaches_step h _ (st 0 3%nat "") _);
            [reflexivity|vm_compute; reflexivity|apply run_reaches_here]. }
      assert (E : slice_from_checked (VirtualFileSystem_abs fs0 "/f") 1
                  = Ret "f") by reflexivity.
      unfold VirtualFileSystem_Open, VirtualFileSystem_find.
      rewrite E. cbn [go_bind].
      change (find_start fs0 "f" false true) with (st 0 O "f").
      rewrite R. reflexivity.
Qed.

(** C7.  On a descriptor whose node is a directory with child list
    [children]: [Readdir(n)] with [n > 0] panics with the not-supported
    error; with [n <= 0] it returns, with a nil error, the whole child list
    in the order of the list, which is the order of insertion (a child
    appended to the directory comes last in the next listing).  [Read] on a
    descriptor whose node is not a regular file returns the bad-mode error
    and transfers nothing.  In the file system built from the single entry
    [/dir/file.txt], the listing of [/dir] has exactly one entry, named
    [file.txt]. *)
Theorem Readdir_directory_listing (h : store) (r : virtualFileDescriptor)
    (nd : node) (children : list ptr) :
  h !! fd_node r = Some nd ->
  FileMode_IsDir (node_mode nd) = true ->
  node_extra nd = ExtraDir children ->
  (forall n : Z, n > 0 ->
     virtualFileDescriptor_Readdir h r n = Panicked (PanicError errNotSupported)) /\
  (forall n : Z, n <= 0 ->
     virtualFileDescriptor_Readdir h r n = Ret (children, None)) /\
  (forall (c : ptr) (n : Z), n <= 0 ->
     exists h',
       dirAppend (fd_node r) c h = (h', Ret tt) /\
       virtualFileDescriptor_Readdir h' r n = Ret ((children ++ [c])%list, None)) /\
  (forall (r' : virtualFileDescriptor) (nd' : node) (p : list byte),
     h !! fd_node r' = Some nd' ->
     FileMode_IsRegular (node_mode nd') = false ->
     virtualFileDescriptor_Read h r' p = Ret (r', p, 0, Some errBadMode)) /\
  (exists h1 r1 entry,
     built [("/dir/file.txt", regular_file "hello")] = (h1, Ret fs0) /\
     VirtualFileSystem_Open h1 fs0 "/dir" = Ret (Some r1, None) /\
     virtualFileDescriptor_Readdir h1 r1 1 = Panicked (PanicError errNotSupported) /\
     virtualFileDescriptor_Readdir h1 r1 0 = Ret ([entry], None) /\
     virtualFileDescriptor_Readdir h1 r1 (-1) = Ret ([entry], None) /\
     node_Name h1 entry = Ret "file.txt").
Proof.
  intros Hn Hm Hx.
  assert (Hlist : forall (h0 : store) (nd0 : node) (l : list ptr) (n : Z),
            h0 !! fd_node r = Some nd0 ->
            FileMode_IsDir (node_mode nd0) = true ->
            node_extra nd0 = ExtraDir l ->
            n <= 0 ->
            virtualFileDescriptor_Readdir h0 r n = Ret (l, None)).
  { intros h0 nd0 l n H0 H1 H2 Hle.
    unfold virtualFileDescriptor_Readdir, deref. rewrite H0. simpl.
    rewrite H1, H2. simpl.
    replace (n >? 0) with false by (rewrite Z.gtb_ltb; symmetry; apply Z.ltb_ge; lia).
    destruct l; reflexivity. }
  split; [|split; [|split; [|split]]].
  - intros n Hpos.
    unfold virtualFileDescriptor_Readdir, deref. rewrite Hn. simpl.
    rewrite Hm. simpl.
    replace (n >? 0) with true by (symmetry; apply Z.gtb_lt; lia).
    reflexivity.
  - intros n Hle. apply (Hlist h nd children n); assumption.
  - intros c n Hle. eexists. split.
    + unfold dirAppend, st_bind, st_lift, st_write, deref.
      rewrite Hn. simpl. rewrite Hx. simpl. reflexivity.
    + apply (Hlist _ {| node_err := node_err nd;
                        node_extra := ExtraDir (children ++ [c]);
                        node_mode := node_mode nd;
                        node_name := node_name nd |});
        [|exact Hm|reflexivity|exact Hle].
      apply list_lookup_insert_eq. eapply lookup_lt_Some; eauto.
  - intros r' nd' p Hn' Hm'.
    unfold virtualFileDescriptor_Read, deref. rewrite Hn'. simpl.
    rewrite Hm'. reflexivity.
  - exists (fst (built [("/dir/file.txt", regular_file "hello")])),
      {| fd_node := 1%nat; fd_readPos := 0 |}, 2%nat.
    split; [vm_compute; reflexivity|].
    split; [vm_compute; reflexivity|].
    split; [vm_compute; reflexivity|].
    split; [vm_compute; reflexivity|].
    split; vm_compute; reflexivity.
Qed.

Lemma Readdir_directory_listing_witness :
  let h := [newDirNode 0 "/"; newDirNode ModeDir "dir"] in
  let r := {| fd_node := O; fd_readPos := 0 |} in
  h !! fd_node r = Some (newDirNode 0 "/") /\
  FileMode_IsDir (node_mode (newDirNode 0 "/")) = true /\
  node_extra (newDirNode 0 "/") = ExtraDir [] /\
  virtualFileDescriptor_Readdir h r 5 = Panicked (PanicError errNotSupported) /\
  virtualFileDescriptor_Readdir h r 0 = Ret ([], None).
Proof.
  intros h r.
  assert (H1 : h !! fd_node r = Some (newDirNode 0 "/")) by reflexivity.
  assert (H2 : FileMode_IsDir (node_mode (newDirNode 0 "/")) = true) by reflexivity.
  assert (H3 : node_extra (newDirNode 0 "/") = ExtraDir []) by reflexivity.
  destruct (Readdir_directory_listing h r (newDirNode 0 "/") [] H1 H2 H3)
    as (Hpos & Hle & _).
  split; [exact H1|]. split; [exact H2|]. split; [exact H3|].
  split; [apply Hpos; lia|apply Hle; lia].
Defined.

(** C8.  The claim asks that a second identical [Set] change nothing.  On a
    new file system, with the path [/a/] and a directory descriptor that
    carries an injected error, both calls return; the first creates [/a]
    with the default attributes and never looks at the descriptor, the
    second finds [/a] and writes the descriptor's error into it.  The two
    stores differ, and [Stat("/a")] succeeds after one call and fails with
    the injected error after two.  (With the path [/x] and a symlink
    descriptor the first call creates the symlink and the second panics
    with the directory-disagreement error, its lookup standing on the root;
    the store stays as the first call left it.) *)
Theorem Set_twice_trailing_slash_differs :
  let d := directory (Some (Custom "boom")) in
  (exists h1 h2,
     VirtualFileSystem_Set fs0 "/a/" d new_store = (h1, Ret tt) /\
     VirtualFileSystem_Set fs0 "/a/" d h1 = (h2, Ret tt) /\
     h1 <> h2 /\
     h1 !! 1%nat = Some (newDirNode ModeDir "a") /\
     h2 !! 1%nat = Some {| node_err := Some (Custom "boom"); node_extra := ExtraDir [];
                           node_mode := ModeDir; node_name := "a" |} /\
     VirtualFileSystem_Stat h1 fs0 "/a" = Ret (Some 1%nat, None) /\
     VirtualFileSystem_Stat h2 fs0 "/a" = Ret (None, Some (Custom "boom"))) /\
  (exists h1,
     VirtualFileSystem_Set fs0 "/x" (symlink_to "/y") new_store = (h1, Ret tt) /\
     VirtualFileSystem_Set fs0 "/x" (symlink_to "/y") h1
     = (h1, Panicked (PanicError errIsDirDisagreement))).
Proof.
  intros d. split.
  - exists (fst (VirtualFileSystem_Set fs0 "/a/" d new_store)).
    exists (fst (VirtualFileSystem_Set fs0 "/a/" d
                   (fst (VirtualFileSystem_Set fs0 "/a/" d new_store)))).
    split; [vm_compute; reflexivity|].
    split; [vm_compute; reflexivity|].
    split; [vm_compute; discriminate|].
    split; [vm_compute; reflexivity|].
    split; [vm_compute; reflexivity|].
    split; vm_compute; reflexivity.
  - exists (fst (VirtualFileSystem_Set fs0 "/x" (symlink_to "/y") new_store)).
    split; vm_compute; reflexivity.
Qed.

(** C9, as stated, fails.  On a new file system, [Stat] and [Open] of
    [/missing/..], a path with the component [..], do not panic: they
    return the ordinary does-not-exist error of the component before it. *)
Lemma dot_component_behind_missing_entry :
  has_dot_comp "/missing/.." = true /\
  VirtualFileSystem_Stat new_store fs0 "/missing/.." = Ret (None, Some ErrNotExist) /\
  VirtualFileSystem_Open new_store fs0 "/missing/.." = Ret (None, Some ErrNotExist) /\
  ~ (exists v, VirtualFileSystem_Stat new_store fs0 "/missing/.." = Panicked v).
Proof.
  split; [reflexivity|].
  split; [vm_compute; reflexivity|].
  split; [vm_compute; reflexivity|].
  intros [v Hv]. vm_compute in Hv. discriminate.
Qed.

(** C9, amended.  The components are checked one at a time, as the walk
    comes to them.  An iteration of [run] whose component is [.] or [..]
    panics with the error of [validateNameComp] (unless the injected error
    of the current node is returned first); it never returns an error value
    for the component.  For a path with such a component: [find] never
    returns nil, it panics or returns the error of an earlier component,
    with the [.] or [..] still in the path left to resolve; so [Stat] and
    [Open] panic or return that error; and [Set] always panics. *)
Theorem dot_component_panics_when_reached (h : store)
    (fs : VirtualFileSystem) (name : string) :
  cwd fs = "/" ->
  has_dot_comp name = true ->
  (forall f : findHelper,
     findHelper_injectedFault h f = Ret None ->
     is_dot_comp (findHelper_getNameComp f (IndexByte (f_nameRem f) "/")) = true ->
     findHelper_run_body h f = Panicked (PanicError errNameComp)) /\
  (forall ign res : bool,
     (exists v, VirtualFileSystem_find h fs name ign res = Panicked v) \/
     (exists n nameRem e,
        VirtualFileSystem_find h fs name ign res = Ret (n, nameRem, Some e) /\
        has_dot_comp nameRem = true)) /\
  ((exists v, VirtualFileSystem_Stat h fs name = Panicked v) \/
   (exists e, VirtualFileSystem_Stat h fs name = Ret (None, Some e))) /\
  ((exists v, VirtualFileSystem_Open h fs name = Panicked v) \/
   (exists e, VirtualFileSystem_Open h fs name = Ret (None, Some e))) /\
  (forall vfile : VirtualFile,
     exists h' v, VirtualFileSystem_Set fs name vfile h = (h', Panicked v)).
Proof.
  intros Hc Hd.
  split; [intros f; apply body_dot_panics|].
  split; [intros ign res; apply find_dot; assumption|].
  split; [apply Stat_dot; assumption|].
  split; [apply Open_dot; assumption|].
  intros vfile. apply Set_dot; assumption.
Qed.

Lemma dot_component_panics_when_reached_witness :
  cwd fs0 = "/" /\
  has_dot_comp "/a/../b" = true /\
  (exists h' v,
     VirtualFileSystem_Set fs0 "/a/../b" (regular_file "data") new_store
     = (h', Panicked v)) /\
  ((exists v, VirtualFileSystem_Stat new_store fs0 "/a/../b" = Panicked v) \/
   (exists e, VirtualFileSystem_Stat new_store fs0 "/a/../b" = Ret (None, Some e))).
Proof.
  assert (H1 : cwd fs0 = "/") by reflexivity.
  assert (H2 : has_dot_comp "/a/../b" = true) by reflexivity.
  destruct (dot_component_panics_when_reached new_store fs0 "/a/../b" H1 H2)
    as (_ & _ & Hstat & _ & Hset).
  split; [exact H1|]. split; [exact H2|].
  split; [exact (Hset (regular_file "data"))|exact Hstat].
Defined.

(** C10.  [Read] with a zero-length buffer: on a regular file it returns 0
    and a nil error and leaves the descriptor alone, wherever the read
    position is (at the end, past the end, anywhere); on a node that is not
    a regular file it returns the bad-mode error.  Hence a [Read] that
    returns [io.EOF] was given a non-empty buffer (and a regular file, and
    it transferred nothing). *)
Theorem Read_zero_length_buffer (h : store) (r : virtualFileDescriptor)
    (nd : node) :
  h !! fd_node r = Some nd ->
  (FileMode_IsRegular (node_mode nd) = true ->
   virtualFileDescriptor_Read h r [] = Ret (r, [], 0, None)) /\
  (FileMode_IsRegular (node_mode nd) = false ->
   virtualFileDescriptor_Read h r [] = Ret (r, [], 0, Some errBadMode)) /\
  (forall (p p' : list byte) (r' : virtualFileDescriptor) (n : Z),
     virtualFileDescriptor_Read h r p = Ret (r', p', n, Some EOF) ->
     p <> [] /\ n = 0 /\ FileMode_IsRegular (node_mode nd) = true).
Proof.
  intros Hn. unfold virtualFileDescriptor_Read, deref. rewrite Hn.
  cbn [go_bind].
  split; [|split].
  - intros ->. reflexivity.
  - intros ->. reflexivity.
  - intros p p' r' n H.
    destruct (FileMode_IsRegular (node_mode nd)); cbn [negb] in H; [|discriminate].
    destruct (Z.of_nat (length p) >? 0) eqn:Hp; [|discriminate].
    destruct (assert_bytes (node_extra nd)) as [C| |]; cbn [go_bind] in H;
      try discriminate.
    destruct (_ && _); [|discriminate].
    destruct (copy _ _) as [q k].
    destruct (k =? 0) eqn:Hk; [|discriminate].
    injection H as _ _ <-. apply Z.eqb_eq in Hk.
    split; [|split; [exact Hk|reflexivity]].
    intros ->. discriminate.
Qed.

Lemma Read_zero_length_buffer_witness :
  let h := [{| node_err := None; node_extra := ExtraBytes (bytes "hello");
               node_mode := 0; node_name := "f" |}] in
  let r := {| fd_node := O; fd_readPos := 9 |} in
  h !! fd_node r = Some {| node_err := None; node_extra := ExtraBytes (bytes "hello");
                           node_mode := 0; node_name := "f" |} /\
  virtualFileDescriptor_Read h r [] = Ret (r, [], 0, None).
Proof.
  intros h r. split; [reflexivity|].
  apply (Read_zero_length_buffer h r
           {| node_err := None; node_extra := ExtraBytes (bytes "hello");
              node_mode := 0; node_name := "f" |}); reflexivity.
Defined.
